(** * news_summarizer: a shallow embedding of the Python sources

  The development follows the layout of the repository:

  - [Py]          the fragment of Python the sources rely on (values,
                  exceptions, strings, floats);
  - [Bias]        bias_detection/bias_analyzer.py;
  - [Credibility] bias_detection/credibility_scorer.py;
  - [Fetcher]     fetchers/newsapi_fetcher.py;
  - [Summarizer]  summarizer/summarizer.py and utils/validators.py;
  - [Ingest]      rag/ingest.py;
  - [Query]       rag/query.py.

  Everything the program obtains from outside (HTTP responses, the clock,
  the outcome of a disk write, the vector-index library) is an explicit
  argument of the function that asks for it, so that a statement
  quantified over those arguments covers every behaviour of the
  environment. *)

From Stdlib Require Import ZArith List String Ascii Lia QArith.
From Stdlib Require Import Floats.PrimFloat Floats.FloatOps Floats.SpecFloat.
From Stdlib Require Import Numbers.Cyclic.Int63.Uint63.
From stdpp Require Import base option gmap list strings pretty.

Local Open Scope string_scope.
Local Open Scope Z_scope.

(** Decimal literals such as 0.3 denote the nearest double, as in Python. *)
Set Warnings "-inexact-float".

(** ** The Python fragment *)
Module Py.

(** Values that travel through article dictionaries and JSON bodies.
    Numbers are integers; a dictionary is a finite map from string keys. *)
#[warnings="-register-all"]
Inductive pyval :=
| PNone
| PInt (z : Z)
| PStr (s : string)
| PList (l : list pyval)
| PDict (d : gmap string pyval).

(** Python's truth value testing ([bool(v)], [not v], [if v]). *)
Definition truthy (v : pyval) : bool :=
  match v with
  | PNone => false
  | PInt z => negb (z =? 0)
  | PStr s => negb (String.eqb s "")
  | PList l => match l with [] => false | _ => true end
  | PDict d => negb (bool_decide (size d = 0%nat))
  end.

(** A Python dictionary object whose values are [pyval]s. *)
Abbreviation dict := (gmap string pyval).

(** [d.get(k, default)] *)
Definition get (d : dict) (k : string) (dflt : pyval) : pyval :=
  default dflt (d !! k).

(** *** Exceptions *)

Inductive exn_class :=
| KeyError | IndexError | TypeError | AttributeError | ValueError | ZeroDivisionError
| RecursionError | OSError | JSONDecodeError
| RequestsTimeout | RequestsConnectionError
| PlainException      (* [raise Exception(msg)] *)
| LibraryError.       (* raised inside a third-party library *)

(** An exception object: its class and [str(e)]. Every class above derives
    from [Exception], so [except Exception] catches all of them. *)
Record exn := Exn { exn_cls : exn_class; exn_str : string }.

Inductive pyres (A : Type) :=
| Ret (a : A)
| Raise (e : exn).
Arguments Ret {A} a.
Arguments Raise {A} e.

#[global] Instance pyres_ret : MRet pyres := fun A a => Ret a.
#[global] Instance pyres_bind : MBind pyres := fun A B f m =>
  match m with Ret a => f a | Raise e => Raise e end.

(** [try: body  except Exception as e: handler e] *)
Definition try_except {A} (body : pyres A) (handler : exn -> pyres A) : pyres A :=
  match body with Ret a => Ret a | Raise e => handler e end.

Definition returns {A} (r : pyres A) : Prop := exists a, r = Ret a.
Definition raises {A} (r : pyres A) : Prop := exists e, r = Raise e.

(** *** Code that mutates an object: state and exceptions

    A statement that raises keeps the mutations made before it, so the
    state is returned on both outcomes. *)
Definition pyM (S A : Type) : Type := S -> pyres A * S.

#[global] Instance pyM_ret {S} : MRet (pyM S) := fun A a s => (Ret a, s).
#[global] Instance pyM_bind {S} : MBind (pyM S) := fun A B f m s =>
  match m s with
  | (Ret a, s') => f a s'
  | (Raise e, s') => (Raise e, s')
  end.

Definition get_state {S} : pyM S S := fun s => (Ret s, s).
Definition modify {S} (f : S -> S) : pyM S unit := fun s => (Ret tt, f s).
Definition raise {S A} (e : exn) : pyM S A := fun s => (Raise e, s).
Definition lift {S A} (r : pyres A) : pyM S A := fun s => (r, s).

Definition try_exceptM {S A} (body : pyM S A) (handler : exn -> pyM S A) : pyM S A :=
  fun s => match body s with
           | (Ret a, s') => (Ret a, s')
           | (Raise e, s') => handler e s'
           end.

(** *** Strings

    A Python [str] is modelled as a string over the code points 0..255;
    [len] is the number of characters. *)

Definition code (c : ascii) : N := N_of_ascii c.

(** [c.isspace()] on this range. *)
Definition is_space (c : ascii) : bool :=
  let n := code c in
  ((9 <=? n) && (n <=? 13) || (28 <=? n) && (n <=? 32)
   || (n =? 133) || (n =? 160))%N.

(** [c.lower()]: A..Z and the Latin-1 capitals move up by 32. *)
Definition lower_char (c : ascii) : ascii :=
  let n := code c in
  if ((65 <=? n) && (n <=? 90)
      || (192 <=? n) && (n <=? 222) && negb (n =? 215))%N
  then ascii_of_N (n + 32) else c.

Fixpoint lower (s : string) : string :=
  match s with
  | EmptyString => EmptyString
  | String c s' => String (lower_char c) (lower s')
  end.

Fixpoint lstrip (s : string) : string :=
  match s with
  | String c s' => if is_space c then lstrip s' else s
  | EmptyString => EmptyString
  end.

Fixpoint rstrip (s : string) : string :=
  match s with
  | EmptyString => EmptyString
  | String c s' =>
      match rstrip s' with
      | EmptyString => if is_space c then EmptyString else String c EmptyString
      | r => String c r
      end
  end.

(** [s.strip()] *)
Definition strip (s : string) : string := rstrip (lstrip s).

(** [s.startswith(p)] *)
Fixpoint startswith (p s : string) : bool :=
  match p, s with
  | EmptyString, _ => true
  | String a p', String b s' => if Ascii.eqb a b then startswith p' s' else false
  | String _ _, EmptyString => false
  end.

(** [needle in hay] *)
Fixpoint contains (needle hay : string) : bool :=
  startswith needle hay
  || match hay with
     | EmptyString => false
     | String _ hay' => contains needle hay'
     end.

(** [s[:n]] and [s[n:]] for [n >= 0]. *)
Fixpoint take (n : nat) (s : string) : string :=
  match n, s with
  | S n', String c s' => String c (take n' s')
  | _, _ => EmptyString
  end.

Fixpoint drop (n : nat) (s : string) : string :=
  match n, s with
  | S n', String _ s' => drop n' s'
  | _, _ => s
  end.

Definition len (s : string) : Z := Z.of_nat (String.length s).

(** *** Operations on values that raise on the wrong type *)

(** [len(v)] *)
Definition py_len (v : pyval) : pyres Z :=
  match v with
  | PStr s => Ret (len s)
  | PList l => Ret (Z.of_nat (List.length l))
  | PDict d => Ret (Z.of_nat (size d))
  | PNone => Raise (Exn TypeError "object of type 'NoneType' has no len()")
  | PInt _ => Raise (Exn TypeError "object of type 'int' has no len()")
  end.

Definition type_name (v : pyval) : string :=
  match v with
  | PNone => "NoneType" | PInt _ => "int" | PStr _ => "str"
  | PList _ => "list" | PDict _ => "dict"
  end.

Definition no_attribute (v : pyval) (attr : string) : exn :=
  Exn AttributeError ("'" ++ type_name v ++ "' object has no attribute '" ++ attr ++ "'").

(** [v.strip()] *)
Definition py_strip (v : pyval) : pyres string :=
  match v with PStr s => Ret (strip s) | _ => Raise (no_attribute v "strip") end.

(** [v.lower()] *)
Definition py_lower (v : pyval) : pyres string :=
  match v with PStr s => Ret (lower s) | _ => Raise (no_attribute v "lower") end.

(** [d[k]] *)
Definition getitem (d : dict) (k : string) : pyres pyval :=
  match d !! k with
  | Some v => Ret v
  | None => Raise (Exn KeyError ("'" ++ k ++ "'"))
  end.

(** [str(v)], as an f-string placeholder renders it. The text Python
    prints for a list or a dictionary is left to [container_repr]. *)
Definition py_str (container_repr : pyval -> string) (v : pyval) : string :=
  match v with
  | PNone => "None"
  | PInt z => pretty z
  | PStr s => s
  | PList _ | PDict _ => container_repr v
  end.

(** [v == s] for a string literal [s]. *)
Definition is_str (v : pyval) (s : string) : bool :=
  match v with PStr x => String.eqb x s | _ => false end.

(** [for x in v]: the elements the loop visits. The keys of a dictionary
    are visited in the order of the finite map. *)
Definition py_iter (v : pyval) : pyres (list pyval) :=
  match v with
  | PList l => Ret l
  | PStr s => Ret (List.map (fun c => PStr (String c EmptyString)) (list_ascii_of_string s))
  | PDict d => Ret (List.map (fun kv : string * pyval => PStr (fst kv)) (map_to_list d))
  | PNone => Raise (Exn TypeError "'NoneType' object is not iterable")
  | PInt _ => Raise (Exn TypeError "'int' object is not iterable")
  end.

(** [v.get(k, dflt)] on a value that should be a dictionary. *)
Definition py_get (v : pyval) (k : string) (dflt : pyval) : pyres pyval :=
  match v with
  | PDict d => Ret (get d k dflt)
  | _ => Raise (no_attribute v "get")
  end.

(** [v[:n]] *)
Definition py_prefix (n : nat) (v : pyval) : pyres pyval :=
  match v with
  | PStr s => Ret (PStr (take n s))
  | PList l => Ret (PList (List.firstn n l))
  | PDict _ => Raise (Exn TypeError "unhashable type: 'slice'")
  | PNone => Raise (Exn TypeError "'NoneType' object is not subscriptable")
  | PInt _ => Raise (Exn TypeError "'int' object is not subscriptable")
  end.

(** The newline character. *)
Definition nl : string := String "010" EmptyString.

(** Raise the failure the environment reports, if it reports one. *)
Definition fail_if (e : option exn) : pyres unit :=
  match e with Some x => Raise x | None => Ret tt end.

(** *** Numbers *)

(** [float(z)] for an integer below 2^63 in absolute value; exact below
    2^53, which covers every count and length that occurs. *)
Definition float_of_Z (z : Z) : float :=
  if z <? 0 then (- PrimFloat.of_uint63 (Uint63.of_Z (- z)))%float
  else PrimFloat.of_uint63 (Uint63.of_Z z).

(** [a / b] on two integers (true division). *)
Definition truediv (a b : Z) : pyres float :=
  if b =? 0 then Raise (Exn ZeroDivisionError "division by zero")
  else Ret (float_of_Z a / float_of_Z b)%float.

(** [min(a, b)] and [max(a, b)] with two arguments: the first one wins
    unless the second compares strictly smaller (larger). *)
Definition fmin (a b : float) : float := if PrimFloat.ltb b a then b else a.
Definition fmax (a b : float) : float := if PrimFloat.ltb a b then b else a.

(** [sum(l)] on floats, accumulated from the left starting at 0, as
    CPython does up to version 3.11. Versions from 3.12 on carry a
    correction term for the rounding errors and can return another double;
    what is stated about a stored average is stated for the former. *)
Definition fsum (l : list float) : float :=
  fold_left PrimFloat.add l 0%float.

(** A result field that holds an [int] on one branch and a [float] on the
    other. *)
Inductive number := NInt (z : Z) | NFloat (f : float).

End Py.

(** ** bias_detection/bias_analyzer.py *)
Module Bias.
Import Py.

Section Analyzer.

(** Python's [repr] of a list or dictionary, used when such a value is
    interpolated into text. *)
Variable container_repr : pyval -> string.

Definition positive_words : list string :=
  ["positive"; "good"; "great"; "excellent"; "success"; "win"; "gain"; "profit"].
Definition negative_words : list string :=
  ["negative"; "bad"; "terrible"; "failure"; "loss"; "decline"; "crisis"; "problem"].

(** [sum(1 for word in words if word in full_text)] *)
Definition keyword_score (words : list string) (full_text : string) : Z :=
  Z.of_nat (List.length (List.filter (fun word => contains word full_text) words)).

(** [f"{title} {content}".lower()] with both fields read by [.get(_, '')]. *)
Definition full_text (article : dict) : string :=
  let content := get article "content" (PStr "") in
  let title := get article "title" (PStr "") in
  lower (py_str container_repr title ++ " " ++ py_str container_repr content).

(** The three counters of the loop. *)
Record counts := Counts { positive_count : Z; negative_count : Z; neutral_count : Z }.

(** One iteration of [for article in articles]. *)
Definition count_article (c : counts) (article : dict) : counts :=
  let text := full_text article in
  let positive_score := keyword_score positive_words text in
  let negative_score := keyword_score negative_words text in
  if positive_score >? negative_score then
    Counts (positive_count c + 1) (negative_count c) (neutral_count c)
  else if negative_score >? positive_score then
    Counts (positive_count c) (negative_count c + 1) (neutral_count c)
  else
    Counts (positive_count c) (negative_count c) (neutral_count c + 1).

Definition count_articles (articles : list dict) : counts :=
  fold_left count_article articles (Counts 0 0 0).

(** [count / total_articles if total_articles > 0 else 0] *)
Definition ratio (count total_articles : Z) : number :=
  if total_articles >? 0
  then NFloat (float_of_Z count / float_of_Z total_articles)
  else NInt 0.

Record sentiment_scores := SentimentScores {
  positive_ratio : number;
  negative_ratio : number;
  neutral_ratio : number;
  sentiment_bias_score : number
}.

(** [_analyze_sentiment_bias]. No statement of the body can raise on a list
    of dictionaries, so the [except] branch is never taken and the function
    is a plain value. *)
Definition _analyze_sentiment_bias (articles : list dict) : sentiment_scores :=
  let total_articles := Z.of_nat (List.length articles) in
  let c := count_articles articles in
  SentimentScores
    (ratio (positive_count c) total_articles)
    (ratio (negative_count c) total_articles)
    (ratio (neutral_count c) total_articles)
    (ratio (positive_count c - negative_count c) total_articles).

(** [positive_ratio + negative_ratio + neutral_ratio], evaluated as Python
    evaluates it on the returned values. *)
Definition ratio_sum (r : sentiment_scores) : option float :=
  match positive_ratio r, negative_ratio r, neutral_ratio r with
  | NFloat p, NFloat n, NFloat u => Some (p + n + u)%float
  | _, _, _ => None
  end.

End Analyzer.
End Bias.

(** ** bias_detection/credibility_scorer.py *)
Module Credibility.
Import Py.

(** One element of a source's ["history"] list. *)
Record history_entry := HistoryEntry {
  timestamp : string;
  credibility_score : float;
  entry_article_count : Z;
  average_article_length : number
}.

(** The value stored under [credibility_data["sources"][source]]. *)
Record source_record := SourceRecord {
  history : list history_entry;
  average_credibility : float;
  article_count : Z;
  last_updated : string
}.

(** [self.credibility_data]. The dictionary comes from a JSON file, so the
    ["sources"] key may be missing. *)
Record credibility_data := CredibilityData {
  sources : option (gmap string source_record);
  data_last_updated : option string
}.

(** What the file data/source_credibility.json holds: the complete text
    [json.dump] wrote for a table, or less than that, after a write that
    stopped before its end (the file is emptied when it is opened for
    writing). *)
Inductive file_content :=
| Dumped (d : credibility_data)
| Truncated.

(** A [CredibilityScorer] together with the file
    data/source_credibility.json ([None]: the file does not exist). *)
Record scorer := Scorer {
  data : credibility_data;
  data_file : option file_content
}.

(** What the environment answers during one call of
    [_update_source_history]: the four readings of the clock and the
    outcome of the three steps of [_save_credibility_data] that can fail:
    creating the directory, opening the file for writing, and writing the
    table into it. *)
Record update_io := UpdateIO {
  now_created : string;
  now_entry : string;
  now_updated : string;
  now_saved : string;
  makedirs_error : option exn;
  open_error : option exn;
  dump_error : option exn
}.

Definition known_sources : gmap string (string * string * string) :=
  list_to_map [
    ("reuters", ("high", "low", "excellent"));
    ("associated press", ("high", "low", "excellent"));
    ("bbc", ("high", "low", "excellent"));
    ("cnn", ("medium", "moderate", "good"));
    ("fox news", ("medium", "high", "mixed"));
    ("msnbc", ("medium", "moderate", "good"));
    ("new york times", ("high", "low", "excellent"));
    ("washington post", ("high", "low", "excellent"));
    ("wall street journal", ("high", "low", "excellent"));
    ("usa today", ("medium", "low", "good"))
  ].

(** [table.get(key, 0.5)] on a small literal dictionary. *)
Definition lookup_score (table : list (string * float)) (key : string) : float :=
  default 0.5%float ((list_to_map table : gmap string float) !! key).

Definition reputation_scores : list (string * float) :=
  [("high", 0.9%float); ("medium", 0.7%float); ("low", 0.5%float)].
Definition bias_scores : list (string * float) :=
  [("low", 0.9%float); ("moderate", 0.7%float); ("high", 0.5%float)].
Definition fact_check_scores : list (string * float) :=
  [("excellent", 0.9%float); ("good", 0.7%float); ("mixed", 0.5%float); ("poor", 0.3%float)].

(** The value of [try: return body  except Exception: return fallback]. *)
Definition or_else {A} (body : pyres A) (fallback : A) : A :=
  match body with Ret a => a | Raise _ => fallback end.

(** [_get_base_reputation_score]; on a [str] argument nothing raises. *)
Definition _get_base_reputation_score (source : string) : float :=
  let source_lower := lower source in
  match known_sources !! source_lower with
  | Some (reputation, bias, fact_check) =>
      (lookup_score reputation_scores reputation * 0.4
       + lookup_score bias_scores bias * 0.3
       + lookup_score fact_check_scores fact_check * 0.3)%float
  | None => 0.6%float
  end.

Definition quality_indicators : list string :=
  ["according to"; "officials said"; "confirmed"; "announced";
   "reported"; "stated"; "verified"; "official"].
Definition red_flags : list string :=
  ["unverified"; "rumor"; "allegedly"; "supposedly";
   "anonymous sources"; "sources say"].

(** [sum(1 for w in words if w in content.lower())]: [content.lower()] is
    evaluated once per word, so a value without [lower] raises as soon as
    [words] is not empty. *)
Definition count_in_lower (words : list string) (content : pyval) : pyres Z :=
  hits ← mapM (fun w => text ← py_lower content; mret (contains w text)) words;
  mret (Z.of_nat (List.length (List.filter (fun b : bool => b) hits))).

(** The body of the loop of [_analyze_recent_performance]. *)
Definition article_quality (article : dict) : pyres float :=
  let content := get article "content" (PStr "") in
  n ← py_len content;
  ratio ← truediv n 1000;
  let length_score := fmin ratio 1.0 in
  indicator_count ← count_in_lower quality_indicators content;
  indicator_ratio ← truediv indicator_count 5;
  let indicator_score := fmin indicator_ratio 1.0 in
  red_flag_count ← count_in_lower red_flags content;
  let red_flag_penalty := (float_of_Z red_flag_count * 0.1)%float in
  let article_score := (length_score * 0.3 + indicator_score * 0.7 - red_flag_penalty)%float in
  mret (fmax article_score 0.0).

(** [sum(xs) / len(xs)] *)
Definition mean (xs : list float) : float :=
  (fsum xs / float_of_Z (Z.of_nat (List.length xs)))%float.

Definition _analyze_recent_performance (source : string) (articles : list dict) : float :=
  or_else
    (match articles with
     | [] => Ret 0.5%float
     | _ =>
         quality_scores ← mapM article_quality articles;
         mret (match quality_scores with [] => 0.5%float | _ => mean quality_scores end)
     end)
    0.5%float.

Definition tone_positive_words : list string := ["positive"; "good"; "success"; "improve"].
Definition tone_negative_words : list string := ["negative"; "bad"; "problem"; "crisis"].
Definition focus_keywords : list string :=
  ["politics"; "economy"; "technology"; "social"; "international"].

(** What one iteration of the loop of [_calculate_consistency_score]
    appends to [tones], [lengths] and [focus_areas]. *)
Definition article_pattern (article : dict) : pyres (string * Z * list string) :=
  let content := get article "content" (PStr "") in
  pos_count ← count_in_lower tone_positive_words content;
  neg_count ← count_in_lower tone_negative_words content;
  let tone := if pos_count >? neg_count then "positive"
              else if neg_count >? pos_count then "negative"
              else "neutral" in
  n ← py_len content;
  in_focus ← mapM (fun k => text ← py_lower content; mret (contains k text)) focus_keywords;
  let article_focus :=
    List.map fst (List.filter (fun kb : string * bool => snd kb) (combine focus_keywords in_focus)) in
  mret (tone, n, article_focus).

(** [len(set(xs)) / len(xs)] *)
Definition distinct_ratio (xs : list string) : pyres float :=
  truediv (Z.of_nat (List.length (remove_dups xs))) (Z.of_nat (List.length xs)).

(** [max(xs)] and [min(xs)] on a list of integers. *)
Definition py_max (xs : list Z) : pyres Z :=
  match xs with
  | [] => Raise (Exn ValueError "max() arg is an empty sequence")
  | x :: xs' => Ret (fold_left (fun m y => if y >? m then y else m) xs' x)
  end.
Definition py_min (xs : list Z) : pyres Z :=
  match xs with
  | [] => Raise (Exn ValueError "min() arg is an empty sequence")
  | x :: xs' => Ret (fold_left (fun m y => if y <? m then y else m) xs' x)
  end.

Definition _calculate_consistency_score (source : string) (articles : list dict) : float :=
  or_else
    (match articles with
     | [] => Ret 0.5%float
     | _ =>
         patterns ← mapM article_pattern articles;
         let tones := List.map (fun p => fst (fst p)) patterns in
         let lengths := List.map (fun p => snd (fst p)) patterns in
         let focus_areas := List.concat (List.map snd patterns) in
         tone_consistency ←
           match tones with
           | [] => Ret 0.5%float
           | _ => r ← distinct_ratio tones; mret (1.0 - r)%float
           end;
         length_consistency ←
           match lengths with
           | [] => Ret 0.5%float
           | _ =>
               hi ← py_max lengths;
               lo ← py_min lengths;
               hi' ← py_max lengths;
               r ← truediv (hi - lo) hi';
               mret (1.0 - r)%float
           end;
         focus_consistency ←
           match focus_areas with
           | [] => Ret 0.5%float
           | _ => r ← distinct_ratio focus_areas; mret (1.0 - r)%float
           end;
         mret (tone_consistency * 0.4 + length_consistency * 0.3 + focus_consistency * 0.3)%float
     end)
    0.5%float.

Definition _calculate_overall_credibility
    (base_score performance_score consistency_score : float) : float :=
  let overall_score :=
    (base_score * 0.4 + performance_score * 0.4 + consistency_score * 0.2)%float in
  fmin overall_score 1.0.

(** [a >= b] on floats. *)
Definition fge (a b : float) : bool := PrimFloat.leb b a.

Definition _classify_credibility_level (credibility_score : float) : string :=
  if fge credibility_score 0.8 then "Very High"
  else if fge credibility_score 0.6 then "High"
  else if fge credibility_score 0.4 then "Medium"
  else if fge credibility_score 0.2 then "Low"
  else "Very Low".

Definition _generate_credibility_recommendations
    (credibility_score : float) (source : string) : list string :=
  ((if fge credibility_score 0.8 then
     ["✅ High credibility source - generally reliable";
      "📖 Good source for primary information"]
   else if fge credibility_score 0.6 then
     ["⚠️ Moderate credibility - verify important claims";
      "📖 Use as supplementary source"]
   else if fge credibility_score 0.4 then
     ["⚠️ Low credibility - fact-check claims";
      "🔍 Cross-reference with high-credibility sources"]
   else
     ["❌ Very low credibility - avoid as primary source";
      "🔍 Always fact-check claims from this source"])
  ++ ["📚 Read multiple sources for balanced perspective";
      "🔍 Fact-check important claims regardless of source"])%list.

(** *** Mutating [self.credibility_data] *)

Definition set_data (f : credibility_data -> credibility_data) (s : scorer) : scorer :=
  Scorer (f (data s)) (data_file s).

(** [if "sources" not in self.credibility_data: ...["sources"] = {}] *)
Definition ensure_sources (d : credibility_data) : credibility_data :=
  match sources d with
  | Some _ => d
  | None => CredibilityData (Some ∅) (data_last_updated d)
  end.

(** [if source not in ...["sources"]: ...["sources"][source] = {...}] *)
Definition ensure_record (now : string) (source : string) (d : credibility_data)
    : credibility_data :=
  match sources d with
  | Some m =>
      match m !! source with
      | Some _ => d
      | None =>
          CredibilityData
            (Some (<[source := SourceRecord [] 0.0%float 0 now]> m))
            (data_last_updated d)
      end
  | None => d
  end.

(** [sum(len(a.get('content', '')) for a in articles) / len(articles)
     if articles else 0] *)
Definition average_length (articles : list dict) : pyres number :=
  match articles with
  | [] => Ret (NInt 0)
  | _ =>
      lengths ← mapM (fun a : dict => py_len (get a "content" (PStr ""))) articles;
      q ← truediv (fold_left Z.add lengths 0) (Z.of_nat (List.length articles));
      mret (NFloat q)
  end.

(** [h[-10:]] *)
Definition last_ten {A} (h : list A) : list A :=
  List.skipn (List.length h - 10)%nat h.

(** The statements from [history.append(history_entry)] down to the update
    of ["last_updated"], applied to the record of the source. The history
    is not empty after the append, so the division cannot fail. *)
Definition record_entry (entry : history_entry) (n_articles : Z) (now : string)
    (r : source_record) : source_record :=
  let appended := (history r ++ [entry])%list in
  let kept := if (10 <? List.length appended)%nat then last_ten appended else appended in
  let scores := List.map credibility_score kept in
  SourceRecord kept (mean scores) (article_count r + n_articles) now.

(** [self.credibility_data["sources"][source]], a [KeyError] when absent. *)
Definition read_record (source : string) : pyM scorer source_record :=
  fun s =>
    match sources (data s) with
    | None => (Raise (Exn KeyError "'sources'"), s)
    | Some m =>
        match m !! source with
        | None => (Raise (Exn KeyError ("'" ++ source ++ "'")), s)
        | Some r => (Ret r, s)
        end
    end.

Definition write_record (source : string) (r : source_record) : pyM scorer unit :=
  modify (set_data (fun d =>
    CredibilityData (option_map (insert source r) (sources d)) (data_last_updated d))).

(** [_save_credibility_data]: create the directory, stamp the data, open
    the file, which empties it, and write the table; any failure is logged
    and swallowed. *)
Definition _save_credibility_data (io : update_io) : pyM scorer unit :=
  try_exceptM
    (_ ← lift (fail_if (makedirs_error io));
     _ ← modify (set_data (fun d => CredibilityData (sources d) (Some (now_saved io))));
     _ ← lift (fail_if (open_error io));
     _ ← modify (fun s => Scorer (data s) (Some Truncated));
     _ ← lift (fail_if (dump_error io));
     modify (fun s => Scorer (data s) (Some (Dumped (data s)))))
    (fun _ => mret tt).

Definition _update_source_history (io : update_io) (source : string)
    (credibility_score : float) (articles : list dict) : pyM scorer unit :=
  try_exceptM
    (_ ← modify (set_data ensure_sources);
     _ ← modify (set_data (ensure_record (now_created io) source));
     avg ← lift (average_length articles);
     let history_entry :=
       HistoryEntry (now_entry io) credibility_score
                    (Z.of_nat (List.length articles)) avg in
     r ← read_record source;
     _ ← write_record source
           (record_entry history_entry (Z.of_nat (List.length articles)) (now_updated io) r);
     _save_credibility_data io)
    (fun _ => mret tt).

Record credibility_report := CredibilityReport {
  report_source : string;
  overall_credibility : float;
  credibility_level : string;
  base_reputation : float;
  recent_performance : float;
  consistency_score : float;
  recommendations : list string
}.

(** The dictionary [score_source_credibility] returns: the report, or
    [{"error": str(e)}]. *)
Inductive credibility_result :=
| Report (r : credibility_report)
| ReportError (message : string).

Definition score (source : string) (articles : list dict) : float :=
  _calculate_overall_credibility
    (_get_base_reputation_score source)
    (_analyze_recent_performance source articles)
    (_calculate_consistency_score source articles).

Definition score_source_credibility (io : update_io) (source : string)
    (articles : list dict) : pyM scorer credibility_result :=
  try_exceptM
    (let base_score := _get_base_reputation_score source in
     let performance_score := _analyze_recent_performance source articles in
     let consistency_score := _calculate_consistency_score source articles in
     let overall_credibility :=
       _calculate_overall_credibility base_score performance_score consistency_score in
     _ ← _update_source_history io source overall_credibility articles;
     mret (Report (CredibilityReport
             source overall_credibility
             (_classify_credibility_level overall_credibility)
             base_score performance_score consistency_score
             (_generate_credibility_recommendations overall_credibility source))))
    (fun e => mret (ReportError (exn_str e))).

(** [get_source_credibility_history] *)
Definition get_source_credibility_history (source : string) (s : scorer)
    : option source_record :=
  default ∅ (sources (data s)) !! source.

End Credibility.

(** ** The [requests] library, as the sources use it *)
Module Requests.
Import Py.

(** What one [requests.get] or [requests.post] does: it raises, or it
    returns a response with a status code and a body that
    [response.json()] decodes or rejects. *)
Inductive http_outcome :=
| Response (status_code : Z) (json : pyres pyval)
| Fails (e : exn).

End Requests.

(** ** fetchers/newsapi_fetcher.py *)
Module Fetcher.
Import Py Requests.

(** The environment during one attempt: the two readings of [time.time()]
    in [_rate_limit] and the outcome of the request. *)
Record attempt := Attempt {
  clock_before : float;
  clock_after : float;
  outcome : http_outcome
}.

Inductive sleep_site := InRateLimit | AfterRateLimited.

(** What the fetcher does to the outside world, in order. *)
Inductive event :=
| Slept (site : sleep_site) (seconds : float)
| Requested (params : dict).

(** A [NewsAPIFetcher], the number of attempts made so far (the index of
    the next answer of the environment) and the events so far. *)
Record fetcher := FetcherState {
  api_key : string;
  last_request_time : float;
  attempts : nat;
  trace : list event
}.

Definition emit (e : event) : pyM fetcher unit :=
  modify (fun s => FetcherState (api_key s) (last_request_time s) (attempts s)
                     (trace s ++ [e])).

(** [rate_limit_delay = 1] *)
Definition rate_limit_delay : float := 1%float.

Definition _rate_limit (a : attempt) : pyM fetcher unit :=
  s ← get_state;
  let current_time := clock_before a in
  let time_since_last := (current_time - last_request_time s)%float in
  _ ← (if PrimFloat.ltb time_since_last rate_limit_delay
       then emit (Slept InRateLimit (rate_limit_delay - time_since_last)%float)
       else mret tt);
  modify (fun s => FetcherState (api_key s) (clock_after a) (attempts s) (trace s)).

(** [requests.get(self.base_url, params=params, timeout=30)] *)
Definition http_get (a : attempt) (params : dict) : pyM fetcher (Z * pyres pyval) :=
  _ ← emit (Requested params);
  match outcome a with
  | Response status_code json => mret (status_code, json)
  | Fails e => raise e
  end.

(** The answer of the environment to the next attempt. *)
Definition next_attempt (env : nat -> attempt) : pyM fetcher attempt :=
  s ← get_state;
  _ ← modify (fun s => FetcherState (api_key s) (last_request_time s) (S (attempts s))
                         (trace s));
  mret (env (attempts s)).

(** The three [except] clauses of [_make_request]. *)
Definition rethrow (e : exn) : exn :=
  match exn_cls e with
  | RequestsTimeout =>
      Exn PlainException "Request timeout. Please check your internet connection."
  | RequestsConnectionError =>
      Exn PlainException "Connection error. Please check your internet connection."
  | _ => e
  end.

(** [_make_request]. The function calls itself on a 429 response; [depth]
    is the number of nested activations the interpreter still allows, and
    the call that exceeds it raises [RecursionError]. The source does not
    fix where the interpreter gives up: CPython raises in whichever call
    exceeds its limit, which can be a callee of the last activation, after
    the request of that activation was sent, and the text of the exception
    varies. Here the limit strikes on entry to the activation that follows
    the last allowed one; what is stated about exhaustion relies on neither
    the place nor the text. *)
Fixpoint _make_request (depth : nat) (env : nat -> attempt) (params : dict)
    : pyM fetcher pyval :=
  match depth with
  | O => raise (Exn RecursionError "maximum recursion depth exceeded")
  | S depth' =>
      try_exceptM
        (a ← next_attempt env;
         _ ← _rate_limit a;
         response ← http_get a params;
         let status_code := fst response in
         if status_code =? 401 then
           raise (Exn ValueError "Invalid NewsAPI key. Please check your API key.")
         else if status_code =? 429 then
           _ ← emit (Slept AfterRateLimited 60%float);
           _make_request depth' env params
         else if negb (status_code =? 200) then
           raise (Exn PlainException
                    ("API request failed with status " ++ pretty status_code))
         else
           lift (snd response))
        (fun e => raise (rethrow e))
  end.

Section Cleaning.

Variable container_repr : pyval -> string.

(** One iteration of the loop of [_clean_articles]: the cleaned article, or
    nothing when the iteration ends in [continue]. An element that is not a
    dictionary always ends there, through a failed key test or through the
    [except] clause. *)
Definition clean_article (article : pyval) : option dict :=
  match article with
  | PDict a =>
      match a !! "title", a !! "description", a !! "content" with
      | Some title, Some description, Some content =>
          if negb (truthy content) || is_str content "[Removed]" then None
          else
            let full_content :=
              py_str container_repr title ++ String.String "010" (String.String "010" "")
              ++ py_str container_repr description
              ++ String.String "010" (String.String "010" "")
              ++ py_str container_repr content in
            if len (strip full_content) <? 100 then None
            else
              match
                (t ← py_strip title;
                 d ← py_strip description;
                 src ← py_get (get a "source" (PDict ∅)) "name" (PStr "Unknown");
                 mret (<["title" := PStr t]>
                      (<["description" := PStr d]>
                      (<["content" := PStr full_content]>
                      (<["url" := get a "url" (PStr "")]>
                      (<["published_at" := get a "publishedAt" (PStr "")]>
                      (<["source" := src]>
                      (<["author" := get a "author" (PStr "Unknown")]>
                      (<["url_to_image" := get a "urlToImage" (PStr "")]> ∅)))))))))
              with
              | Ret cleaned => Some cleaned
              | Raise _ => None
              end
      | _, _, _ => None
      end
  | _ => None
  end.

Definition _clean_articles (articles : pyval) : pyres (list dict) :=
  items ← py_iter articles;
  mret (omap (M:=list) clean_article items).

(** The calendar: today's date minus [n] days, as [%Y-%m-%d]. *)
Variable date_back : Z -> string.

Definition search_params (s : fetcher) (query : string) (max_articles days_back : Z) : dict :=
  <["q" := PStr query]>
  (<["from" := PStr (date_back days_back)]>
  (<["to" := PStr (date_back 0)]>
  (<["language" := PStr "en"]>
  (<["sortBy" := PStr "publishedAt"]>
  (<["pageSize" := PInt max_articles]>
  (<["apiKey" := PStr (api_key s)]> ∅)))))).

(** [fetch_news]: the [except] clause logs and re-raises. *)
Definition fetch_news (depth : nat) (env : nat -> attempt)
    (query : string) (max_articles days_back : Z) : pyM fetcher (list dict) :=
  s ← get_state;
  let params := search_params s query max_articles days_back in
  try_exceptM
    (data ← _make_request depth env params;
     status ← lift (py_get data "status" PNone);
     if negb (is_str status "ok") then
       error_message ← lift (py_get data "message" (PStr "Unknown error"));
       raise (Exn PlainException ("NewsAPI error: " ++ py_str container_repr error_message))
     else
       articles ← lift (py_get data "articles" (PList []));
       _ ← lift (py_len articles);
       lift (_clean_articles articles))
    (fun e => raise e).


End Cleaning.

(** The [Requested] events of a trace, and the sleeps after a 429. *)
Definition requests_in (t : list event) : nat :=
  List.length (List.filter (fun e => match e with Requested _ => true | _ => false end) t).
Definition backoffs_in (t : list event) : list float :=
  omap (fun e => match e with Slept AfterRateLimited d => Some d | _ => None end) t.

Definition is_429 (a : attempt) : bool :=
  match outcome a with Response status_code _ => status_code =? 429 | Fails _ => false end.

End Fetcher.

(** ** summarizer/summarizer.py, with utils/validators.py *)
Module Summarizer.
Import Py Requests.

(** [validate_summary_length] of utils/validators.py. *)
Definition validate_summary_length (text : pyval) : pyres bool :=
  if negb (truthy text) then Ret false
  else
    stripped ← py_strip text;
    if len stripped <? 50 then Ret false
    else n ← py_len text; mret (n <=? 10000).

Inductive event :=
| Posted (prompt : string) (num_predict : Z)
| Paused.                               (* [time.sleep(0.5)] *)

(** Article dictionaries are objects: a list of articles is a list of
    references into [heap], and an assignment to [article['summary']]
    is seen through every reference to the same object. [posts] counts
    the requests made so far. *)
Record world := World {
  heap : gmap nat dict;
  posts : nat;
  events : list event
}.

Definition emit (e : event) : pyM world unit :=
  modify (fun w => World (heap w) (posts w) (events w ++ [e])).

(** The dictionary a reference denotes. *)
Definition deref (article : nat) : pyM world dict :=
  w ← get_state; mret (default ∅ (heap w !! article)).

(** [article[key] = value] *)
Definition setitem (article : nat) (key : string) (value : pyval) : pyM world unit :=
  modify (fun w =>
    World (<[article := <[key := value]> (default ∅ (heap w !! article))]> (heap w))
          (posts w) (events w)).

Section WithModel.

(** [self.model], and the answers of the Ollama server to the successive
    requests. *)
Variable model : string.
Variable env : nat -> http_outcome.

Definition rethrow (e : exn) : exn :=
  match exn_cls e with
  | RequestsTimeout =>
      Exn PlainException
        "Ollama request timeout. The model might be too slow or overloaded."
  | RequestsConnectionError =>
      Exn PlainException "Cannot connect to Ollama. Make sure it's running."
  | _ => e
  end.

(** [_make_request]: the [except] clauses log and raise. *)
Definition _make_request (prompt : string) (max_tokens : Z) : pyM world string :=
  try_exceptM
    (w ← get_state;
     _ ← modify (fun w => World (heap w) (S (posts w)) (events w));
     _ ← emit (Posted prompt max_tokens);
     match env (posts w) with
     | Fails e => raise e
     | Response status_code json =>
         if status_code =? 404 then
           raise (Exn PlainException
                    ("Model '" ++ model ++ "' not found. Please install it with: ollama pull "
                     ++ model))
         else if negb (status_code =? 200) then
           raise (Exn PlainException
                    ("Ollama request failed with status " ++ pretty status_code))
         else
           body ← lift json;
           answer ← lift (py_get body "response" (PStr ""));
           lift (py_strip answer)
     end)
    (fun e => raise (rethrow e)).

Definition prompt_for (max_length : Z) (truncated_text : string) : string :=
  "Please provide a concise summary of the following article in under "
  ++ pretty max_length
  ++ " words. Focus on the main points and key information:" ++ nl ++ nl
  ++ truncated_text ++ nl ++ nl ++ "Summary:".

(** [summarize_text]. The validation runs before the [try]; it raises on a
    true value that is not a string. *)
Definition summarize_text (text : pyval) (max_length : Z) : pyM world string :=
  valid ← lift (validate_summary_length text);
  if negb valid then mret "Text too short or too long for summarization."
  else
    match text with
    | PStr text =>
        try_exceptM
          (let truncated_text := if len text >? 3000 then take 3000 text else text in
           summary ← _make_request (prompt_for max_length truncated_text) (max_length * 2);
           if String.eqb summary "" then mret "Failed to generate summary."
           else
             let summary := strip summary in
             let summary :=
               if startswith "Summary:" summary then strip (drop 8 summary) else summary in
             mret summary)
          (fun e => mret ("Error generating summary: " ++ exn_str e))
    | _ => raise (no_attribute text "strip")   (* not reached: the validation raised *)
    end.

(** The statements of the loop body that precede the assignment of the
    summary: the log line, which slices the title, and the call. *)
Definition generate (article : nat) (max_length : Z) : pyM world string :=
  a ← deref article;
  _ ← lift (py_prefix 50 (get a "title" (PStr "Unknown")));
  content ← lift (getitem a "content");
  summarize_text content max_length.

(** One iteration of the loop of [summarize_articles]; the result is
    [summarized_articles] after the iteration. *)
Definition summarize_article (summarized_articles : list nat) (article : nat)
    (max_length : Z) : pyM world (list nat) :=
  try_exceptM
    (summary ← generate article max_length;
     _ ← setitem article "summary" (PStr summary);
     _ ← emit Paused;
     mret (summarized_articles ++ [article])%list)
    (fun _ =>
     _ ← setitem article "summary" (PStr "Failed to generate summary.");
     mret (summarized_articles ++ [article])%list).

Fixpoint summarize_loop (articles : list nat) (summarized_articles : list nat)
    (max_length : Z) : pyM world (list nat) :=
  match articles with
  | [] => mret summarized_articles
  | article :: rest =>
      summarized_articles ← summarize_article summarized_articles article max_length;
      summarize_loop rest summarized_articles max_length
  end.

Definition summarize_articles (articles : list nat) (max_length : Z) : pyM world (list nat) :=
  summarize_loop articles [] max_length.

End WithModel.

(** [article['summary']] of a reference in a world. *)
Definition summary_of (w : world) (article : nat) : option pyval :=
  default ∅ (heap w !! article) !! "summary".

End Summarizer.

(** ** The part of the file system the store lives in *)
Module Disk.
Import Py.

(** A normalised relative path, as its list of components. *)
Definition path := list string.

Inductive kind := File | Directory.

(** The entries that exist. *)
Abbreviation fs := (gmap (list string) kind).

(** [os.path.exists(p)] *)
Definition exists_ (d : fs) (p : path) : bool := bool_decide (is_Some (d !! p)).

(** [p] itself or something below it. *)
Definition under (p q : path) : bool := bool_decide (p `prefix_of` q).

(** What [shutil.rmtree(p)] leaves when it succeeds. *)
Definition remove_tree (p : path) (d : fs) : fs :=
  filter (fun e : path * kind => under p (fst e) = false) d.

(** [str(p)] *)
Fixpoint render (p : path) : string :=
  match p with
  | [] => ""
  | [c] => c
  | c :: rest => c ++ "/" ++ render rest
  end.

End Disk.

(** ** rag/ingest.py *)
Module Ingest.
Import Py Disk.

(** A langchain [Document]. *)
Record document := Document { page_content : string; metadata : dict }.

(** A FAISS vector store, as the list of the documents it indexes. *)
Record faiss := Faiss { docstore : list document }.

(** A [DocumentIngestor] ([store] is [self.store]) and the disk. *)
Record ingestor := Ingestor {
  store : option faiss;
  disk : fs
}.

Definition set_store (st : option faiss) : pyM ingestor unit :=
  modify (fun s => Ingestor st (disk s)).
Definition set_disk (f : fs -> fs) : pyM ingestor unit :=
  modify (fun s => Ingestor (store s) (f (disk s))).

(** What the environment answers during one call of [ingest_documents].
    Each side file is written in two steps that can fail: [open(path, "w")],
    which creates or empties the file, and [json.dump] into it. *)
Record ingest_io := IngestIO {
  now : nat -> string;              (* successive readings of the clock *)
  load_local : pyres faiss;         (* [FAISS.load_local] on the directory *)
  from_documents : pyres faiss;     (* [FAISS.from_documents([], embeddings)] *)
  add_documents_error : option exn; (* the embedding call of [add_documents] *)
  save_local_error : option exn;
  metadata_open_error : option exn;
  metadata_dump_error : option exn;
  summaries_open_error : option exn;
  summaries_dump_error : option exn
}.

Definition metadata_path : path := ["data"; "ingestion_metadata.json"].
Definition langchain_metadata_path : path := ["data"; "langchain_metadata.json"].
Definition summaries_path : path := ["data"; "summaries.json"].

Definition required_fields : list string :=
  ["title"; "content"; "source"; "url"; "published_at"].

(** [field not in article or not article[field]] *)
Definition missing_or_empty (article : dict) (field : string) : bool :=
  match article !! field with
  | None => true
  | Some v => negb (truthy v)
  end.

Definition _validate_article (article : dict) : pyres bool :=
  if existsb (missing_or_empty article) required_fields then Ret false
  else
    content ← getitem article "content";
    stripped ← py_strip content;
    if len stripped <? 50 then Ret false else Ret true.

Definition _create_metadata (ingested_at : string) (article : dict) : pyres dict :=
  title ← getitem article "title";
  source ← getitem article "source";
  url ← getitem article "url";
  published_at ← getitem article "published_at";
  mret (<["title" := title]>
       (<["source" := source]>
       (<["url" := url]>
       (<["published_at" := published_at]>
       (<["author" := get article "author" (PStr "Unknown")]>
       (<["ingested_at" := PStr ingested_at]> ∅)))))).

(** The [page_content] of a [Document] has to be a string. *)
Definition as_text (v : pyval) : pyres string :=
  match v with
  | PStr s => Ret s
  | _ => Raise (Exn LibraryError "page_content: Input should be a valid string")
  end.

(** The first loop of [ingest_documents]: the articles that pass the
    validation, in order. *)
Fixpoint validate_all (articles : list dict) : pyres (list dict) :=
  match articles with
  | [] => Ret []
  | article :: rest =>
      ok ← _validate_article article;
      valid_articles ← validate_all rest;
      mret (if ok : bool then article :: valid_articles else valid_articles)
  end.

(** The second loop: one [Document] per valid article; the [k]-th reading
    of the clock stamps the [k]-th document. *)
Fixpoint create_documents (clock : nat -> string) (k : nat) (valid_articles : list dict)
    : pyres (list document) :=
  match valid_articles with
  | [] => Ret []
  | article :: rest =>
      content ← getitem article "content";
      md ← _create_metadata (clock k) article;
      text ← as_text content;
      documents ← create_documents clock (S k) rest;
      mret (Document text md :: documents)
  end.

Section WithConfig.

(** [config.VECTOR_STORE_PATH], and the text splitter built from
    [CHUNK_SIZE] and [CHUNK_OVERLAP]. *)
Variable store_path : path.
Variable split_documents : document -> list document.

(** The third loop: the chunks of all documents. *)
Definition split_all (documents : list document) : list document :=
  List.concat (List.map split_documents documents).

Definition _load_or_create_store (io : ingest_io) : pyM ingestor unit :=
  try_exceptM
    (s ← get_state;
     if exists_ (disk s) store_path then
       st ← lift (load_local io); set_store (Some st)
     else
       st ← lift (from_documents io); set_store (Some st))
    (fun _ => set_store None).

(** The entries [save_local] writes. *)
Definition save_local (d : fs) : fs :=
  <[(store_path ++ ["index.pkl"])%list := File]>
  (<[(store_path ++ ["index.faiss"])%list := File]>
  (<[store_path := Directory]> d)).

Definition _save_ingestion_metadata (io : ingest_io) (articles : list dict)
    : pyM ingestor unit :=
  try_exceptM
    (_ ← lift (mapM (fun article : dict =>
                       _ ← getitem article "title";
                       _ ← getitem article "source";
                       _ ← getitem article "url";
                       getitem article "published_at") articles);
     _ ← lift (fail_if (metadata_open_error io));
     _ ← set_disk (insert metadata_path File);
     _ ← lift (fail_if (metadata_dump_error io));
     _ ← lift (mapM (fun article : dict =>
                       _ ← getitem article "title";
                       _ ← getitem article "source";
                       _ ← getitem article "url";
                       _ ← getitem article "published_at";
                       py_len (get article "content" (PStr ""))) articles);
     _ ← lift (fail_if (summaries_open_error io));
     _ ← set_disk (insert summaries_path File);
     lift (fail_if (summaries_dump_error io)))
    (fun _ => mret tt).

Definition ingest_documents (io : ingest_io) (articles : list dict) : pyM ingestor bool :=
  try_exceptM
    (match articles with
     | [] => mret false
     | _ =>
         valid_articles ← lift (validate_all articles);
         match valid_articles with
         | [] => mret false
         | _ =>
             documents ← lift (create_documents (now io) 0 valid_articles);
             let all_chunks := split_all documents in
             _ ← _load_or_create_store io;
             s ← get_state;
             match store s with
             | Some st =>
                 _ ← lift (fail_if (add_documents_error io));
                 _ ← set_store (Some (Faiss (docstore st ++ all_chunks)%list));
                 _ ← lift (fail_if (save_local_error io));
                 _ ← set_disk save_local;
                 _ ← _save_ingestion_metadata io valid_articles;
                 mret true
             | None => mret false
             end
         end
     end)
    (fun _ => mret false).

(** What the environment answers during [clear_vector_store]: whether
    [shutil.rmtree] fails, and then what it leaves of the disk, and on
    which paths [os.remove] fails. *)
Record clear_io := ClearIO {
  rmtree_error : option (exn * fs);
  remove_error : path -> option exn
}.

(** [shutil.rmtree(p)]; the path is known to exist. *)
Definition rmtree (io : clear_io) (p : path) : pyM ingestor unit :=
  s ← get_state;
  match disk s !! p with
  | Some File => raise (Exn OSError "Not a directory")
  | _ =>
      match rmtree_error io with
      | Some (e, left_over) => _ ← set_disk (fun _ => left_over); raise e
      | None => set_disk (remove_tree p)
      end
  end.

(** [os.remove(p)]; the path is known to exist. *)
Definition remove (io : clear_io) (p : path) : pyM ingestor unit :=
  s ← get_state;
  match disk s !! p with
  | Some Directory => raise (Exn OSError "Is a directory")
  | _ =>
      _ ← lift (fail_if (remove_error io p));
      set_disk (delete p)
  end.

Definition remove_if_exists (io : clear_io) (p : path) : pyM ingestor unit :=
  s ← get_state;
  if exists_ (disk s) p then remove io p else mret tt.

Definition clear_vector_store (io : clear_io) : pyM ingestor bool :=
  try_exceptM
    (s ← get_state;
     _ ← (if exists_ (disk s) store_path then rmtree io store_path else mret tt);
     _ ← remove_if_exists io metadata_path;
     _ ← remove_if_exists io langchain_metadata_path;
     mret true)
    (fun _ => mret false).

End WithConfig.
End Ingest.

(** ** rag/query.py *)
Module Query.
Import Py Disk Ingest.

Inductive level := Info | Warning | Error.

(** The retrieval chain built over a store. *)
Record chain := Chain { retriever_store : faiss; top_k : Z }.

(** A [RAGQueryEngine]: [self.llm] (set or not), [self.store],
    [self.qa_chain], and the lines it has logged. *)
Record engine := Engine {
  llm : bool;
  store : option faiss;
  qa_chain : option chain;
  log : list (level * string)
}.

(** [self.logger.info], [warning] and [error]. The texts are kept without
    the pictograph some of them start with in the source. *)
Definition write_log (l : level) (message : string) : pyM engine unit :=
  modify (fun e => Engine (llm e) (store e) (qa_chain e) (log e ++ [(l, message)])%list).

(** What the environment answers during [_load_vector_store]. *)
Record load_io := LoadIO {
  load_local_result : pyres faiss;      (* [FAISS.load_local] *)
  chain_error : option exn              (* [RetrievalQA.from_chain_type] *)
}.

Section WithConfig.

Variable store_path : path.

Definition _load_vector_store (io : load_io) (d : fs) : pyM engine unit :=
  try_exceptM
    (if negb (exists_ d store_path) then
       write_log Warning ("Vector store not found at " ++ render store_path)
     else
       st ← lift (load_local_result io);
       _ ← modify (fun e => Engine (llm e) (Some st) (qa_chain e) (log e));
       _ ← lift (fail_if (chain_error io));
       _ ← modify (fun e => Engine (llm e) (store e) (Some (Chain st 3)) (log e));
       write_log Info "Vector store loaded successfully")
    (fun e => write_log Error ("Failed to load vector store: " ++ exn_str e)).

(** [RAGQueryEngine()]: the attributes set by [__init__], then
    [_initialize], which stops early when Ollama does not answer. *)
Definition new_engine : engine := Engine false None None [].

Definition _initialize (ollama_ok : bool) (io : load_io) (d : fs) : pyM engine unit :=
  try_exceptM
    (if negb ollama_ok then write_log Warning "Ollama not accessible"
     else
       _ ← modify (fun e => Engine true (store e) (qa_chain e) (log e));
       _load_vector_store io d)
    (fun e => write_log Error ("Failed to initialize query engine: " ++ exn_str e)).

Definition reload_vector_store (io : load_io) (d : fs) : pyM engine bool :=
  try_exceptM
    (_ ← _load_vector_store io d; mret true)
    (fun _ => mret false).

End WithConfig.

(** What [qa_chain.invoke] returns: a dictionary that may hold the answer
    and the retrieved documents. *)
Record qa_output := QAOutput {
  out_result : option pyval;
  out_source_documents : option (list document)
}.

(** The dictionary [query] returns. *)
Inductive query_result :=
| Answer (answer : pyval) (sources : list dict)
| QueryError (message : string).

Definition content_preview (doc : document) : string :=
  if len (page_content doc) >? 200
  then take 200 (page_content doc) ++ "..."
  else page_content doc.

Definition format_source (doc : document) : dict :=
  let metadata := metadata doc in
  <["title" := get metadata "title" (PStr "Unknown")]>
  (<["source" := get metadata "source" (PStr "Unknown")]>
  (<["url" := get metadata "url" (PStr "")]>
  (<["published_at" := get metadata "published_at" (PStr "")]>
  (<["content_preview" := PStr (content_preview doc)]> ∅)))).

(** [query]; [invoke] is what the chain does with the question. *)
Definition query (invoke : string -> pyres qa_output) (question : string)
    : pyM engine query_result :=
  try_exceptM
    (e ← get_state;
     match qa_chain e with
     | None =>
         mret (QueryError "Knowledge base not loaded. Please fetch some articles first.")
     | Some _ =>
         result ← lift (invoke question);
         let answer := default (PStr "No answer generated") (out_result result) in
         let source_documents := default [] (out_source_documents result) in
         mret (Answer answer (List.map format_source source_documents))
     end)
    (fun e =>
     _ ← write_log Error ("Error in query: " ++ exn_str e);
     mret (QueryError ("Query failed: " ++ exn_str e))).

End Query.

(** ** Sample inputs *)
Module BiasSamples.
Import Py Bias.

Definition no_repr : pyval -> string := fun _ => "".

Definition article_of (title content : string) : dict :=
  <["title" := PStr title]> (<["content" := PStr content]> ∅).

Definition upbeat : dict := article_of "Markets" "A good day for investors".
Definition gloomy : dict := article_of "Markets" "A bad day for investors".
Definition plain : dict := article_of "Weather" "Rain is expected tomorrow".

(** One positive, four negative and one neutral article. *)
Definition six_articles : list dict :=
  [upbeat; gloomy; gloomy; gloomy; gloomy; plain].

(** Eight positive, nine negative and eighteen neutral articles. *)
Definition thirty_five_articles : list dict :=
  repeat upbeat 8 ++ repeat gloomy 9 ++ repeat plain 18.

(** The sum of the three counters, and their sign. *)
Definition total (c : counts) : Z := positive_count c + negative_count c + neutral_count c.
Definition nonneg (c : counts) : Prop :=
  0 <= positive_count c /\ 0 <= negative_count c /\ 0 <= neutral_count c.

End BiasSamples.

(** ** Sequences of credibility updates *)
Module CredibilityRuns.
Import Py Credibility.

(** One update of the history: a call of [score_source_credibility], which
    computes the score itself, or a direct call of [_update_source_history]. *)
Inductive call :=
| ViaScore (io : update_io) (source : string) (articles : list dict)
| Direct (io : update_io) (source : string) (credibility_score : float)
         (articles : list dict).

Definition call_io (c : call) : update_io :=
  match c with ViaScore io _ _ | Direct io _ _ _ => io end.
Definition call_source (c : call) : string :=
  match c with ViaScore _ source _ | Direct _ source _ _ => source end.
Definition call_articles (c : call) : list dict :=
  match c with ViaScore _ _ articles | Direct _ _ _ articles => articles end.
Definition call_score (c : call) : float :=
  match c with
  | ViaScore _ source articles => score source articles
  | Direct _ _ credibility_score _ => credibility_score
  end.

(** The scorer after the call. *)
Definition run_call (s : scorer) (c : call) : scorer :=
  match c with
  | ViaScore io source articles => snd (score_source_credibility io source articles s)
  | Direct io source credibility_score articles =>
      snd (_update_source_history io source credibility_score articles s)
  end.

Definition run_calls (calls : list call) (s : scorer) : scorer :=
  fold_left run_call calls s.

(** [len(a.get('content', ''))] is defined for every article of the list. *)
Definition measurable (articles : list dict) : Prop :=
  Forall (fun a : dict => returns (py_len (get a "content" (PStr "")))) articles.

(** The history entry the call appends. *)
Definition entry_of (c : call) : history_entry :=
  HistoryEntry (now_entry (call_io c)) (call_score c)
    (Z.of_nat (List.length (call_articles c)))
    (or_else (average_length (call_articles c)) (NInt 0)).

(** The calls that concern [source], in order. *)
Definition calls_for (source : string) (calls : list call) : list call :=
  List.filter (fun c => String.eqb (call_source c) source) calls.



(** The rational number a finite float denotes. *)
Definition exact (f : float) : Q :=
  match Prim2SF f with
  | S754_finite negative m e =>
      ((if negative then -1 else 1) * inject_Z (Zpos m) * Qpower 2 e)%Q
  | _ => 0%Q
  end.


Definition quiet_io (t : string) : update_io := UpdateIO t t t t None None None.

Definition fresh_scorer : scorer := Scorer (CredibilityData (Some ∅) None) None.

(** Twelve updates of one source, with scores 0.0, 0.1, ..., interleaved
    with an update of another source. *)
Definition twelve_updates : list call :=
  List.map (fun k : nat =>
              Direct (quiet_io (pretty k)) "bbc"
                     (float_of_Z (Z.of_nat k) / 10)%float
                     [BiasSamples.plain])
           (seq 0 6)
  ++ [ViaScore (quiet_io "other") "cnn" BiasSamples.six_articles]
  ++ List.map (fun k : nat =>
              Direct (quiet_io (pretty k)) "bbc"
                     (float_of_Z (Z.of_nat k) / 10)%float
                     [BiasSamples.plain])
           (seq 6 6).

(** An article whose content is JSON [null]. *)
Definition null_content : dict := <["content" := PNone]> ∅.



(** The record of a source, the record a first update creates, and the
    history of a source (empty when it has no record). *)
Definition record_of (s : scorer) (source : string) : option source_record :=
  get_source_credibility_history source s.
Definition blank (io : update_io) : source_record :=
  SourceRecord [] 0.0%float 0 (now_created io).
Definition hist (s : scorer) (source : string) : list history_entry :=
  match record_of s source with Some r => history r | None => [] end.

End CredibilityRuns.

(** ** Sample environments of the fetcher *)
Module FetcherSamples.
Import Py Requests Fetcher.

Definition new_fetcher : fetcher := FetcherState "key" 0%float 0 [].

Definition ok_body : pyval :=
  PDict (<["status" := PStr "ok"]> (<["articles" := PList []]> ∅)).

Definition answer (status_code : Z) : attempt :=
  Attempt 100%float 100%float (Response status_code (Ret ok_body)).

(** Rate-limited twice, then served. *)
Definition twice_limited (k : nat) : attempt :=
  match k with
  | 0%nat | 1%nat => answer 429
  | _ => answer 200
  end.

(** Rate-limited once, then served. *)
Definition once_limited (k : nat) : attempt :=
  match k with
  | 0%nat => answer 429
  | _ => answer 200
  end.


Definition some_params : dict := <["q" := PStr "ai"]> ∅.

Definition fixed_dates (n : Z) : string := "2024-01-01".

(** The events of the part of an attempt that precedes the inspection of
    the status code, and the fetcher after that part. *)
Definition attempt_events (s : fetcher) (a : attempt) (params : dict) : list event :=
  ((if PrimFloat.ltb (clock_before a - last_request_time s) rate_limit_delay
    then [Slept InRateLimit (rate_limit_delay - (clock_before a - last_request_time s))%float]
    else []) ++ [Requested params])%list.
Definition after_attempt (s : fetcher) (a : attempt) (params : dict) : fetcher :=
  FetcherState (api_key s) (clock_after a) (S (attempts s))
    (trace s ++ attempt_events s a params).

(** Every request of the trace carries [params]. *)
Definition same_params (params : dict) (t : list event) : Prop :=
  Forall (fun e => match e with Requested p => p = params | Slept _ _ => True end) t.

End FetcherSamples.

(** ** Sample inputs of the summarizer *)
Module SummarizerSamples.
Import Py Requests Summarizer.

Definition long_text : string :=
  "The central bank kept interest rates unchanged on Tuesday, citing stable inflation.".

(** Three article objects: a regular one, one without content, and one
    whose title is JSON [null]. *)
Definition three_articles : world :=
  World (<[0%nat := <["title" := PStr "Rates"]> (<["content" := PStr long_text]> ∅)]>
        (<[1%nat := <["title" := PStr "Empty"]> ∅]>
        (<[2%nat := <["title" := PNone]> (<["content" := PStr long_text]> ∅)]> ∅)))
        0 [].

(** The server answers every request with the same summary. *)
Definition steady_server (k : nat) : http_outcome :=
  Response 200 (Ret (PDict (<["response" := PStr "Summary: Rates stay put. "]> ∅))).


(** The summary an iteration of [summarize_articles] stores in the
    article, the world after the iteration, and the world after the
    iterations over a list. *)
Definition stored_summary (model : string) (env : nat -> http_outcome) (max_length : Z)
    (w : world) (article : nat) : string :=
  match fst (generate model env article max_length w) with
  | Ret s => s
  | Raise _ => "Failed to generate summary."
  end.
Definition step (model : string) (env : nat -> http_outcome) (max_length : Z)
    (w : world) (article : nat) : world :=
  snd (summarize_article model env [] article max_length w).
Definition run (model : string) (env : nat -> http_outcome) (max_length : Z)
    (articles : list nat) (w : world) : world :=
  fold_left (step model env max_length) articles w.

End SummarizerSamples.

(** ** Sample states of the store *)
Module StoreSamples.
Import Py Disk Ingest Query.

(** The default [VECTOR_STORE_PATH]. *)
Definition default_store_path : path := ["data"; "faiss_store"].

(** A splitter that keeps every document whole. *)
Definition whole (d : document) : list document := [d].

Definition complete_article : dict :=
  <["title" := PStr "Rates"]>
  (<["content" := PStr SummarizerSamples.long_text]>
  (<["source" := PStr "Reuters"]>
  (<["url" := PStr "https://example.org/rates"]>
  (<["published_at" := PStr "2024-01-01T00:00:00Z"]> ∅)))).

(** The same article without its URL. *)
Definition no_url_article : dict := delete "url" complete_article.

(** The same article with too short a content. *)
Definition short_article : dict := <["content" := PStr "   Too short.   "]> complete_article.

(** The same article with a number as content. *)
Definition numeric_content_article : dict := <["content" := PInt 42]> complete_article.

(** A disk that holds a saved index and the ingestion metadata. *)
Definition saved_disk : fs :=
  <[["data"] := Directory]>
  (<[["data"; "faiss_store"] := Directory]>
  (<[["data"; "faiss_store"; "index.faiss"] := File]>
  (<[["data"; "faiss_store"; "index.pkl"] := File]>
  (<[["data"; "ingestion_metadata.json"] := File]>
  (<[["data"; "summaries.json"] := File]> ∅))))).

Definition empty_disk : fs := <[["data"] := Directory]> ∅.

(** A disk that holds a saved index and no side file. *)
Definition index_only_disk : fs :=
  <[["data"] := Directory]>
  (<[["data"; "faiss_store"] := Directory]>
  (<[["data"; "faiss_store"; "index.faiss"] := File]>
  (<[["data"; "faiss_store"; "index.pkl"] := File]> ∅))).

Definition one_document : faiss :=
  Faiss [Document SummarizerSamples.long_text (<["title" := PStr "Rates"]> ∅)].

(** [FAISS.from_documents] on an empty list: the library reads the
    dimension of the first embedding, and there is none. *)
Definition no_first_embedding : pyres faiss :=
  Raise (Exn IndexError "list index out of range").

(** Nothing fails that can succeed: an existing index loads, and every
    deletion and every write goes through. *)
Definition calm_clear : clear_io := ClearIO None (fun _ => None).
Definition calm_ingest : ingest_io :=
  IngestIO (fun k => pretty k) (Ret one_document) no_first_embedding
           None None None None None None.
Definition calm_load : load_io := LoadIO (Ret one_document) None.




(** The store [_load_or_create_store] obtains, or the failure that makes it
    set [self.store = None]. *)
Definition obtained_store (store_path : path) (io : ingest_io) (s : ingestor) : pyres faiss :=
  if exists_ (disk s) store_path then load_local io else from_documents io.

(** What [ingest_documents] does once the documents are built: obtain the
    store, add the chunks, persist the index, write the side files. *)
Definition commit (store_path : path) (split_documents : document -> list document)
    (io : ingest_io) (valid : list dict) (docs : list document)
    (s : ingestor) : pyres bool * ingestor :=
  match obtained_store store_path io s with
  | Raise _ => (Ret false, Ingestor None (disk s))
  | Ret st =>
      match add_documents_error io with
      | Some _ => (Ret false, Ingestor (Some st) (disk s))
      | None =>
          let st' := Faiss (docstore st ++ split_all split_documents docs) in
          match save_local_error io with
          | Some _ => (Ret false, Ingestor (Some st') (disk s))
          | None =>
              (Ret true,
               snd (_save_ingestion_metadata io valid
                      (Ingestor (Some st') (save_local store_path (disk s)))))
          end
      end
  end.

(** An engine that loaded the saved index when it started. *)
Definition loaded_engine : engine :=
  snd (_initialize default_store_path true calm_load saved_disk new_engine).

End StoreSamples.

(** ** The validation rule in the words of the specification *)
Module IngestRule.
Import Py Ingest.

(** The field is present and not empty. *)
Definition filled (article : dict) (field : string) : Prop :=
  exists v, article !! field = Some v /\ truthy v = true.

(** All five fields are present and non-empty, and the content, stripped,
    has at least 50 characters. *)
Definition acceptable (article : dict) : Prop :=
  Forall (filled article) ["title"; "content"; "source"; "url"; "published_at"]
  /\ exists s, article !! "content" = Some (PStr s) /\ 50 <= len (strip s).

(** The outcome of [_validate_article] as a boolean. *)
Definition is_valid (article : dict) : bool :=
  match _validate_article article with Ret true => true | _ => false end.

(** The article stops the validation of the whole list: its five fields
    are present and non-empty, but its content is not a text, so that
    stripping it raises. *)
Definition breaks_validation (article : dict) : Prop :=
  Forall (filled article) ["title"; "content"; "source"; "url"; "published_at"]
  /\ forall s, article !! "content" <> Some (PStr s).

End IngestRule.

(** ** Sample answers of the retrieval chain *)
Module QuerySamples.
Import Py Disk Ingest Query StoreSamples.

(** The chain answers from the document it retrieved. *)
Definition answering (question : string) : pyres qa_output :=
  Ret (QAOutput (Some (PStr "Rates are unchanged."))
                (Some (docstore one_document))).

(** The language model cannot be reached. *)
Definition unreachable (question : string) : pyres qa_output :=
  Raise (Exn RequestsConnectionError "Connection refused").

(** The result of a query on an engine without a chain. *)
Definition not_loaded : query_result :=
  QueryError "Knowledge base not loaded. Please fetch some articles first.".

End QuerySamples.

(** ** utils/validators.py *)
Module Validators.
Import Py.

(** [validate_query] *)
Definition validate_query (query : string) : bool :=
  if String.eqb query "" || String.eqb (strip query) "" then false
  else
    let cleaned := strip query in
    (2 <=? len cleaned) && (len cleaned <=? 200).

(** The four characters [sanitize_query] removes: the two angle brackets
    (60, 62), the double quote (34) and the single quote (39). *)
Definition dangerous (c : ascii) : bool :=
  let n := code c in ((n =? 60) || (n =? 62) || (n =? 34) || (n =? 39))%N.

(** [re.sub] with that character class and the empty replacement. *)
Fixpoint remove_dangerous (s : string) : string :=
  match s with
  | EmptyString => EmptyString
  | String c s' =>
      if dangerous c then remove_dangerous s' else String c (remove_dangerous s')
  end.

(** [sanitize_query] *)
Definition sanitize_query (query : string) : string :=
  strip (remove_dangerous query).

End Validators.

(** ** summarizer/summarizer.py: [get_model_info] *)
Module SummarizerInfo.
Import Py Requests.

Section WithModel.

(** [self.model] *)
Variable model : string.

(** The loop over the models the server lists: the dictionary returned
    from inside the loop, if any. *)
Fixpoint find_model (models : list pyval) : pyres (option dict) :=
  match models with
  | [] => Ret None
  | m :: rest =>
      name ← py_get m "name" PNone;
      if is_str name model then
        name' ← py_get m "name" PNone;
        size ← py_get m "size" PNone;
        modified_at ← py_get m "modified_at" PNone;
        mret (Some (<["name" := name']>
                    (<["size" := size]>
                    (<["modified_at" := modified_at]> ∅))))
      else find_model rest
  end.

(** [get_model_info], given what the request to [/api/tags] does. *)
Definition get_model_info (tags : http_outcome) : dict :=
  Credibility.or_else
    (match tags with
     | Fails e => Raise e
     | Response status_code json =>
         if status_code =? 200 then
           body ← json;
           models ← py_get body "models" (PList []);
           items ← py_iter models;
           found ← find_model items;
           mret (match found with
                 | Some info => info
                 | None => <["name" := PStr model]> (<["status" := PStr "unknown"]> ∅)
                 end)
         else
           Ret (<["name" := PStr model]> (<["status" := PStr "unknown"]> ∅))
     end)
    (<["name" := PStr model]> (<["status" := PStr "error"]> ∅)).

End WithModel.
End SummarizerInfo.

(** ** rag/ingest.py: [get_store_info] *)
Module IngestInfo.
Import Py Disk Ingest.

(** The dictionary [get_store_info] returns: [{"exists": False}], or
    [{"exists": True, "document_count": n}] with [n] a number or the text
    ["Unknown"]. The outer [except] branch is never taken, since
    [os.path.exists] does not raise. *)
Inductive store_info :=
| Absent
| Present (document_count : option Z).

(** [get_store_info], given what [FAISS.load_local] does. *)
Definition get_store_info (store_path : path) (load : pyres faiss) (s : ingestor)
    : store_info :=
  if negb (exists_ (disk s) store_path) then Absent
  else
    match load with
    | Ret st => Present (Some (Z.of_nat (List.length (docstore st))))
    | Raise _ => Present None
    end.

End IngestInfo.

(** ** rag/query.py: [get_knowledge_base_info] *)
Module QueryInfo.
Import Py Ingest Query.

(** [{"loaded": False}] or [{"loaded": True, "document_count": n,
    "index_size": m}]. The store is modelled by its documents, and its
    index holds one vector for each of them. *)
Inductive knowledge_base_info :=
| NotLoaded
| Loaded (document_count index_size : Z).

Definition get_knowledge_base_info (e : engine) : knowledge_base_info :=
  match Query.store e with
  | None => NotLoaded
  | Some st =>
      Loaded (Z.of_nat (List.length (docstore st)))
             (Z.of_nat (List.length (docstore st)))
  end.

End QueryInfo.

(** ** bias_detection/credibility_scorer.py: loading and reporting *)
Module CredibilityReports.
Import Py Credibility.

Section Loading.

(** What opening the file and [json.load] give on a file with this
    content. *)
Variable json_load : file_content -> pyres credibility_data.

(** [_load_credibility_data]: what [json.load] reads from the file when
    the file exists, and an empty table stamped with the current time when
    it does not exist or cannot be read. *)
Definition _load_credibility_data (now : string) (file : option file_content)
    : credibility_data :=
  or_else
    (match file with
     | Some content => json_load content
     | None => Ret (CredibilityData (Some ∅) (Some now))
     end)
    (CredibilityData (Some ∅) (Some now)).

(** [CredibilityScorer(config)] in a process that finds [file] on disk. *)
Definition new_scorer (now : string) (file : option file_content) : scorer :=
  Scorer (_load_credibility_data now file) file.

End Loading.

Record distribution := Distribution {
  very_high : Z;
  high : Z;
  medium : Z;
  low : Z;
  very_low : Z
}.

(** One iteration of the loop of [_calculate_credibility_distribution]. *)
Definition count_level (d : distribution) (source_data : source_record) : distribution :=
  let level := _classify_credibility_level (average_credibility source_data) in
  if String.eqb level "Very High" then
    Distribution (very_high d + 1) (high d) (medium d) (low d) (very_low d)
  else if String.eqb level "High" then
    Distribution (very_high d) (high d + 1) (medium d) (low d) (very_low d)
  else if String.eqb level "Medium" then
    Distribution (very_high d) (high d) (medium d + 1) (low d) (very_low d)
  else if String.eqb level "Low" then
    Distribution (very_high d) (high d) (medium d) (low d + 1) (very_low d)
  else
    Distribution (very_high d) (high d) (medium d) (low d) (very_low d + 1).

(** [_calculate_credibility_distribution]: the loop over
    [sources.values()]. *)
Definition _calculate_credibility_distribution (sources : gmap string source_record)
    : distribution :=
  fold_left count_level (List.map snd (map_to_list sources)) (Distribution 0 0 0 0 0).

End CredibilityReports.

(** ** bias_detection/bias_analyzer.py: selecting and grouping articles *)
Module BiasSources.
Import Py Fetcher.

(** A value that can be a dictionary key or a member of a set. *)
Inductive key := KNone | KInt (z : Z) | KStr (s : string).

#[global] Instance key_eq_dec : EqDecision key.
Proof. solve_decision. Defined.

#[global] Instance key_countable : Countable key.
Proof.
  refine (inj_countable'
            (fun k => match k with
                      | KNone => inl (inl tt)
                      | KInt z => inl (inr z)
                      | KStr s => inr s
                      end)
            (fun x => match x with
                      | inl (inl _) => KNone
                      | inl (inr z) => KInt z
                      | inr s => KStr s
                      end) _).
  intros []; reflexivity.
Defined.

(** [hash(v)]: a list or a dictionary is not hashable. *)
Definition py_hash (v : pyval) : pyres key :=
  match v with
  | PNone => Ret KNone
  | PInt z => Ret (KInt z)
  | PStr s => Ret (KStr s)
  | PList _ => Raise (Exn TypeError "unhashable type: 'list'")
  | PDict _ => Raise (Exn TypeError "unhashable type: 'dict'")
  end.

(** [article.get('source', 'Unknown')], as the key it is used for. *)
Definition source_key (article : dict) : pyres key :=
  py_hash (get article "source" (PStr "Unknown")).

(** The loop of [_fetch_multi_source_articles]. The membership test comes
    first in the condition, so it hashes the source of every article. *)
Fixpoint filter_loop (max_sources : Z) (articles : list dict)
    (unique_sources : gset key) (filtered_articles : list dict) : pyres (list dict) :=
  match articles with
  | [] => Ret filtered_articles
  | article :: rest =>
      source ← source_key article;
      if negb (bool_decide (source ∈ unique_sources))
         && (Z.of_nat (List.length filtered_articles) <? max_sources)
      then filter_loop max_sources rest ({[ source ]} ∪ unique_sources)
             (filtered_articles ++ [article])%list
      else filter_loop max_sources rest unique_sources filtered_articles
  end.

Section WithFetcher.

Variable container_repr : pyval -> string.
Variable date_back : Z -> string.

(** [config.SEARCH_DAYS_BACK] *)
Variable search_days_back : Z.

(** [_fetch_multi_source_articles]; the state is the fetcher's. *)
Definition _fetch_multi_source_articles (depth : nat) (env : nat -> attempt)
    (topic : string) (max_sources : Z) : pyM fetcher (list dict) :=
  try_exceptM
    (articles ← fetch_news container_repr date_back depth env topic
                  (max_sources * 3) search_days_back;
     lift (filter_loop max_sources articles ∅ []))
    (fun _ => mret []).

End WithFetcher.

(** [source_groups[source].append(article)], after the key has been
    created when it was missing. A dictionary keeps its keys in the order
    of their insertion. *)
Fixpoint append_to (source : key) (article : dict) (source_groups : list (key * list dict))
    : list (key * list dict) :=
  match source_groups with
  | [] => [(source, [article])]
  | (k, l) :: rest =>
      if decide (k = source) then (k, (l ++ [article])%list) :: rest
      else (k, l) :: append_to source article rest
  end.

Fixpoint group_loop (articles : list dict) (source_groups : list (key * list dict))
    : pyres (list (key * list dict)) :=
  match articles with
  | [] => Ret source_groups
  | article :: rest =>
      source ← source_key article;
      group_loop rest (append_to source article source_groups)
  end.

(** [_group_by_source]: nothing catches the [TypeError] of a source that
    cannot be hashed. *)
Definition _group_by_source (articles : list dict) : pyres (list (key * list dict)) :=
  group_loop articles [].

End BiasSources.

(** ** bias_detection/source_comparator.py *)
Module Comparator.
Import Py.

(** [s.split(sep)] for a separator of one character. *)
Fixpoint split_on (sep : ascii) (s : string) : list string :=
  match s with
  | EmptyString => [EmptyString]
  | String c s' =>
      if Ascii.eqb c sep then EmptyString :: split_on sep s'
      else
        match split_on sep s' with
        | piece :: pieces => String c piece :: pieces
        | [] => [String c EmptyString]
        end
  end.

(** [v.split('.')] *)
Definition py_split_dot (v : pyval) : pyres (list string) :=
  match v with
  | PStr s => Ret (split_on "." s)
  | _ => Raise (no_attribute v "split")
  end.

Definition claim_words : list string := ["said"; "reported"; "announced"; "confirmed"].

(** The body of the inner loop of [_extract_key_claims]: what the sentence
    appends to [claims], if anything. *)
Definition claim_of (sentence : string) : option string :=
  let sentence := strip sentence in
  if (len sentence >? 20)
     && existsb (fun word => contains word (lower sentence)) claim_words
  then Some (if len sentence >? 100 then take 100 sentence ++ "..." else sentence)
  else None.

Definition article_claims (article : dict) : pyres (list string) :=
  sentences ← py_split_dot (get article "content" (PStr ""));
  mret (omap (M:=list) claim_of sentences).

(** [_extract_key_claims] *)
Definition _extract_key_claims (articles : list dict) : list string :=
  Credibility.or_else
    (claims ← mapM article_claims articles;
     mret (List.firstn 5 (List.concat claims)))
    [].

(** The two keyword tables, in the order the dictionaries are written. *)
Definition focus_keywords : list (string * list string) :=
  [("politics", ["government"; "policy"; "election"; "politician"; "congress"]);
   ("economy", ["economy"; "market"; "business"; "financial"; "trade"]);
   ("technology", ["technology"; "tech"; "digital"; "innovation"; "ai"]);
   ("social", ["society"; "community"; "social"; "people"; "public"]);
   ("international", ["international"; "global"; "foreign"; "world"; "country"])].

Definition angle_keywords : list (string * list string) :=
  [("conflict", ["conflict"; "dispute"; "battle"; "fight"; "opposition"]);
   ("cooperation", ["cooperation"; "partnership"; "collaboration"; "agreement"]);
   ("progress", ["progress"; "advance"; "improve"; "develop"; "growth"]);
   ("crisis", ["crisis"; "emergency"; "danger"; "threat"; "problem"]);
   ("opportunity", ["opportunity"; "chance"; "potential"; "prospect"])].

(** The text both functions search: the lowered title, a space, the
    lowered content. The content is lowered first. *)
Definition full_text (article : dict) : pyres string :=
  content ← py_lower (get article "content" (PStr ""));
  title ← py_lower (get article "title" (PStr ""));
  mret (title ++ " " ++ content).

(** [any(keyword in full_text for keyword in keywords)] *)
Definition mentions (keywords : list string) (text : string) : bool :=
  existsb (fun keyword => contains keyword text) keywords.

(** [counts[area] += 1] on a dictionary kept as an association list. *)
Fixpoint increment (area : string) (counts : list (string * Z)) : list (string * Z) :=
  match counts with
  | [] => []
  | (a, n) :: rest =>
      if String.eqb a area then (a, n + 1) :: rest else (a, n) :: increment area rest
  end.

(** The inner loop over the keyword table, for the text of one article. *)
Definition count_text (table : list (string * list string)) (counts : list (string * Z))
    (text : string) : list (string * Z) :=
  fold_left (fun counts (entry : string * list string) =>
               if mentions (snd entry) text then increment (fst entry) counts else counts)
            table counts.

(** The outer loop over the articles. *)
Fixpoint count_loop (table : list (string * list string)) (articles : list dict)
    (counts : list (string * Z)) : pyres (list (string * Z)) :=
  match articles with
  | [] => Ret counts
  | article :: rest =>
      text ← full_text article;
      count_loop table rest (count_text table counts text)
  end.

(** [{area: 0 for area in table.keys()}] *)
Definition zero_counts (table : list (string * list string)) : list (string * Z) :=
  List.map (fun entry => (fst entry, 0)) table.

(** [_identify_focus_areas] *)
Definition _identify_focus_areas (articles : list dict) : list string :=
  Credibility.or_else
    (focus_counts ← count_loop focus_keywords articles (zero_counts focus_keywords);
     mret (List.map fst (List.filter (fun item : string * Z => snd item >? 0) focus_counts)))
    [].

(** [max(items, key=lambda x: x[1])]: the first item with the largest
    count. *)
Fixpoint first_max (best : string * Z) (items : list (string * Z)) : string * Z :=
  match items with
  | [] => best
  | item :: rest => first_max (if snd item >? snd best then item else best) rest
  end.

Definition max_by_count (items : list (string * Z)) : pyres (string * Z) :=
  match items with
  | [] => Raise (Exn ValueError "max() arg is an empty sequence")
  | item :: rest => Ret (first_max item rest)
  end.

(** [_identify_narrative_angle] *)
Definition _identify_narrative_angle (articles : list dict) : string :=
  Credibility.or_else
    (angle_counts ← count_loop angle_keywords articles (zero_counts angle_keywords);
     match angle_counts with
     | [] => Ret "neutral"
     | _ => best ← max_by_count angle_counts; mret (fst best)
     end)
    "neutral".

End Comparator.

(** ** Vocabulary for statements about texts *)
Module TextRules.
Import Py.

(** Every character of the string satisfies [p]. *)
Fixpoint all_chars (p : ascii -> bool) (s : string) : bool :=
  match s with
  | EmptyString => true
  | String c s' => p c && all_chars p s'
  end.

(** The string neither starts nor ends with white space. *)
Definition stripped (s : string) : Prop := strip s = s.

End TextRules.

(** ** Vocabulary and samples for the path from the API to the store *)
Module FetcherRules.
Import Py Requests Fetcher TextRules FetcherSamples.

(** What [_clean_articles] promises of an article it returns. *)
Definition well_formed (c : dict) : Prop :=
  (exists t, c !! "title" = Some (PStr t) /\ stripped t)
  /\ (exists d, c !! "description" = Some (PStr d) /\ stripped d)
  /\ (exists full, c !! "content" = Some (PStr full) /\ 100 <= len (strip full))
  /\ Forall (fun k => is_Some (c !! k))
       ["url"; "published_at"; "source"; "author"; "url_to_image"].

(** An article as the API sends it. *)
Definition raw_article : pyval :=
  PDict (<["title" := PStr " Rates unchanged "]>
        (<["description" := PStr "The central bank holds."]>
        (<["content" := PStr (SummarizerSamples.long_text ++ " More follows.")]>
        (<["url" := PStr "https://example.org/rates"]>
        (<["publishedAt" := PStr "2024-01-01T00:00:00Z"]>
        (<["source" := PDict (<["name" := PStr "Reuters"]> ∅)]> ∅)))))).

(** The same article without its address. *)
Definition raw_article_without_url : pyval :=
  match raw_article with
  | PDict a => PDict (delete "url" a)
  | v => v
  end.

(** A body with which the API reports an error under status 200. *)
Definition error_body : pyval :=
  PDict (<["status" := PStr "error"]> (<["message" := PStr "Too many results"]> ∅)).

(** An environment that gives the same answer to every attempt. *)
Definition always (status_code : Z) (body : pyval) (k : nat) : attempt :=
  Attempt 100%float 100%float (Response status_code (Ret body)).

End FetcherRules.

(** ** Histories of a query engine *)
Module QueryRuns.
Import Py Disk Ingest Query.

(** What can happen to a [RAGQueryEngine]: [_initialize] (with the verdict
    of the Ollama check), [reload_vector_store] and [query], each with the
    answers of its environment. *)
Inductive op :=
| Initialize (ollama_ok : bool) (io : load_io) (d : fs)
| Reload (io : load_io) (d : fs)
| Ask (invoke : string -> pyres qa_output) (question : string).

Definition run_op (store_path : path) (e : engine) (o : op) : engine :=
  match o with
  | Initialize ollama_ok io d => snd (_initialize store_path ollama_ok io d e)
  | Reload io d => snd (reload_vector_store store_path io d e)
  | Ask invoke question => snd (query invoke question e)
  end.

Definition run_ops (store_path : path) (ops : list op) (e : engine) : engine :=
  fold_left (run_op store_path) ops e.

(** The index cannot be read. *)
Definition load_fails : load_io :=
  LoadIO (Raise (Exn LibraryError "could not open index.faiss")) None.

End QueryRuns.

(** ** Vocabulary for statements about the credibility table *)
Module CredibilityRules.
Import Py Credibility CredibilityRuns CredibilityReports.

(** The value of ["article_count"] of a source, 0 when it has no record. *)
Definition articles_seen (s : scorer) (source : string) : Z :=
  match record_of s source with Some r => article_count r | None => 0 end.

(** The number of articles passed to the calls of a list. *)
Definition articles_in (calls : list call) : Z :=
  fold_right Z.add 0 (List.map (fun c => Z.of_nat (List.length (call_articles c))) calls).

(** The number of sources a distribution counts. *)
Definition total (d : distribution) : Z :=
  very_high d + high d + medium d + low d + very_low d.

(** The directory of the data file cannot be created. *)
Definition read_only_io (t : string) : update_io :=
  UpdateIO t t t t (Some (Exn OSError "Read-only file system")) None None.

(** The file is opened, and the disk fills up while the table is
    written. *)
Definition disk_full_io (t : string) : update_io :=
  UpdateIO t t t t None None (Some (Exn OSError "No space left on device")).

(** A [json.load] that reads back what [json.dump] wrote and rejects an
    incomplete file. *)
Definition reads_back (content : file_content) : pyres credibility_data :=
  match content with
  | Dumped d => Ret d
  | Truncated => Raise (Exn JSONDecodeError "Expecting value: line 1 column 1 (char 0)")
  end.

End CredibilityRules.

(** ** Vocabulary for statements about grouping and keyword counts *)
Module BiasRules.
Import Py BiasSources.

(** The article has [k] as its source. *)
Definition has_source (k : key) (article : dict) : bool :=
  match source_key article with
  | Ret k' => bool_decide (k' = k)
  | Raise _ => false
  end.

(** [source_groups.get(k)] *)
Fixpoint group_of (k : key) (source_groups : list (key * list dict)) : option (list dict) :=
  match source_groups with
  | [] => None
  | (k', l) :: rest => if decide (k' = k) then Some l else group_of k rest
  end.

(** The groups [g] are those of the articles [seen]: one group per source
    that occurs, holding the articles of that source in their order. *)
Definition groups_for (seen : list dict) (g : list (key * list dict)) : Prop :=
  NoDup (List.map fst g)
  /\ forall k, group_of k g
               = match List.filter (has_source k) seen with
                 | [] => None
                 | l => Some l
                 end.

End BiasRules.

Module ComparatorRules.
Import Py Comparator.

(** The number of texts that mention one of the keywords. *)
Definition mention_count (keywords : list string) (texts : list string) : Z :=
  Z.of_nat (List.length (List.filter (mentions keywords) texts)).

(** The counts of a keyword table over a list of texts. *)
Definition tally (table : list (string * list string)) (texts : list string)
    : list (string * Z) :=
  List.map (fun entry => (fst entry, mention_count (snd entry) texts)) table.

(** A character other than the full stop. *)
Definition not_dot (c : ascii) : bool := negb (Ascii.eqb c ".").

End ComparatorRules.

(** ** bias_detection/bias_analyzer.py: the scores of one source *)
Module BiasScores.
Import Py Bias.

Section Analyzer.

Variable container_repr : pyval -> string.

Definition loaded_indicators : list string :=
  ["clearly"; "obviously"; "undoubtedly"; "certainly"; "definitely";
   "shocking"; "scandalous"; "outrageous"; "amazing"; "incredible";
   "disaster"; "crisis"; "catastrophe"; "miracle"; "breakthrough"].

Record language_scores := LanguageScores {
  loaded_language_ratio : number;
  language_bias_score : number
}.

(** One iteration of the loop of [_analyze_language_bias]. *)
Definition count_loaded (loaded_language_count : Z) (article : dict) : Z :=
  let loaded_count := keyword_score loaded_indicators (full_text container_repr article) in
  if loaded_count >? 2 then loaded_language_count + 1 else loaded_language_count.

(** [_analyze_language_bias]: like the sentiment analysis, its body
    cannot raise on a list of dictionaries. *)
Definition _analyze_language_bias (articles : list dict) : language_scores :=
  let total_articles := Z.of_nat (List.length articles) in
  let loaded_language_count := fold_left count_loaded articles 0 in
  LanguageScores (ratio loaded_language_count total_articles)
                 (ratio loaded_language_count total_articles).

Definition factual_red_flags : list string :=
  ["unverified"; "rumor"; "allegedly"; "supposedly";
   "according to sources"; "anonymous sources"].

(** [any(flag in content.lower() for flag in factual_red_flags)]: the
    first flag already evaluates [content.lower()]. *)
Definition has_red_flag (article : dict) : pyres bool :=
  text ← py_lower (get article "content" (PStr ""));
  mret (existsb (fun flag => contains flag text) factual_red_flags).

(** The loop of [_analyze_factual_consistency]. *)
Fixpoint count_issues (articles : list dict) (factual_issues : Z) : pyres Z :=
  match articles with
  | [] => Ret factual_issues
  | article :: rest =>
      flagged ← has_red_flag article;
      count_issues rest (if flagged : bool then factual_issues + 1 else factual_issues)
  end.

(** [1 - x] *)
Definition one_minus (x : number) : number :=
  match x with
  | NInt z => NInt (1 - z)
  | NFloat f => NFloat (1 - f)%float
  end.

(** The dictionary [_analyze_factual_consistency] returns: the two
    scores, or [{"error": str(e)}]. *)
Inductive fact_scores :=
| FactScores (factual_issues_ratio factual_consistency_score : number)
| FactError (message : string).

Definition _analyze_factual_consistency (articles : list dict) : fact_scores :=
  let total_articles := Z.of_nat (List.length articles) in
  match count_issues articles 0 with
  | Ret factual_issues =>
      FactScores (ratio factual_issues total_articles)
                 (one_minus (ratio factual_issues total_articles))
  | Raise e => FactError (exn_str e)
  end.

(** [abs(x)], and the float an [int] or a [float] is multiplied as. *)
Definition number_abs (x : number) : number :=
  match x with
  | NInt z => NInt (Z.abs z)
  | NFloat f => NFloat (PrimFloat.abs f)
  end.
Definition to_float (x : number) : float :=
  match x with
  | NInt z => float_of_Z z
  | NFloat f => f
  end.

(** [fact_scores.get('factual_consistency_score', 0)] *)
Definition consistency_or_zero (f : fact_scores) : number :=
  match f with
  | FactScores _ score => score
  | FactError _ => NInt 0
  end.

(** [_calculate_overall_bias] on the results of the three analyses. *)
Definition _calculate_overall_bias (sentiment : sentiment_scores)
    (language : language_scores) (facts : fact_scores) : float :=
  let sentiment_score := number_abs (sentiment_bias_score sentiment) in
  let language_score := language_bias_score language in
  let factual_score := one_minus (consistency_or_zero facts) in
  let overall_bias :=
    (to_float sentiment_score * 0.4 + to_float language_score * 0.3
     + to_float factual_score * 0.3)%float in
  fmin overall_bias 1.0.

Definition _classify_bias_level (bias_score : float) : string :=
  if PrimFloat.ltb bias_score 0.2 then "Low"
  else if PrimFloat.ltb bias_score 0.4 then "Moderate"
  else if PrimFloat.ltb bias_score 0.6 then "High"
  else "Very High".

Record source_analysis := SourceAnalysis {
  analysis_source : pyval;
  analysis_article_count : Z;
  sentiment_bias : sentiment_scores;
  language_bias : language_scores;
  factual_consistency : fact_scores;
  overall_bias_score : float;
  bias_level : string;
  analysis_articles : list dict
}.

(** The dictionary [_analyze_source_bias] returns. *)
Inductive source_bias_result :=
| Analysis (r : source_analysis)
| AnalysisError (message : string).

Definition _analyze_source_bias (articles : list dict) : source_bias_result :=
  match articles with
  | [] => AnalysisError "No articles to analyze"
  | first :: _ =>
      let sentiment_scores := _analyze_sentiment_bias container_repr articles in
      let language_scores := _analyze_language_bias articles in
      let fact_scores := _analyze_factual_consistency articles in
      let overall_bias :=
        _calculate_overall_bias sentiment_scores language_scores fact_scores in
      Analysis (SourceAnalysis
                  (get first "source" (PStr "Unknown"))
                  (Z.of_nat (List.length articles))
                  sentiment_scores language_scores fact_scores
                  overall_bias (_classify_bias_level overall_bias) articles)
  end.

End Analyzer.
End BiasScores.

(** ** Vocabulary for statements about article objects *)
Module SummarizerRules.
Import Py Summarizer.

(** The dictionary a reference denotes in a world. *)
Definition article_at (w : world) (article : nat) : dict :=
  default ∅ (heap w !! article).

End SummarizerRules.

(** * Properties *)

(** Unfold the monads of [Py] down to pairs and matches. *)
Ltac run_monad :=
  unfold mbind, mret, Py.pyM_bind, Py.pyM_ret, Py.pyres_bind, Py.pyres_ret,
    Py.try_exceptM, Py.try_except, Py.modify, Py.lift, Py.raise, Py.get_state in *;
  simpl in *.

Module BiasProofs.
Import Py Bias BiasSamples.

Section Counting.
Variable container_repr : pyval -> string.

Lemma count_article_total c a :
  total (count_article container_repr c a) = total c + 1.
Proof.
  unfold count_article, total.
  destruct (_ >? _); [simpl; lia|].
  destruct (_ >? _); simpl; lia.
Qed.

Lemma count_article_nonneg c a :
  nonneg c -> nonneg (count_article container_repr c a).
Proof.
  unfold count_article, nonneg. intros (Hp & Hn & Hu).
  destruct (_ >? _); [simpl; lia|].
  destruct (_ >? _); simpl; lia.
Qed.

Lemma fold_count_total articles : forall c,
  total (fold_left (count_article container_repr) articles c)
  = total c + Z.of_nat (List.length articles).
Proof.
  induction articles as [|a l IH]; intros c; simpl fold_left.
  - simpl. lia.
  - rewrite IH, count_article_total. simpl List.length. lia.
Qed.

Lemma fold_count_nonneg articles : forall c,
  nonneg c -> nonneg (fold_left (count_article container_repr) articles c).
Proof.
  induction articles as [|a l IH]; intros c Hc; simpl; auto using count_article_nonneg.
Qed.

Lemma exact_shares_sum (p n u t : Z) :
  p + n + u = t -> 0 < t ->
  (inject_Z p / inject_Z t + inject_Z n / inject_Z t + inject_Z u / inject_Z t == 1)%Q.
Proof.
  intros Hsum Ht. subst t.
  rewrite !inject_Z_plus. field.
  rewrite <- !inject_Z_plus. unfold Qeq. simpl. lia.
Qed.

(** C8 (amended). On a non-empty list of articles every article falls
    into exactly one of the three buckets: the counts are non-negative and
    sum to the number of articles. Each ratio is the count of its bucket
    divided by that number, in double precision, and the exact quotients
    sum to 1. *)
Theorem sentiment_ratios_partition (articles : list dict) :
  articles <> [] ->
  let c := count_articles container_repr articles in
  let n := Z.of_nat (List.length articles) in
  let r := _analyze_sentiment_bias container_repr articles in
  nonneg c /\
  positive_count c + negative_count c + neutral_count c = n /\
  positive_ratio r = NFloat (float_of_Z (positive_count c) / float_of_Z n) /\
  negative_ratio r = NFloat (float_of_Z (negative_count c) / float_of_Z n) /\
  neutral_ratio r = NFloat (float_of_Z (neutral_count c) / float_of_Z n) /\
  (inject_Z (positive_count c) / inject_Z n
   + inject_Z (negative_count c) / inject_Z n
   + inject_Z (neutral_count c) / inject_Z n == 1)%Q.
Proof.
  intros Hne c n r.
  assert (Hn : 0 < n).
  { subst n. destruct articles; [congruence | simpl List.length; lia]. }
  assert (Hsum : total c = n).
  { subst c n. unfold count_articles. rewrite fold_count_total. reflexivity. }
  assert (Hgt : (n >? 0) = true) by (apply Z.gtb_lt; lia).
  split; [| split; [exact Hsum | ]].
  - subst c. unfold count_articles. apply fold_count_nonneg. unfold nonneg. simpl. lia.
  - subst r. unfold _analyze_sentiment_bias, ratio. simpl.
    fold n. fold c. rewrite Hgt.
    repeat split; try reflexivity.
    apply exact_shares_sum; assumption.
Qed.

End Counting.

Lemma sentiment_ratios_partition_witness :
  six_articles <> [] /\
  positive_count (count_articles no_repr six_articles)
  + negative_count (count_articles no_repr six_articles)
  + neutral_count (count_articles no_repr six_articles) = 6.
Proof.
  split; [discriminate|].
  exact (proj1 (proj2 (sentiment_ratios_partition no_repr six_articles ltac:(discriminate)))).
Defined.

(** C8, counterexample: with one positive, four negative and one neutral
    article the three ratios, added as doubles, do not give 1.0. *)
Lemma six_articles_ratio_sum_not_one :
  count_articles no_repr six_articles = Counts 1 4 1 /\
  ratio_sum (_analyze_sentiment_bias no_repr six_articles) <> Some 1%float.
Proof.
  split; [vm_compute; reflexivity|].
  intros H.
  apply (f_equal (fun o => match o with Some x => PrimFloat.eqb x 1%float | None => true end)) in H.
  vm_compute in H. discriminate.
Qed.

(** With 8, 9 and 18 articles in the buckets no order of addition of the
    three ratios gives 1.0. *)
Lemma thirty_five_articles_any_order :
  let r := _analyze_sentiment_bias no_repr thirty_five_articles in
  exists p n u,
    positive_ratio r = NFloat p /\ negative_ratio r = NFloat n /\ neutral_ratio r = NFloat u /\
    PrimFloat.eqb (p + n + u) 1 = false /\
    PrimFloat.eqb (p + u + n) 1 = false /\
    PrimFloat.eqb (n + u + p) 1 = false.
Proof.
  vm_compute. do 3 eexists. repeat split.
Qed.
End BiasProofs.

Module CredibilityProofs.
Import Py Credibility CredibilityRuns.

(** Saving never touches the per-source records. *)
Lemma save_keeps_sources io s :
  sources (data (snd (_save_credibility_data io s))) = sources (data s).
Proof.
  unfold _save_credibility_data, fail_if. run_monad.
  destruct (makedirs_error io); simpl; [reflexivity|].
  destruct (open_error io); simpl; [reflexivity|].
  destruct (dump_error io); reflexivity.
Qed.

Lemma save_returns io s : fst (_save_credibility_data io s) = Ret tt.
Proof.
  unfold _save_credibility_data, fail_if. run_monad.
  destruct (makedirs_error io); simpl; [reflexivity|].
  destruct (open_error io); simpl; [reflexivity|].
  destruct (dump_error io); reflexivity.
Qed.

Lemma update_returns io source sc articles s :
  fst (_update_source_history io source sc articles s) = Ret tt.
Proof.
  unfold _update_source_history, read_record, write_record. run_monad.
  destruct (average_length articles); simpl; [|reflexivity].
  match goal with |- context [sources ?d] => destruct (sources d) as [m|] end; [|reflexivity].
  match goal with |- context [m !! source] => destruct (m !! source) end; [|reflexivity].
  match goal with |- context [_save_credibility_data ?i ?st] =>
    pose proof (save_returns i st) as H; destruct (_save_credibility_data i st) as [[] ?] end;
  simpl in *; congruence.
Qed.

(** Saving returns, and leaves the per-source records alone. *)
Lemma save_spec io s :
  exists s', _save_credibility_data io s = (Ret tt, s')
             /\ sources (data s') = sources (data s).
Proof.
  exists (snd (_save_credibility_data io s)). split.
  - pose proof (save_returns io s) as H.
    destruct (_save_credibility_data io s) as [r s']. simpl in *. congruence.
  - apply save_keeps_sources.
Qed.

(** The per-source table after one update, in closed form. *)
Lemma update_sources io source sc articles s :
  let m0 := default ∅ (sources (data s)) in
  let r0 := default (blank io) (m0 !! source) in
  let n := Z.of_nat (List.length articles) in
  sources (data (snd (_update_source_history io source sc articles s))) =
  Some (match average_length articles with
        | Ret avg =>
            <[source := record_entry (HistoryEntry (now_entry io) sc n avg) n
                          (now_updated io) r0]> m0
        | Raise _ => <[source := r0]> m0
        end).
Proof.
  intros m0 r0 n. subst m0 r0 n.
  unfold _update_source_history, read_record, write_record. run_monad.
  unfold set_data, ensure_record, ensure_sources, blank.
  destruct s as [[[m|] lu] f]; simpl.
  - destruct (m !! source) as [r|] eqn:Hr; simpl.
    + destruct (average_length articles); simpl.
      * rewrite Hr. simpl. match goal with |- context [_save_credibility_data ?i ?st] =>
          destruct (save_spec i st) as (s' & Hs & Hk); rewrite Hs; simpl; rewrite Hk; simpl end. reflexivity.
      * rewrite insert_id by assumption. reflexivity.
    + destruct (average_length articles); simpl.
      * rewrite lookup_insert_eq. simpl. match goal with |- context [_save_credibility_data ?i ?st] =>
          destruct (save_spec i st) as (s' & Hs & Hk); rewrite Hs; simpl; rewrite Hk; simpl end.
        rewrite insert_insert_eq. reflexivity.
      * reflexivity.
  - rewrite lookup_empty. simpl.
    destruct (average_length articles); simpl.
    + rewrite lookup_insert_eq. simpl. match goal with |- context [_save_credibility_data ?i ?st] =>
          destruct (save_spec i st) as (s' & Hs & Hk); rewrite Hs; simpl; rewrite Hk; simpl end.
      rewrite insert_insert_eq. reflexivity.
    + reflexivity.
Qed.

(** [score_source_credibility] changes the scorer exactly as the update it
    performs. *)
Lemma scoring_state io source articles s :
  snd (score_source_credibility io source articles s)
  = snd (_update_source_history io source (score source articles) articles s).
Proof.
  unfold score_source_credibility, score. run_monad.
  pose proof (update_returns io source
    (_calculate_overall_credibility (_get_base_reputation_score source)
       (_analyze_recent_performance source articles)
       (_calculate_consistency_score source articles)) articles s) as H.
  destruct (_update_source_history _ _ _ _ s) as [[] ?]; simpl in *; congruence.
Qed.

Lemma run_call_direct s c :
  run_call s c
  = snd (_update_source_history (call_io c) (call_source c) (call_score c)
           (call_articles c) s).
Proof. destruct c; simpl; [apply scoring_state | reflexivity]. Qed.

Lemma mapM_returns {A B} (f : A -> pyres B) (l : list A) :
  Forall (fun x => returns (f x)) l -> returns (mapM f l).
Proof.
  induction 1 as [|x xs [b Hb] _ [bs IH]]; [eexists; reflexivity|].
  exists (b :: bs). simpl. rewrite Hb. simpl. rewrite IH. reflexivity.
Qed.

Lemma measurable_average articles :
  measurable articles -> returns (average_length articles).
Proof.
  unfold measurable, average_length. intros H.
  destruct articles as [|a l]; [eexists; reflexivity|].
  destruct (mapM_returns _ _ H) as [ls Hls]. rewrite Hls. simpl.
  unfold truediv.
  destruct (Z.of_nat (List.length (a :: l)) =? 0) eqn:E; [simpl in E; lia|].
  eexists; reflexivity.
Qed.

Lemma step_other s c source :
  call_source c <> source ->
  record_of (run_call s c) source = record_of s source.
Proof.
  intros Hne. unfold record_of, get_source_credibility_history.
  rewrite run_call_direct, update_sources. simpl.
  destruct (average_length (call_articles c)); rewrite lookup_insert_ne by assumption; reflexivity.
Qed.

Lemma step_same s c :
  measurable (call_articles c) ->
  record_of (run_call s c) (call_source c)
  = Some (record_entry (entry_of c) (Z.of_nat (List.length (call_articles c)))
            (now_updated (call_io c))
            (default (blank (call_io c)) (record_of s (call_source c)))).
Proof.
  intros Hm. unfold record_of, get_source_credibility_history.
  rewrite run_call_direct, update_sources. simpl.
  destruct (measurable_average _ Hm) as [avg Havg].
  unfold entry_of. rewrite Havg. simpl. rewrite lookup_insert_eq. reflexivity.
Qed.

Lemma mapM_raises {A B} (f : A -> pyres B) (l : list A) (x : A) :
  In x l -> raises (f x) -> raises (mapM f l).
Proof.
  induction l as [|y l IH]; intros Hin Hx; [contradiction|].
  simpl. destruct (f y) as [b|e] eqn:Hy; simpl; [|eexists; reflexivity].
  destruct Hin as [->|Hin].
  - destruct Hx as [e He]. congruence.
  - destruct (IH Hin Hx) as [e ->]. eexists; reflexivity.
Qed.

(** A content without a length makes the performance score the neutral
    0.5. *)
Lemma performance_default source articles (a : dict) :
  In a articles ->
  raises (py_len (get a "content" (PStr ""))) ->
  _analyze_recent_performance source articles = 0.5%float.
Proof.
  intros Hin Hlen. unfold _analyze_recent_performance.
  destruct articles as [|a0 rest]; [contradiction|].
  assert (Hq : raises (mapM article_quality (a0 :: rest))).
  { apply (mapM_raises _ _ a Hin). unfold article_quality.
    destruct Hlen as [e ->]. eexists; reflexivity. }
  destruct Hq as [e ->]. reflexivity.
Qed.

(** *** The history keeps the last ten entries *)

Lemma no_length_no_lower (v : pyval) (w : string) :
  raises (py_len v) -> raises (text ← py_lower v; mret (contains w text)).
Proof.
  destruct v; simpl; intros [e He]; try discriminate; eexists; reflexivity.
Qed.

Lemma consistency_default source articles (a : dict) :
  In a articles ->
  raises (py_len (get a "content" (PStr ""))) ->
  _calculate_consistency_score source articles = 0.5%float.
Proof.
  intros Hin Hlen. unfold _calculate_consistency_score.
  destruct articles as [|a0 rest]; [contradiction|].
  assert (Hq : raises (mapM article_pattern (a0 :: rest))).
  { apply (mapM_raises _ _ a Hin). unfold article_pattern, count_in_lower.
    destruct (mapM_raises
                (fun w => text ← py_lower (get a "content" (PStr "")); mret (contains w text))
                tone_positive_words "positive") as [e He].
    - left. reflexivity.
    - apply no_length_no_lower, Hlen.
    - rewrite He. eexists. reflexivity. }
  destruct Hq as [e He]. rewrite He. reflexivity.
Qed.

Lemma average_raises articles (a : dict) :
  In a articles ->
  raises (py_len (get a "content" (PStr ""))) ->
  raises (average_length articles).
Proof.
  intros Hin Hlen. unfold average_length. destruct articles as [|a0 rest]; [contradiction|].
  destruct (mapM_raises (fun a : dict => py_len (get a "content" (PStr ""))) _ a Hin Hlen)
    as [e He].
  rewrite He. eexists. reflexivity.
Qed.







Lemma run_calls_snoc calls c s :
  run_calls (calls ++ [c]) s = run_call (run_calls calls s) c.
Proof. unfold run_calls. rewrite fold_left_app. reflexivity. Qed.

Lemma calls_for_snoc source calls c :
  calls_for source (calls ++ [c])
  = (calls_for source calls
     ++ if String.eqb (call_source c) source then [c] else [])%list.
Proof. unfold calls_for. rewrite List.filter_app. reflexivity. Qed.

Lemma hist_default s source io :
  history (default (blank io) (record_of s source)) = hist s source.
Proof. unfold hist. destruct (record_of s source); reflexivity. Qed.

(** The record of the source of a call after the call, in closed form. *)
Lemma step_own s c :
  record_of (run_call s c) (call_source c)
  = Some (match average_length (call_articles c) with
          | Ret avg =>
              record_entry
                (HistoryEntry (now_entry (call_io c)) (call_score c)
                   (Z.of_nat (List.length (call_articles c))) avg)
                (Z.of_nat (List.length (call_articles c)))
                (now_updated (call_io c))
                (default (blank (call_io c)) (record_of s (call_source c)))
          | Raise _ => default (blank (call_io c)) (record_of s (call_source c))
          end).
Proof.
  unfold record_of, get_source_credibility_history.
  rewrite run_call_direct, update_sources. simpl.
  destruct (average_length (call_articles c)); rewrite lookup_insert_eq; reflexivity.
Qed.







(** An update whose articles carry a content without a length is dropped:
    the record is created but no entry is appended. *)
Example unmeasurable_update_is_dropped :
  option_map history
    (get_source_credibility_history "bbc"
       (run_call fresh_scorer (ViaScore (quiet_io "t") "bbc" [null_content])))
  = Some [].
Proof. vm_compute. reflexivity. Qed.

End CredibilityProofs.

Module FetcherProofs.
Import Py Requests Fetcher FetcherSamples.

Lemma attempt_prefix env params s :
  (a ← next_attempt env; _ ← _rate_limit a; http_get a params) s
  = (match outcome (env (attempts s)) with
     | Response c j => Ret (c, j)
     | Fails e => Raise e
     end, after_attempt s (env (attempts s)) params).
Proof.
  unfold next_attempt, _rate_limit, http_get, emit, after_attempt, attempt_events.
  run_monad.
  destruct (PrimFloat.ltb _ _); simpl;
    destruct (outcome (env (attempts s))); simpl; rewrite <- ?app_assoc; reflexivity.
Qed.

Lemma requests_in_app t u : requests_in (t ++ u) = (requests_in t + requests_in u)%nat.
Proof. unfold requests_in. rewrite List.filter_app, length_app. reflexivity. Qed.

Lemma backoffs_in_app t u : backoffs_in (t ++ u) = (backoffs_in t ++ backoffs_in u)%list.
Proof. unfold backoffs_in. apply omap_app. Qed.

Lemma attempt_events_requests s a params : requests_in (attempt_events s a params) = 1%nat.
Proof. unfold attempt_events. destruct (PrimFloat.ltb _ _); reflexivity. Qed.

Lemma attempt_events_backoffs s a params : backoffs_in (attempt_events s a params) = [].
Proof. unfold attempt_events. destruct (PrimFloat.ltb _ _); reflexivity. Qed.

(** One level of [_make_request], by the outcome of its attempt. *)
Lemma make_request_step depth env params s :
  _make_request (S depth) env params s
  = let a := env (attempts s) in
    let s1 := after_attempt s a params in
    match outcome a with
    | Fails e => (Raise (rethrow e), s1)
    | Response c j =>
        if c =? 401 then
          (Raise (Exn ValueError "Invalid NewsAPI key. Please check your API key."), s1)
        else if c =? 429 then
          let s2 := FetcherState (api_key s1) (last_request_time s1) (attempts s1)
                      (trace s1 ++ [Slept AfterRateLimited 60%float]) in
          match _make_request depth env params s2 with
          | (Ret v, s') => (Ret v, s')
          | (Raise e, s') => (Raise (rethrow e), s')
          end
        else if negb (c =? 200) then
          (Raise (Exn PlainException ("API request failed with status " ++ pretty c)), s1)
        else
          match j with
          | Ret v => (Ret v, s1)
          | Raise e => (Raise (rethrow e), s1)
          end
    end.
Proof.
  cbn [_make_request].
  unfold next_attempt, _rate_limit, http_get, emit, after_attempt, attempt_events.
  run_monad.
  destruct (PrimFloat.ltb _ _); simpl;
    (destruct (outcome (env (attempts s))) as [c j|e]; simpl;
     [|rewrite <- ?app_assoc; reflexivity]);
    (destruct (c =? 401); simpl; [rewrite <- ?app_assoc; reflexivity|]);
    (destruct (c =? 429); simpl;
     [rewrite <- ?app_assoc; simpl;
      match goal with |- context [_make_request depth env params ?st] =>
        destruct (_make_request depth env params st) as [[v|e] s'] end; reflexivity|]);
    (destruct (negb (c =? 200)); simpl; [rewrite <- ?app_assoc; reflexivity|]);
    destruct j; simpl; rewrite <- ?app_assoc; reflexivity.
Qed.



Lemma attempt_events_params s a params : same_params params (attempt_events s a params).
Proof.
  unfold attempt_events, same_params.
  destruct (PrimFloat.ltb _ _); repeat constructor.
Qed.

Lemma is_429_response a :
  is_429 a = true -> exists c j, outcome a = Response c j /\ (c =? 429) = true.
Proof.
  unfold is_429. destruct (outcome a) as [c j|e]; [|discriminate].
  intros H. eauto.
Qed.

(** C3 (amended). A call that meets [n] consecutive 429 responses and then
    any other outcome sleeps 60 seconds after each of them and issues
    [n + 1] requests in all, each with the parameters of the call, as long
    as the interpreter allows [n] nested retries. With [n = 1] these are
    the original request and one retry. *)
Theorem rate_limited_requests (env : nat -> attempt) (params : dict) (n : nat) :
  forall (depth : nat) (s : fetcher),
  (n < depth)%nat ->
  (forall i, (i < n)%nat -> is_429 (env (attempts s + i)%nat) = true) ->
  is_429 (env (attempts s + n)%nat) = false ->
  exists t,
    trace (snd (_make_request depth env params s)) = (trace s ++ t)%list
    /\ requests_in t = S n
    /\ backoffs_in t = repeat 60%float n
    /\ same_params params t
    /\ attempts (snd (_make_request depth env params s)) = (attempts s + S n)%nat.
Proof.
  induction n as [|n IH]; intros depth s Hd Hlim Hlast.
  - destruct depth as [|depth]; [lia|].
    rewrite make_request_step. cbn zeta.
    rewrite Nat.add_0_r in Hlast. unfold is_429 in Hlast.
    exists (attempt_events s (env (attempts s)) params).
    assert (Hs1 : forall r : pyres pyval,
      trace (snd (r, after_attempt s (env (attempts s)) params))
        = (trace s ++ attempt_events s (env (attempts s)) params)%list
      /\ requests_in (attempt_events s (env (attempts s)) params) = 1%nat
      /\ backoffs_in (attempt_events s (env (attempts s)) params) = repeat 60%float 0
      /\ same_params params (attempt_events s (env (attempts s)) params)
      /\ attempts (snd (r, after_attempt s (env (attempts s)) params))
          = (attempts s + 1)%nat).
    { intros r. simpl. repeat split;
        auto using attempt_events_requests, attempt_events_backoffs, attempt_events_params.
      lia. }
    destruct (outcome (env (attempts s))) as [c j|e]; [|apply Hs1].
    rewrite Hlast.
    destruct (c =? 401); [apply Hs1|].
    destruct (negb (c =? 200)); [apply Hs1|].
    destruct j; apply Hs1.
  - destruct depth as [|depth]; [lia|].
    rewrite make_request_step. cbn zeta.
    destruct (is_429_response _ (Hlim 0%nat ltac:(lia))) as (c & j & Ho & Hc).
    rewrite Nat.add_0_r in Ho. rewrite Ho.
    assert (H401 : (c =? 401) = false).
    { apply Z.eqb_eq in Hc. subst c. reflexivity. }
    rewrite H401, Hc.
    set (s1 := after_attempt s (env (attempts s)) params).
    set (s2 := FetcherState (api_key s1) (last_request_time s1) (attempts s1)
                 (trace s1 ++ [Slept AfterRateLimited 60%float])).
    destruct (IH depth s2) as (t & Ht & Hreq & Hback & Hpar & Hatt).
    + lia.
    + intros i Hi. simpl. replace (S (attempts s + i)) with (attempts s + S i)%nat by lia.
      apply Hlim. lia.
    + simpl. replace (S (attempts s + n)) with (attempts s + S n)%nat by lia.
      exact Hlast.
    + exists (attempt_events s (env (attempts s)) params
              ++ [Slept AfterRateLimited 60%float] ++ t)%list.
      assert (Hsnd : snd (match _make_request depth env params s2 with
                          | (Ret v, s') => (Ret v, s')
                          | (Raise e, s') => (Raise (rethrow e), s')
                          end) = snd (_make_request depth env params s2)).
      { destruct (_make_request depth env params s2) as [[v|e] s']; reflexivity. }
      rewrite Hsnd, Ht, Hatt. simpl trace. simpl attempts.
      repeat split.
      * rewrite <- !app_assoc. reflexivity.
      * rewrite !requests_in_app, attempt_events_requests, Hreq. reflexivity.
      * rewrite !backoffs_in_app, attempt_events_backoffs, Hback. reflexivity.
      * unfold same_params in *. apply Forall_app. split; [apply attempt_events_params|].
        constructor; [exact I | exact Hpar].
      * lia.
Qed.

Lemma rate_limited_requests_witness :
  exists t,
    trace (snd (_make_request 5 once_limited some_params new_fetcher)) = t
    /\ requests_in t = 2%nat
    /\ backoffs_in t = [60%float].
Proof.
  destruct (rate_limited_requests once_limited some_params 1 5 new_fetcher)
    as (t & Ht & Hreq & Hback & _).
  - lia.
  - intros i Hi. assert (i = 0%nat) by lia. subst i. reflexivity.
  - reflexivity.
  - exists t. rewrite Ht. simpl. repeat split; assumption.
Defined.

(** C3, counterexample: two 429 responses in a row lead to a third
    request. *)
Lemma three_requests_after_two_429 :
  fst (_make_request 5 twice_limited some_params new_fetcher) = Ret ok_body
  /\ requests_in (trace (snd (_make_request 5 twice_limited some_params new_fetcher)))
     = 3%nat
  /\ ~ (requests_in (trace (snd (_make_request 5 twice_limited some_params new_fetcher)))
        <= 2)%nat.
Proof.
  assert (H : requests_in (trace (snd (_make_request 5 twice_limited some_params new_fetcher)))
              = 3%nat) by (vm_compute; reflexivity).
  split; [vm_compute; reflexivity|]. split; [exact H|]. rewrite H. lia.
Qed.
End FetcherProofs.

Module SummarizerProofs.
Import Py Requests Summarizer SummarizerSamples.


Section Loop.
Variable model : string.
Variable env : nat -> http_outcome.
Variable max_length : Z.

Lemma make_request_heap prompt n w :
  heap (snd (_make_request model env prompt n w)) = heap w.
Proof.
  unfold _make_request, emit. run_monad.
  destruct (env (posts w)) as [c j|e]; simpl; [|reflexivity].
  destruct (c =? 404); simpl; [reflexivity|].
  destruct (negb (c =? 200)); simpl; [reflexivity|].
  destruct j as [b|e]; simpl; [|reflexivity].
  destruct (py_get b "response" (PStr "")) as [a|e]; simpl; [|reflexivity].
  destruct (py_strip a); reflexivity.
Qed.

Lemma summarize_text_heap text w :
  heap (snd (summarize_text model env text max_length w)) = heap w.
Proof.
  unfold summarize_text. run_monad.
  destruct (validate_summary_length text) as [[]|e]; simpl; try reflexivity.
  destruct text; try reflexivity.
  match goal with |- context [_make_request model env ?p ?n w] =>
    pose proof (make_request_heap p n w) as H;
    destruct (_make_request model env p n w) as [[s'|e] w'] end; simpl in *; [|exact H].
  destruct (String.eqb s' ""); exact H.
Qed.

Lemma generate_heap article w :
  heap (snd (generate model env article max_length w)) = heap w.
Proof.
  unfold generate, deref. run_monad.
  destruct (py_prefix 50 _); simpl; [|reflexivity].
  destruct (getitem _ "content"); simpl; [|reflexivity].
  apply summarize_text_heap.
Qed.

(** An iteration appends the article whatever happens, and stores a
    summary in it. *)
Lemma summarize_article_spec acc article w :
  fst (summarize_article model env acc article max_length w) = Ret (acc ++ [article])%list
  /\ snd (summarize_article model env acc article max_length w) = step model env max_length w article
  /\ heap (step model env max_length w article)
     = <[article := <["summary" := PStr (stored_summary model env max_length w article)]>
                      (default ∅ (heap w !! article))]> (heap w).
Proof.
  unfold SummarizerSamples.step, SummarizerSamples.stored_summary, summarize_article, setitem, emit. run_monad.
  pose proof (generate_heap article w) as H.
  destruct (generate model env article max_length w) as [[s|e] w']; simpl in *;
    rewrite H; repeat split; reflexivity.
Qed.

Lemma summarize_loop_spec articles : forall acc w,
  summarize_loop model env articles acc max_length w
  = (Ret (acc ++ articles)%list, run model env max_length articles w).
Proof.
  induction articles as [|a rest IH]; intros acc w; simpl.
  - rewrite app_nil_r. reflexivity.
  - destruct (summarize_article_spec acc a w) as (Hf & Hs & _).
    unfold mbind, pyM_bind.
    destruct (summarize_article model env acc a max_length w) as [r w'].
    simpl in Hf, Hs. subst r w'. rewrite IH, <- app_assoc. reflexivity.
Qed.

Lemma summary_after_step w article :
  summary_of (step model env max_length w article) article
  = Some (PStr (stored_summary model env max_length w article)).
Proof.
  unfold summary_of. destruct (summarize_article_spec [] article w) as (_ & _ & ->).
  rewrite lookup_insert_eq. simpl. apply lookup_insert_eq.
Qed.

Lemma summary_after_other_step w article other :
  other <> article -> summary_of (step model env max_length w article) other = summary_of w other.
Proof.
  intros Hne. unfold summary_of.
  destruct (summarize_article_spec [] article w) as (_ & _ & ->).
  rewrite lookup_insert_ne by congruence. reflexivity.
Qed.

Lemma summary_is_text_after_step w article other :
  (exists s, summary_of w other = Some (PStr s)) ->
  exists s, summary_of (step model env max_length w article) other = Some (PStr s).
Proof.
  intros H. destruct (decide (other = article)) as [->|Hne].
  - eexists. apply summary_after_step.
  - rewrite summary_after_other_step by assumption. exact H.
Qed.

Lemma summary_is_text_after_run articles : forall w other,
  (exists s, summary_of w other = Some (PStr s)) ->
  exists s, summary_of (run model env max_length articles w) other = Some (PStr s).
Proof.
  induction articles as [|a rest IH]; intros w other H; simpl; [exact H|].
  apply IH, summary_is_text_after_step, H.
Qed.

Lemma summary_untouched_by_run articles : forall w other,
  other ∉ articles ->
  summary_of (run model env max_length articles w) other = summary_of w other.
Proof.
  induction articles as [|a rest IH]; intros w other Hnot; simpl; [reflexivity|].
  apply not_elem_of_cons in Hnot as [Hne Hrest].
  rewrite IH by assumption. apply summary_after_other_step. exact Hne.
Qed.

Lemma run_app l1 l2 w :
  run model env max_length (l1 ++ l2) w
  = run model env max_length l2 (run model env max_length l1 w).
Proof. unfold SummarizerSamples.run. apply fold_left_app. Qed.

(** C9. [summarize_articles] returns its input list, so no article is
    dropped or reordered and a failure on one article does not stop the
    loop; every article of the list then holds a textual summary; and the
    summary of an article that does not occur again later in the list is
    the text its own iteration produced, the fixed failure message when
    that iteration raised. *)
Theorem summarize_articles_keeps_every_article (articles : list nat) (w : world) :
  let out := summarize_articles model env articles max_length w in
  fst out = Ret articles
  /\ (forall article, article ∈ articles ->
       exists s, summary_of (snd out) article = Some (PStr s))
  /\ (forall i article,
       articles !! i = Some article ->
       article ∉ List.skipn (S i) articles ->
       let before :=
         snd (summarize_articles model env (List.firstn i articles) max_length w) in
       summary_of (snd out) article
       = Some (PStr (match fst (generate model env article max_length before) with
                     | Ret s => s
                     | Raise _ => "Failed to generate summary."
                     end))).
Proof.
  unfold summarize_articles. rewrite summarize_loop_spec. simpl.
  split; [reflexivity|]. split.
  - intros article Hin.
    apply list_elem_of_split in Hin as (l1 & l2 & ->).
    rewrite run_app. simpl.
    apply summary_is_text_after_run. eexists. apply summary_after_step.
  - intros i article Hi Hlater.
    rewrite summarize_loop_spec. simpl.
    rewrite <- (take_drop_middle articles i article Hi) at 1.
    rewrite run_app. simpl.
    rewrite summary_untouched_by_run by exact Hlater.
    apply summary_after_step.
Qed.

End Loop.

Lemma summarize_articles_keeps_every_article_witness :
  let out := summarize_articles "mistral" steady_server [0; 1; 2]%nat 200 three_articles in
  fst out = Ret [0; 1; 2]%nat
  /\ summary_of (snd out) 1%nat = Some (PStr "Failed to generate summary.")
  /\ summary_of (snd out) 0%nat = Some (PStr "Rates stay put.").
Proof.
  destruct (summarize_articles_keeps_every_article "mistral" steady_server 200
              [0; 1; 2]%nat three_articles) as (Hret & _ & Heach).
  split; [exact Hret|]. split.
  - rewrite (Heach 1%nat 1%nat); [vm_compute; reflexivity | reflexivity |].
    vm_compute. intros H. apply list_elem_of_In in H. simpl in H. intuition discriminate.
  - rewrite (Heach 0%nat 0%nat); [vm_compute; reflexivity | reflexivity |].
    vm_compute. intros H. apply list_elem_of_In in H. simpl in H. intuition discriminate.
Defined.

End SummarizerProofs.

Module StoreProofs.
Import Py Disk Ingest StoreSamples IngestRule.


(** *** Facts about the disk *)

Lemma exists_false (d : fs) (p : path) : exists_ d p = false <-> d !! p = None.
Proof.
  unfold exists_. rewrite bool_decide_eq_false, <- eq_None_not_Some. reflexivity.
Qed.

Lemma exists_true (d : fs) (p : path) : exists_ d p = true <-> is_Some (d !! p).
Proof. unfold exists_. apply bool_decide_eq_true. Qed.

Lemma remove_tree_gone (d : fs) (p : path) : exists_ (remove_tree p d) p = false.
Proof.
  apply exists_false. unfold remove_tree. apply map_lookup_filter_None. right.
  intros k _. simpl. unfold under. rewrite bool_decide_eq_false. intros H. apply H. reflexivity.
Qed.

Lemma remove_tree_absent (d : fs) (p q : path) :
  exists_ d q = false -> exists_ (remove_tree p d) q = false.
Proof.
  rewrite !exists_false. intros H. unfold remove_tree.
  apply map_lookup_filter_None. left. exact H.
Qed.

Lemma delete_gone (d : fs) (p : path) : exists_ (delete p d) p = false.
Proof. apply exists_false, lookup_delete_eq. Qed.

Lemma delete_absent (d : fs) (p q : path) :
  exists_ d q = false -> exists_ (delete p d) q = false.
Proof.
  rewrite !exists_false. intros H. destruct (decide (p = q)) as [->|Hne].
  - apply lookup_delete_eq.
  - rewrite lookup_delete_ne by assumption. exact H.
Qed.

(** *** [clear_vector_store] *)

Section Clear.
Variable store_path : path.

(** The deletion of the index directory: it fails, or the directory is
    gone, nothing absent has appeared, and a disk without the directory
    is left as it was. *)
Lemma rmtree_step io s :
  let out := (if exists_ (disk s) store_path then rmtree io store_path else mret tt) s in
  match fst out with
  | Ret _ =>
      exists_ (disk (snd out)) store_path = false
      /\ (forall q, exists_ (disk s) q = false -> exists_ (disk (snd out)) q = false)
      /\ store (snd out) = store s
      /\ (exists_ (disk s) store_path = false -> snd out = s)
  | Raise _ => True
  end.
Proof.
  destruct (exists_ (disk s) store_path) eqn:E; simpl.
  - unfold rmtree, set_disk. run_monad.
    destruct (disk s !! store_path) as [[]|]; simpl; try exact I.
    + destruct (rmtree_error io) as [[e left_over]|]; simpl; [exact I|].
      repeat split;
        auto using remove_tree_gone, remove_tree_absent, delete_gone, delete_absent.
      discriminate.
    + destruct (rmtree_error io) as [[e left_over]|]; simpl; [exact I|].
      repeat split;
        auto using remove_tree_gone, remove_tree_absent, delete_gone, delete_absent.
      discriminate.
  - repeat split; auto.
Qed.

Lemma remove_step io p s :
  let out := remove_if_exists io p s in
  match fst out with
  | Ret _ =>
      exists_ (disk (snd out)) p = false
      /\ (forall q, exists_ (disk s) q = false -> exists_ (disk (snd out)) q = false)
      /\ store (snd out) = store s
      /\ (exists_ (disk s) p = false -> snd out = s)
  | Raise _ => True
  end.
Proof.
  unfold remove_if_exists. run_monad.
  destruct (exists_ (disk s) p) eqn:E; simpl.
  - unfold remove, set_disk, fail_if. run_monad.
    destruct (disk s !! p) as [[]|]; simpl; try exact I.
    + destruct (remove_error io p); simpl; [exact I|].
      repeat split;
        auto using remove_tree_gone, remove_tree_absent, delete_gone, delete_absent.
      discriminate.
    + destruct (remove_error io p); simpl; [exact I|].
      repeat split;
        auto using remove_tree_gone, remove_tree_absent, delete_gone, delete_absent.
      discriminate.
  - repeat split; auto.
Qed.

(** [clear_vector_store] as the sequence of its three deletions. *)
Lemma clear_unfold io s :
  clear_vector_store store_path io s
  = match (if exists_ (disk s) store_path then rmtree io store_path else mret tt) s with
    | (Raise _, s1) => (Ret false, s1)
    | (Ret _, s1) =>
        match remove_if_exists io metadata_path s1 with
        | (Raise _, s2) => (Ret false, s2)
        | (Ret _, s2) =>
            match remove_if_exists io langchain_metadata_path s2 with
            | (Raise _, s3) => (Ret false, s3)
            | (Ret _, s3) => (Ret true, s3)
            end
        end
    end.
Proof.
  unfold clear_vector_store. run_monad.
  destruct (if exists_ (disk s) store_path then _ else _) as [[[]|e] s1]; simpl; [|reflexivity].
  destruct (remove_if_exists io metadata_path s1) as [[[]|e] s2]; simpl; [|reflexivity].
  destruct (remove_if_exists io langchain_metadata_path s2) as [[[]|e] s3]; reflexivity.
Qed.


(** After a successful clear, the index directory and the two metadata
    files are absent. *)
Lemma clear_success io s :
  fst (clear_vector_store store_path io s) = Ret true ->
  let s' := snd (clear_vector_store store_path io s) in
  exists_ (disk s') store_path = false
  /\ exists_ (disk s') metadata_path = false
  /\ exists_ (disk s') langchain_metadata_path = false
  /\ store s' = store s.
Proof.
  rewrite clear_unfold.
  pose proof (rmtree_step io s) as H1. cbn zeta in H1.
  destruct (if exists_ (disk s) store_path then _ else _) as [[[]|e] s1];
    simpl in H1 |- *; [|discriminate].
  pose proof (remove_step io metadata_path s1) as H2. cbn zeta in H2.
  destruct (remove_if_exists io metadata_path s1) as [[[]|e] s2];
    simpl in H2 |- *; [|discriminate].
  pose proof (remove_step io langchain_metadata_path s2) as H3. cbn zeta in H3.
  destruct (remove_if_exists io langchain_metadata_path s2) as [[[]|e] s3];
    simpl in H3 |- *; [|discriminate].
  intros _.
  destruct H1 as (G1 & M1 & S1 & _), H2 as (G2 & M2 & S2 & _), H3 as (G3 & M3 & S3 & _).
  repeat split; auto. congruence.
Qed.







End Clear.

(** *** Validation *)

Lemma missing_or_empty_filled article field :
  missing_or_empty article field = false <-> filled article field.
Proof.
  unfold missing_or_empty, filled. destruct (article !! field) as [v|]; split.
  - intros H. exists v. split; [reflexivity|]. destruct (truthy v); [reflexivity|discriminate].
  - intros (v' & [= <-] & ->). reflexivity.
  - discriminate.
  - intros (v' & [=] & _).
Qed.

Lemma required_filled article :
  existsb (missing_or_empty article) required_fields = false
  <-> Forall (filled article) required_fields.
Proof.
  unfold required_fields. simpl. rewrite !orb_false_iff.
  rewrite !Forall_cons, Forall_nil, !missing_or_empty_filled. tauto.
Qed.

(** The validation of one article. It accepts the article exactly when the
    rule of the specification holds; it raises exactly when the five fields
    are filled and the content is not a text, because stripping such a
    content raises; in every other case it returns. *)
Lemma validate_article_cases article :
  (is_valid article = true <-> acceptable article)
  /\ (raises (_validate_article article) <-> breaks_validation article)
  /\ (~ breaks_validation article -> _validate_article article = Ret (is_valid article)).
Proof.
  unfold is_valid, _validate_article, acceptable, breaks_validation, raises.
  destruct (existsb (missing_or_empty article) required_fields) eqn:E.
  - assert (Hno : ~ Forall (filled article) required_fields).
    { intros Hall. apply required_filled in Hall. congruence. }
    unfold required_fields in Hno.
    split; [|split].
    + split; [discriminate | tauto].
    + split; [intros [e He]; discriminate | tauto].
    + reflexivity.
  - pose proof (proj1 (required_filled article) E) as Hall. unfold required_fields in Hall.
    assert (Hc : filled article "content") by (rewrite !Forall_cons in Hall; tauto).
    destruct Hc as (v & Hv & Ht).
    unfold getitem. rewrite Hv. simpl.
    destruct v as [|z|s|l|d]; simpl;
      try (split; [|split];
           [ split; [discriminate | intros (_ & s' & [=] & _)]
           | split; [intros _; split; [exact Hall | intros s' [=]] | eauto]
           | intros Hb; exfalso; apply Hb; split; [exact Hall | intros s' [=]] ]).
    destruct (len (strip s) <? 50) eqn:L; (split; [|split]).
    + split; [discriminate|]. intros (_ & s' & [= <-] & Hlen).
      apply Z.ltb_lt in L. lia.
    + split; [intros [e He]; discriminate|]. intros [_ Hb]. destruct (Hb s eq_refl).
    + reflexivity.
    + split; [|reflexivity]. intros _. split; [exact Hall|].
      exists s. split; [reflexivity|]. apply Z.ltb_ge in L. exact L.
    + split; [intros [e He]; discriminate|]. intros [_ Hb]. destruct (Hb s eq_refl).
    + reflexivity.
Qed.

(** The first loop keeps the valid articles in order, when no article
    stops it. *)
Lemma validate_all_filter articles :
  Forall (fun a => ~ breaks_validation a) articles ->
  validate_all articles = Ret (List.filter is_valid articles).
Proof.
  induction 1 as [|a l Ha _ IH]; [reflexivity|].
  simpl. destruct (validate_article_cases a) as (_ & _ & Hret).
  rewrite (Hret Ha). simpl. rewrite IH. simpl. reflexivity.
Qed.

(** One article that stops the validation stops the loop. *)
Lemma validate_all_abort articles :
  Exists breaks_validation articles -> raises (validate_all articles).
Proof.
  induction 1 as [a l Ha | a l _ IH]; simpl.
  - destruct (validate_article_cases a) as (_ & Hraise & _).
    apply Hraise in Ha as [e ->]. simpl. unfold raises. eauto.
  - destruct (_validate_article a) as [ok|e]; simpl; [|unfold raises; eauto].
    destruct IH as [e ->]. simpl. unfold raises. eauto.
Qed.

Lemma validate_all_valid articles : forall valid,
  validate_all articles = Ret valid -> Forall (fun a => is_valid a = true) valid.
Proof.
  induction articles as [|a rest IH]; intros valid; simpl.
  - intros H. inversion H. constructor.
  - run_monad. destruct (_validate_article a) as [ok|e] eqn:Ha; simpl; [|discriminate].
    destruct (validate_all rest) as [vs|e]; simpl; [|discriminate].
    intros H. inversion H. subst valid. clear H.
    destruct ok; [|apply IH; reflexivity].
    constructor; [|apply IH; reflexivity]. unfold is_valid. rewrite Ha. reflexivity.
Qed.

(** A valid article has what a [Document] is built from. *)
Lemma valid_fields article :
  is_valid article = true ->
  exists s title source url published_at,
    article !! "content" = Some (PStr s)
    /\ article !! "title" = Some title
    /\ article !! "source" = Some source
    /\ article !! "url" = Some url
    /\ article !! "published_at" = Some published_at
    /\ 50 <= len (strip s).
Proof.
  unfold is_valid, _validate_article.
  destruct (existsb (missing_or_empty article) required_fields) eqn:E; [discriminate|].
  apply required_filled in E. unfold required_fields in E.
  rewrite !Forall_cons in E.
  destruct E as ((t & Ht & _) & (c & Hc & _) & (so & Hso & _) & (u & Hu & _)
                 & (p & Hp & _) & _).
  unfold getitem. rewrite Hc. simpl.
  destruct c; simpl; try discriminate.
  destruct (len (strip s) <? 50) eqn:L; [discriminate|]. intros _.
  apply Z.ltb_ge in L. eauto 12.
Qed.

Lemma create_documents_valid clock valid : forall k,
  Forall (fun a => is_valid a = true) valid ->
  exists docs,
    create_documents clock k valid = Ret docs
    /\ Forall2 (fun (a : dict) d =>
                  a !! "content" = Some (PStr (page_content d))
                  /\ 50 <= len (strip (page_content d))) valid docs.
Proof.
  induction valid as [|a l IH]; intros k Hall.
  - exists []. split; [reflexivity | constructor].
  - apply Forall_cons in Hall as [Ha Hl].
    destruct (valid_fields a Ha) as (s & t & so & u & p & Hc & Ht & Hso & Hu & Hp & Hlen).
    destruct (IH (S k) Hl) as (docs & Hdocs & Hrel).
    eexists. simpl. unfold _create_metadata, getitem.
    rewrite Hc, Ht, Hso, Hu, Hp. simpl. rewrite Hdocs. simpl.
    split; [reflexivity|]. constructor; [split; assumption | exact Hrel].
Qed.

(** The two comprehensions of [_save_ingestion_metadata] succeed on
    articles that passed the validation. *)
Lemma side_records_return valid :
  Forall (fun a => is_valid a = true) valid ->
  returns (mapM (fun article : dict =>
                   _ ← getitem article "title";
                   _ ← getitem article "source";
                   _ ← getitem article "url";
                   getitem article "published_at") valid)
  /\ returns (mapM (fun article : dict =>
                   _ ← getitem article "title";
                   _ ← getitem article "source";
                   _ ← getitem article "url";
                   _ ← getitem article "published_at";
                   py_len (get article "content" (PStr ""))) valid).
Proof.
  intros H. split; apply CredibilityProofs.mapM_returns;
    (eapply Forall_impl; [exact H|]); intros a Ha;
    destruct (valid_fields a Ha) as (s & t & src & u & p & Hc & Ht & Hs & Hu & Hp & _);
    unfold getitem, get; rewrite Ht, Hs, Hu, Hp; run_monad; unfold returns; eauto.
  rewrite Hc. simpl. eauto.
Qed.

(** *** [ingest_documents] *)

Section Ingestion.
Variable store_path : path.
Variable split_documents : document -> list document.


Lemma load_or_create_spec io s :
  _load_or_create_store store_path io s
  = (Ret tt,
     Ingestor (match obtained_store store_path io s with
               | Ret st => Some st
               | Raise _ => None
               end)
               (disk s)).
Proof.
  unfold _load_or_create_store, StoreSamples.obtained_store, set_store. run_monad.
  destruct (exists_ (disk s) store_path);
    [destruct (load_local io) | destruct (from_documents io)]; reflexivity.
Qed.

Lemma save_metadata_spec io articles s :
  fst (_save_ingestion_metadata io articles s) = Ret tt
  /\ store (snd (_save_ingestion_metadata io articles s)) = store s
  /\ (forall p, exists_ (disk s) p = true ->
        exists_ (disk (snd (_save_ingestion_metadata io articles s))) p = true)
  /\ (metadata_open_error io <> None ->
      disk (snd (_save_ingestion_metadata io articles s)) = disk s).
Proof.
  assert (Hins : forall (d : fs) q k p, exists_ d p = true -> exists_ (<[q:=k]> d) p = true).
  { intros d q k p. rewrite !exists_true. intros H.
    destruct (decide (q = p)) as [->|Hne].
    - rewrite lookup_insert_eq. eauto.
    - rewrite lookup_insert_ne by assumption. exact H. }
  unfold _save_ingestion_metadata, set_disk, fail_if. run_monad.
  destruct (mapM _ articles); simpl; [|repeat split; auto].
  destruct (metadata_open_error io); simpl; [repeat split; auto|].
  destruct (metadata_dump_error io); simpl; [repeat split; auto; congruence|].
  destruct (mapM _ articles); simpl; [|repeat split; auto; congruence].
  destruct (summaries_open_error io); simpl; [repeat split; auto; congruence|].
  destruct (summaries_dump_error io); simpl; repeat split; auto; congruence.
Qed.

(** What [_save_ingestion_metadata] leaves on the disk, on articles that
    passed the validation. [open] creates or empties a side file before
    [json.dump] writes into it, and the first failure ends the function:
    the summaries file is reached only when the metadata file was written
    completely. *)
Lemma side_files_disk io valid s :
  Forall (fun a => is_valid a = true) valid ->
  let d' := disk (snd (_save_ingestion_metadata io valid s)) in
  (metadata_open_error io <> None -> d' = disk s)
  /\ (metadata_open_error io = None ->
      metadata_dump_error io <> None \/ summaries_open_error io <> None ->
      d' = <[metadata_path := File]> (disk s))
  /\ (metadata_open_error io = None ->
      metadata_dump_error io = None ->
      summaries_open_error io = None ->
      d' = <[summaries_path := File]> (<[metadata_path := File]> (disk s))).
Proof.
  intros Hv. destruct (side_records_return valid Hv) as [[r1 H1] [r2 H2]].
  unfold _save_ingestion_metadata, set_disk, fail_if. run_monad.
  rewrite H1. simpl.
  destruct (metadata_open_error io); simpl;
    [repeat split; intros; congruence|].
  destruct (metadata_dump_error io); simpl;
    [repeat split; intros; congruence|].
  rewrite H2. simpl.
  destruct (summaries_open_error io); simpl;
    [repeat split; intros; try congruence; intuition congruence|].
  destruct (summaries_dump_error io); simpl;
    repeat split; intros; try congruence; intuition congruence.
Qed.

(** [ingest_documents], stage by stage. *)
Lemma ingest_unfold io articles s :
  ingest_documents store_path split_documents io articles s
  = match articles with
    | [] => (Ret false, s)
    | _ =>
        match validate_all articles with
        | Raise _ | Ret [] => (Ret false, s)
        | Ret valid =>
            match create_documents (now io) 0 valid with
            | Raise _ => (Ret false, s)
            | Ret docs => commit store_path split_documents io valid docs s
            end
        end
    end.
Proof.
  unfold ingest_documents, StoreSamples.commit.
  destruct articles as [|a0 rest]; [reflexivity|].
  unfold try_exceptM, mbind at 1, pyM_bind at 1, lift at 1.
  destruct (validate_all (a0 :: rest)) as [[|v0 vrest]|e]; [reflexivity| |reflexivity].
  unfold mbind at 1, pyM_bind at 1, lift at 1.
  destruct (create_documents (now io) 0 (v0 :: vrest)) as [docs|e]; [|reflexivity].
  unfold mbind at 1, pyM_bind at 1. rewrite load_or_create_spec.
  unfold mbind at 1, pyM_bind at 1, get_state. cbn [store].
  destruct (obtained_store store_path io s) as [st|e]; [|reflexivity].
  unfold set_store, set_disk, fail_if. run_monad.
  destruct (add_documents_error io); simpl; [reflexivity|].
  destruct (save_local_error io); simpl; [reflexivity|].
  match goal with |- context [_save_ingestion_metadata io ?l ?st] =>
    pose proof (save_metadata_spec io l st) as (Hr & _);
    destruct (_save_ingestion_metadata io l st) as [[[]|] ?]; simpl in *;
    [reflexivity | discriminate] end.
Qed.



(** The call answers False, and changes nothing, when the validation
    raises. *)
Lemma ingest_abort io articles s :
  raises (validate_all articles) ->
  ingest_documents store_path split_documents io articles s = (Ret false, s).
Proof.
  intros [e He]. rewrite ingest_unfold. rewrite He.
  destruct articles; reflexivity.
Qed.


Lemma commit_success io valid docs s :
  fst (commit store_path split_documents io valid docs s) = Ret true ->
  exists st0 st1,
    obtained_store store_path io s = Ret st0
    /\ store (snd (commit store_path split_documents io valid docs s)) = Some st1
    /\ docstore st1 = (docstore st0 ++ split_all split_documents docs)%list
    /\ (let d := disk (snd (commit store_path split_documents io valid docs s)) in
        exists_ d store_path = true
        /\ exists_ d (store_path ++ ["index.faiss"])%list = true
        /\ exists_ d (store_path ++ ["index.pkl"])%list = true).
Proof.
  unfold StoreSamples.commit. destruct (obtained_store store_path io s) as [st|]; simpl; [|discriminate].
  destruct (add_documents_error io); simpl; [discriminate|].
  destruct (save_local_error io); simpl; [discriminate|]. intros _.
  match goal with |- context [_save_ingestion_metadata io ?l ?x] =>
    destruct (save_metadata_spec io l x) as (_ & Hst & Hex & _) end.
  eexists st, _. split; [reflexivity|]. split; [rewrite Hst; reflexivity|].
  split; [reflexivity|].
  assert (Hsaved : forall p, exists_ (save_local store_path (disk s)) p = true ->
                             exists_ (disk (snd (_save_ingestion_metadata io valid
                               (Ingestor (Some (Faiss (docstore st ++ split_all split_documents docs)))
                                  (save_local store_path (disk s)))))) p = true).
  { intros p Hp. apply Hex. exact Hp. }
  assert (Hne1 : (store_path ++ ["index.pkl"])%list <> store_path).
  { intros H. apply (f_equal List.length) in H. rewrite length_app in H. simpl in H. lia. }
  assert (Hne2 : (store_path ++ ["index.faiss"])%list <> store_path).
  { intros H. apply (f_equal List.length) in H. rewrite length_app in H. simpl in H. lia. }
  assert (Hne3 : (store_path ++ ["index.pkl"])%list <> (store_path ++ ["index.faiss"])%list).
  { intros H. apply app_inv_head in H. discriminate. }
  repeat split; apply Hsaved, exists_true; unfold save_local.
  - rewrite lookup_insert_ne, lookup_insert_ne, lookup_insert_eq by assumption. eauto.
  - rewrite lookup_insert_ne, lookup_insert_eq by assumption. eauto.
  - rewrite lookup_insert_eq. eauto.
Qed.

Lemma ingest_success_commit io articles s :
  fst (ingest_documents store_path split_documents io articles s) = Ret true ->
  exists valid docs,
    validate_all articles = Ret valid
    /\ ingest_documents store_path split_documents io articles s
       = commit store_path split_documents io valid docs s.
Proof.
  rewrite ingest_unfold. destruct articles as [|a rest]; [discriminate|].
  destruct (validate_all (a :: rest)) as [[|v vs]|e]; try discriminate.
  destruct (create_documents (now io) 0 (v :: vs)) as [docs|e]; [|discriminate].
  intros _. eauto.
Qed.

(** The disk after an ingestion that answered True: the disk before, the
    saved index, and what [_save_ingestion_metadata] left. *)
Lemma ingest_success_disk io articles s :
  fst (ingest_documents store_path split_documents io articles s) = Ret true ->
  let d' := disk (snd (ingest_documents store_path split_documents io articles s)) in
  (metadata_open_error io <> None -> d' = save_local store_path (disk s))
  /\ (metadata_open_error io = None ->
      metadata_dump_error io <> None \/ summaries_open_error io <> None ->
      d' = <[metadata_path := File]> (save_local store_path (disk s)))
  /\ (metadata_open_error io = None ->
      metadata_dump_error io = None ->
      summaries_open_error io = None ->
      d' = <[summaries_path := File]>
             (<[metadata_path := File]> (save_local store_path (disk s)))).
Proof.
  intros H.
  destruct (ingest_success_commit io articles s H) as (valid & docs & Hv & Heq).
  rewrite Heq in H |- *. clear Heq.
  apply validate_all_valid in Hv.
  unfold StoreSamples.commit in *.
  destruct (obtained_store store_path io s) as [st|]; simpl in *; [|discriminate].
  destruct (add_documents_error io); simpl in *; [discriminate|].
  destruct (save_local_error io); simpl in *; [discriminate|].
  match goal with |- context [_save_ingestion_metadata io valid ?x] =>
    exact (side_files_disk io valid x Hv) end.
Qed.

Lemma strip_long_not_empty (t : string) : 50 <= len (strip t) -> strip t <> "".
Proof. intros H E. rewrite E in H. unfold len in H. simpl in H. lia. Qed.

(** C2 (amended). [_validate_article] accepts an article exactly when its
    five fields are present and non-empty and its content is a text of at
    least 50 characters once stripped, and it raises exactly when the five
    fields are filled and the content is not a text. One article on which
    it raises ends the ingestion of the whole list: the call answers False
    and changes nothing, whatever the other articles are. On a list
    without such an article, the articles that reach the document stage
    are exactly the acceptable ones, in their original order; one
    [Document] is built from each of them and none from the others; each
    yields at least one chunk when the splitter returns a chunk for every
    non-blank text; and a successful ingestion appends exactly the chunks
    of these documents to the store. *)
Theorem ingest_keeps_exactly_the_valid_articles (io : ingest_io)
    (articles : list dict) (s : ingestor) :
  (forall a, is_valid a = true <-> acceptable a)
  /\ (forall a, raises (_validate_article a) <-> breaks_validation a)
  /\ (Exists breaks_validation articles ->
      raises (validate_all articles)
      /\ ingest_documents store_path split_documents io articles s = (Ret false, s))
  /\ (Forall (fun a => ~ breaks_validation a) articles ->
      let valid := List.filter is_valid articles in
      validate_all articles = Ret valid
      /\ (forall a, In a articles -> (In a valid <-> acceptable a))
      /\ exists docs,
           create_documents (now io) 0 valid = Ret docs
           /\ Forall2 (fun (a : dict) d => a !! "content" = Some (PStr (page_content d)))
                valid docs
           /\ ((forall d, strip (page_content d) <> "" -> split_documents d <> []) ->
               Forall (fun d => split_documents d <> []) docs)
           /\ (fst (ingest_documents store_path split_documents io articles s) = Ret true ->
               exists st0 st1,
                 obtained_store store_path io s = Ret st0
                 /\ store (snd (ingest_documents store_path split_documents io articles s))
                    = Some st1
                 /\ docstore st1 = (docstore st0 ++ split_all split_documents docs)%list)).
Proof.
  split; [intros a; apply validate_article_cases|].
  split; [intros a; apply validate_article_cases|].
  split.
  { intros Hbad. apply validate_all_abort in Hbad.
    split; [exact Hbad | apply ingest_abort, Hbad]. }
  intros Hclean valid.
  assert (Hall : Forall (fun a => is_valid a = true) valid).
  { apply List.Forall_forall. intros a Ha. apply List.filter_In in Ha. tauto. }
  split; [apply validate_all_filter, Hclean|]. split.
  - intros a Ha. subst valid. rewrite List.filter_In.
    destruct (validate_article_cases a) as (Hiff & _). tauto.
  - destruct (create_documents_valid (now io) valid 0%nat Hall) as (docs & Hdocs & Hrel).
    exists docs. split; [exact Hdocs|]. split; [|split].
    + eapply Forall2_impl; [exact Hrel|]. intros a d [H _]. exact H.
    + intros Hsplit. apply Forall2_Forall_r with (Q := fun d => 50 <= len (strip (page_content d))) in Hrel.
      * eapply Forall_impl; [exact Hrel|]. intros d Hd. simpl in Hd.
        apply Hsplit, strip_long_not_empty, Hd.
      * apply Forall_true. intros a d [_ H]. exact H.
    + rewrite ingest_unfold.
      destruct articles as [|a0 rest]; [simpl; discriminate|].
      rewrite (validate_all_filter _ Hclean). fold valid.
      destruct valid as [|v0 vrest] eqn:Hv; [simpl; discriminate|].
      rewrite Hdocs. intros Hok.
      destruct (commit_success io (v0 :: vrest) docs s Hok) as (st0 & st1 & H0 & H1 & H2 & _).
      eauto.
Qed.


End Ingestion.


Lemma ingest_keeps_exactly_the_valid_articles_witness :
  validate_all [complete_article; no_url_article; short_article] = Ret [complete_article]
  /\ exists st1,
       store (snd (ingest_documents default_store_path whole calm_ingest
                     [complete_article; no_url_article; short_article]
                     (Ingestor None saved_disk))) = Some st1
       /\ List.map page_content (docstore st1)
          = [SummarizerSamples.long_text; SummarizerSamples.long_text].
Proof.
  destruct (ingest_keeps_exactly_the_valid_articles default_store_path whole calm_ingest
              [complete_article; no_url_article; short_article]
              (Ingestor None saved_disk))
    as (_ & _ & _ & Hclean).
  assert (Hnone : Forall (fun a => ~ breaks_validation a)
                    [complete_article; no_url_article; short_article]).
  { repeat constructor; intros [Hall Hb].
    - apply (Hb SummarizerSamples.long_text). reflexivity.
    - rewrite !Forall_cons in Hall. destruct Hall as (_ & _ & _ & (v & Hv & _) & _).
      vm_compute in Hv. discriminate.
    - apply (Hb "   Too short.   "). reflexivity. }
  destruct (Hclean Hnone) as (Hvalid & _ & docs & Hdocs & _ & _ & Hok).
  split; [exact Hvalid|].
  destruct (Hok ltac:(vm_compute; reflexivity)) as (st0 & st1 & H0 & H1 & H2).
  exists st1. split; [exact H1|]. rewrite H2.
  vm_compute in H0. injection H0 as <-.
  vm_compute in Hdocs. injection Hdocs as <-. reflexivity.
Defined.

(** C2, counterexample: an article that satisfies the rule is handed over
    together with an article whose content is a number. The validation of
    the second raises, and the call answers False without storing
    anything: the valid article is not kept. *)
Lemma valid_article_lost_to_a_sibling :
  acceptable complete_article
  /\ is_valid complete_article = true
  /\ _validate_article numeric_content_article
     = Raise (Exn AttributeError "'int' object has no attribute 'strip'")
  /\ ingest_documents default_store_path whole calm_ingest
       [complete_article; numeric_content_article] (Ingestor None saved_disk)
     = (Ret false, Ingestor None saved_disk)
  /\ fst (ingest_documents default_store_path whole calm_ingest
            [complete_article] (Ingestor None saved_disk)) = Ret true.
Proof.
  assert (Hvalid : is_valid complete_article = true) by (vm_compute; reflexivity).
  split; [apply validate_article_cases, Hvalid|].
  split; [exact Hvalid|].
  split; [vm_compute; reflexivity|].
  split; vm_compute; reflexivity.
Qed.



End StoreProofs.

Module QueryProofs.
Import Py Disk Ingest Query StoreSamples QuerySamples StoreProofs.


(** C4. [query] returns a result dictionary in every state of the engine
    and whatever the chain does with the question; it never raises. When
    no QA chain is present the result is the not-loaded error, and the
    engine is left as it was. *)
Theorem query_never_raises (invoke : string -> pyres qa_output) (question : string)
    (e : engine) :
  (exists r, fst (query invoke question e) = Ret r)
  /\ (qa_chain e = None -> query invoke question e = (Ret not_loaded, e)).
Proof.
  unfold query, write_log. run_monad. split.
  - destruct (qa_chain e); simpl; [|eauto].
    destruct (invoke question); simpl; eauto.
  - intros ->. reflexivity.
Qed.

Lemma query_never_raises_witness :
  query unreachable "What happened to rates?" new_engine = (Ret not_loaded, new_engine).
Proof.
  apply (proj2 (query_never_raises unreachable "What happened to rates?" new_engine)).
  reflexivity.
Defined.

(** A failure of the chain comes back as an error dictionary. *)
Example query_reports_chain_failure :
  fst (query unreachable "What happened to rates?" loaded_engine)
  = Ret (QueryError "Query failed: Connection refused").
Proof. vm_compute. reflexivity. Qed.

Section Load.
Variable store_path : path.

(** The load step on a disk without the index directory: a warning is
    logged and the engine keeps the store and the chain it had. *)
Lemma load_not_found (io : load_io) (d : fs) (e : engine) :
  exists_ d store_path = false ->
  _load_vector_store store_path io d e
  = (Ret tt, Engine (llm e) (Query.store e) (qa_chain e)
               (log e ++ [(Warning, "Vector store not found at " ++ render store_path)%string])).
Proof.
  intros H. unfold _load_vector_store, write_log. run_monad. rewrite H. reflexivity.
Qed.

(** Clear, then load: the directory and the two metadata files are gone,
    the load step reports that the store was not found, and the engine
    holds after it exactly the store and the chain it held before. *)
Lemma clear_then_load (cio : clear_io) (lio : load_io) (s : ingestor) (e : engine) :
  fst (clear_vector_store store_path cio s) = Ret true ->
  let d := disk (snd (clear_vector_store store_path cio s)) in
  let e' := snd (_load_vector_store store_path lio d e) in
  exists_ d store_path = false
  /\ exists_ d metadata_path = false
  /\ exists_ d langchain_metadata_path = false
  /\ log e' = (log e ++ [(Warning, "Vector store not found at " ++ render store_path)%string])%list
  /\ Query.store e' = Query.store e
  /\ qa_chain e' = qa_chain e.
Proof.
  intros Hok d e'. destruct (clear_success store_path cio s Hok) as (E1 & E2 & E3 & _).
  subst e'. fold d in E1, E2, E3. rewrite (load_not_found lio d e E1). simpl.
  repeat split; assumption || reflexivity.
Qed.

End Load.

(** C5: an engine that loaded the index when it started still holds it
    after the store has been cleared and the load step re-run. *)
Lemma stale_store_survives_clear :
  let s := Ingestor None saved_disk in
  let cleared := clear_vector_store default_store_path calm_clear s in
  let d := disk (snd cleared) in
  let e' := snd (reload_vector_store default_store_path calm_load d loaded_engine) in
  fst cleared = Ret true
  /\ exists_ d default_store_path = false
  /\ List.last (log e') (Info, "") = (Warning, "Vector store not found at data/faiss_store")
  /\ Query.store e' = Some one_document
  /\ qa_chain e' = Some (Chain one_document 3)
  /\ fst (query answering "What happened to rates?" e')
     = fst (query answering "What happened to rates?" loaded_engine).
Proof. vm_compute. repeat split; reflexivity. Qed.

End QueryProofs.

Module ErrorHandlingProofs.
Import Py Requests FetcherSamples BiasSamples SummarizerSamples.











End ErrorHandlingProofs.

(** ** Texts: stripping and sanitising *)
Module TextProofs.
Import Py TextRules Validators.

Lemma rstrip_cons_keep c s : is_space c = false -> rstrip (String c s) = String c (rstrip s).
Proof. intros H. simpl. rewrite H. destruct (rstrip s); reflexivity. Qed.

Lemma rstrip_idempotent s : rstrip (rstrip s) = rstrip s.
Proof.
  induction s as [|c s IH]; [reflexivity|].
  simpl. destruct (rstrip s) as [|c' r] eqn:E.
  - destruct (is_space c) eqn:Hc; [reflexivity|]. simpl. rewrite Hc. reflexivity.
  - change (rstrip (String c (String c' r)) = String c (String c' r)).
    simpl. simpl in IH. destruct (match rstrip r with
                  | "" => if is_space c' then "" else String c' ""
                  | String a s0 => String c' (String a s0)
                  end) eqn:E2; [discriminate|]. rewrite IH. reflexivity.
Qed.

Lemma lstrip_head s :
  lstrip s = "" \/ exists c t, lstrip s = String c t /\ is_space c = false.
Proof.
  induction s as [|c s IH]; [left; reflexivity|].
  simpl. destruct (is_space c) eqn:Hc; [exact IH|]. right. eauto.
Qed.

Lemma strip_idempotent s : strip (strip s) = strip s.
Proof.
  unfold strip. destruct (lstrip_head s) as [->|(c & t & -> & Hc)]; [reflexivity|].
  rewrite (rstrip_cons_keep _ _ Hc). simpl lstrip. rewrite Hc.
  rewrite (rstrip_cons_keep _ _ Hc), rstrip_idempotent. reflexivity.
Qed.

Lemma all_chars_lstrip p s : all_chars p s = true -> all_chars p (lstrip s) = true.
Proof.
  induction s as [|c s IH]; [auto|]. simpl. intros H.
  apply andb_true_iff in H as [H1 H2].
  destruct (is_space c); [auto|]. simpl. rewrite H1, H2. reflexivity.
Qed.

Lemma all_chars_rstrip p s : all_chars p s = true -> all_chars p (rstrip s) = true.
Proof.
  induction s as [|c s IH]; [auto|]. simpl. intros H.
  apply andb_true_iff in H as [H1 H2]. specialize (IH H2).
  destruct (rstrip s) as [|c' r].
  - destruct (is_space c); simpl; [reflexivity|]. rewrite H1. reflexivity.
  - simpl in *. rewrite H1, IH. reflexivity.
Qed.

Lemma all_chars_strip p s : all_chars p s = true -> all_chars p (strip s) = true.
Proof. intros H. apply all_chars_rstrip, all_chars_lstrip, H. Qed.

Lemma length_lstrip s : (String.length (lstrip s) <= String.length s)%nat.
Proof.
  induction s as [|c s IH]; [simpl; lia|]. simpl. destruct (is_space c); simpl; lia.
Qed.

Lemma length_rstrip s : (String.length (rstrip s) <= String.length s)%nat.
Proof.
  induction s as [|c s IH]; [simpl; lia|]. simpl.
  destruct (rstrip s) as [|c' r]; [destruct (is_space c)|]; simpl in *; lia.
Qed.

Lemma len_strip s : len (strip s) <= len s.
Proof.
  unfold len, strip. pose proof (length_rstrip (lstrip s)). pose proof (length_lstrip s). lia.
Qed.

Lemma remove_dangerous_clean s :
  all_chars (fun c => negb (dangerous c)) (remove_dangerous s) = true.
Proof.
  induction s as [|c s IH]; [reflexivity|]. simpl.
  destruct (dangerous c) eqn:Hc; [exact IH|]. simpl. rewrite Hc, IH. reflexivity.
Qed.

Lemma remove_dangerous_fixed s :
  all_chars (fun c => negb (dangerous c)) s = true -> remove_dangerous s = s.
Proof.
  induction s as [|c s IH]; [reflexivity|]. simpl. intros H.
  apply andb_true_iff in H as [H1 H2]. apply negb_true_iff in H1. rewrite H1, (IH H2).
  reflexivity.
Qed.

Lemma length_remove_dangerous s :
  (String.length (remove_dangerous s) <= String.length s)%nat.
Proof.
  induction s as [|c s IH]; [simpl; lia|]. simpl. destruct (dangerous c); simpl; lia.
Qed.

Lemma length_take n s : String.length (take n s) = Nat.min n (String.length s).
Proof.
  revert s. induction n as [|n IH]; intros [|c s]; simpl; try reflexivity.
  rewrite IH. reflexivity.
Qed.

Lemma length_append s t : String.length (s ++ t) = (String.length s + String.length t)%nat.
Proof. induction s as [|c s IH]; simpl; [reflexivity | rewrite IH; reflexivity]. Qed.

(** X1 ([sanitize_query]). Whatever the input, the sanitised query holds
    none of the four removed characters, has no white space at either end,
    is not longer than the input, and sanitising it again changes
    nothing. *)
Theorem sanitize_query_is_clean_and_stable (query : string) :
  all_chars (fun c => negb (dangerous c)) (sanitize_query query) = true
  /\ stripped (sanitize_query query)
  /\ len (sanitize_query query) <= len query
  /\ sanitize_query (sanitize_query query) = sanitize_query query.
Proof.
  unfold sanitize_query, stripped.
  assert (Hc : all_chars (fun c => negb (dangerous c)) (strip (remove_dangerous query)) = true)
    by apply all_chars_strip, remove_dangerous_clean.
  repeat split.
  - exact Hc.
  - apply strip_idempotent.
  - pose proof (len_strip (remove_dangerous query)).
    pose proof (length_remove_dangerous query). unfold len in *. lia.
  - rewrite (remove_dangerous_fixed _ Hc). apply strip_idempotent.
Qed.

(** X2 ([validate_query], with [sanitize_query] as main.py chains them).
    A query is accepted exactly when it has between 2 and 200 characters
    once the white space around it is dropped, so the verdict does not
    change when the query is stripped first; and a sanitised query is
    accepted exactly when its own length is between 2 and 200. *)
Theorem validate_query_counts_stripped_length (query : string) :
  (validate_query query = true <-> 2 <= len (strip query) <= 200)
  /\ validate_query (strip query) = validate_query query
  /\ (validate_query (sanitize_query query) = true
      <-> 2 <= len (sanitize_query query) <= 200).
Proof.
  assert (H : forall q, validate_query q = true <-> 2 <= len (strip q) <= 200).
  { intros q. unfold validate_query.
    destruct (String.eqb q "") eqn:E1.
    - apply String.eqb_eq in E1. subst q. simpl. unfold len. simpl. lia.
    - simpl. destruct (String.eqb (strip q) "") eqn:E2.
      + apply String.eqb_eq in E2. rewrite E2. unfold len. simpl. lia.
      + rewrite andb_true_iff, Z.leb_le, Z.leb_le. tauto. }
  split; [apply H|]. split.
  - destruct (validate_query query) eqn:E.
    + apply H. rewrite strip_idempotent. apply H, E.
    + destruct (validate_query (strip query)) eqn:E'; [|reflexivity].
      apply H in E'. rewrite strip_idempotent in E'. apply H in E'. congruence.
  - rewrite H. unfold sanitize_query. rewrite strip_idempotent. tauto.
Qed.

End TextProofs.

(** ** The fetcher: cleaned articles and the request loop *)
Module FetcherMoreProofs.
Import Py Requests Fetcher FetcherSamples TextRules FetcherRules IngestRule FetcherProofs.

Lemma py_strip_text v s : py_strip v = Ret s -> exists t, v = PStr t /\ s = strip t.
Proof. destruct v; simpl; intros H; inversion H; eauto. Qed.

(** The shape of what one iteration of [_clean_articles] keeps. *)
Lemma clean_article_shape container_repr (article : pyval) (c : dict) :
  clean_article container_repr article = Some c ->
  exists (a : dict) t d full,
    article = PDict a
    /\ 100 <= len (strip full)
    /\ c = <["title" := PStr (strip t)]>
           (<["description" := PStr (strip d)]>
           (<["content" := PStr full]>
           (<["url" := get a "url" (PStr "")]>
           (<["published_at" := get a "publishedAt" (PStr "")]>
           (<["source" := default (PStr "Unknown") (c !! "source")]>
           (<["author" := get a "author" (PStr "Unknown")]>
           (<["url_to_image" := get a "urlToImage" (PStr "")]> ∅))))))).
Proof.
  unfold clean_article. destruct article as [| | |?|a]; try discriminate.
  destruct (a !! "title") as [title|]; [|discriminate].
  destruct (a !! "description") as [description|]; [|discriminate].
  destruct (a !! "content") as [content|]; [|discriminate].
  destruct (negb (truthy content) || is_str content "[Removed]"); [discriminate|].
  match goal with |- context [len (strip ?f) <? 100] => set (full := f) end.
  destruct (len (strip full) <? 100) eqn:Hlen; [discriminate|].
  apply Z.ltb_ge in Hlen.
  destruct (py_strip title) as [t|] eqn:Ht; [|discriminate].
  destruct (py_strip description) as [d|] eqn:Hd; [|discriminate].
  apply py_strip_text in Ht as (t0 & -> & ->).
  apply py_strip_text in Hd as (d0 & -> & ->).
  run_monad.
  destruct (py_get (get a "source" (PDict ∅)) "name" (PStr "Unknown")) as [src|];
    [|discriminate].
  intros H. inversion H as [Hc]. clear H.
  exists a, t0, d0, full. split; [reflexivity|]. split; [exact Hlen|].
  do 5 (rewrite lookup_insert_ne by discriminate). rewrite lookup_insert_eq. reflexivity.
Qed.

Ltac look := repeat (rewrite lookup_insert_ne by discriminate); rewrite lookup_insert_eq.

Lemma clean_article_well_formed container_repr article c :
  clean_article container_repr article = Some c -> well_formed c.
Proof.
  intros H. destruct (clean_article_shape _ _ _ H) as (a & t & d & full & _ & Hlen & Hc).
  set (src := default (PStr "Unknown") (c !! "source")) in Hc. clearbody src.
  subst c. unfold well_formed. split; [|split; [|split]].
  - exists (strip t). split; [look; reflexivity | apply TextProofs.strip_idempotent].
  - exists (strip d). split; [look; reflexivity | apply TextProofs.strip_idempotent].
  - exists full. split; [look; reflexivity | exact Hlen].
  - repeat constructor; look; eauto.
Qed.

Lemma omap_clean container_repr items :
  (List.length (omap (M:=list) (clean_article container_repr) items) <= List.length items)%nat
  /\ Forall well_formed (omap (M:=list) (clean_article container_repr) items).
Proof.
  induction items as [|x items [IH1 IH2]]; [split; [simpl; lia | constructor]|].
  unfold omap in *. simpl. destruct (clean_article container_repr x) as [c|] eqn:E; simpl.
  - split; [lia|]. constructor; [eapply clean_article_well_formed, E | exact IH2].
  - split; [lia | exact IH2].
Qed.

(** X3 ([_clean_articles]). Whatever the API sent, the list that comes
    back is no longer than the one received, and each article in it has a
    stripped text as title and as description, a content text of at least
    100 characters once stripped, and the five other keys. A value that
    cannot be iterated raises. *)
Theorem clean_articles_are_well_formed (container_repr : pyval -> string)
    (articles : pyval) :
  match py_iter articles with
  | Ret items =>
      exists cleaned,
        _clean_articles container_repr articles = Ret cleaned
        /\ (List.length cleaned <= List.length items)%nat
        /\ Forall well_formed cleaned
  | Raise e => _clean_articles container_repr articles = Raise e
  end.
Proof.
  unfold _clean_articles. destruct (py_iter articles) as [items|e]; [|reflexivity].
  run_monad. eexists. split; [reflexivity|]. apply omap_clean.
Qed.

Lemma long_not_empty (s : string) (n : Z) : 0 < n -> n <= len (strip s) -> s <> "".
Proof. intros Hn H ->. unfold len in H. simpl in H. lia. Qed.

(** X4 ([_clean_articles] then [_validate_article]). The validation of
    the ingestor never raises on an article the fetcher has cleaned, and
    its content test always passes: the article is refused exactly when its
    title, source, url or publication date is empty. An API article
    without a url is therefore cleaned and then dropped. *)
Theorem cleaned_article_validation (container_repr : pyval -> string)
    (article : pyval) (c : dict) :
  clean_article container_repr article = Some c ->
  Ingest._validate_article c
  = Ret (truthy (get c "title" PNone) && truthy (get c "source" PNone)
         && truthy (get c "url" PNone) && truthy (get c "published_at" PNone)).
Proof.
  intros H. destruct (clean_article_shape _ _ _ H) as (a & t & d & full & _ & Hlen & Hc).
  set (src := default (PStr "Unknown") (c !! "source")) in Hc. clearbody src.
  assert (Hfull : truthy (PStr full) = true).
  { simpl. apply negb_true_iff, String.eqb_neq. eapply long_not_empty; [|exact Hlen]. lia. }
  subst c. unfold Ingest._validate_article, Ingest.required_fields, existsb,
    Ingest.missing_or_empty, get, getitem.
  repeat look. simpl default.
  rewrite Hfull.
  run_monad.
  destruct (negb (strip t =? "")%string); simpl; [|reflexivity].
  destruct (truthy src); simpl; [|reflexivity].
  destruct (truthy (default (PStr "") (a !! "url"))); simpl; [|reflexivity].
  destruct (truthy (default (PStr "") (a !! "publishedAt"))); simpl; [|reflexivity].
  destruct (len (strip full) <? 50) eqn:E; [apply Z.ltb_lt in E; lia | reflexivity].
Qed.

Lemma cleaned_article_validation_witness :
  Ingest._validate_article
    (default ∅ (clean_article BiasSamples.no_repr raw_article_without_url))
  = Ret false.
Proof.
  rewrite (cleaned_article_validation BiasSamples.no_repr raw_article_without_url
             (default ∅ (clean_article BiasSamples.no_repr raw_article_without_url))).
  - vm_compute. reflexivity.
  - vm_compute. reflexivity.
Defined.

(** X5 ([_clean_articles] then [validate_summary_length]). The content of
    a cleaned article is never too short to be summarised: the summarizer
    refuses it exactly when it has more than 10000 characters. *)
Theorem cleaned_article_summary_length (container_repr : pyval -> string)
    (article : pyval) (c : dict) :
  clean_article container_repr article = Some c ->
  exists full,
    c !! "content" = Some (PStr full)
    /\ Summarizer.validate_summary_length (PStr full) = Ret (len full <=? 10000).
Proof.
  intros H. destruct (clean_article_shape _ _ _ H) as (a & t & d & full & _ & Hlen & Hc).
  set (src := default (PStr "Unknown") (c !! "source")) in Hc. clearbody src.
  exists full. split; [subst c; look; reflexivity|].
  unfold Summarizer.validate_summary_length.
  assert (Hfull : truthy (PStr full) = true).
  { simpl. apply negb_true_iff, String.eqb_neq. eapply long_not_empty; [|exact Hlen]. lia. }
  rewrite Hfull. run_monad.
  destruct (len (strip full) <? 50) eqn:E; [apply Z.ltb_lt in E; lia | reflexivity].
Qed.

Lemma cleaned_article_summary_length_witness :
  exists full,
    default ∅ (clean_article BiasSamples.no_repr raw_article) !! "content" = Some (PStr full)
    /\ Summarizer.validate_summary_length (PStr full) = Ret (len full <=? 10000).
Proof.
  apply (cleaned_article_summary_length BiasSamples.no_repr raw_article).
  vm_compute. reflexivity.
Defined.

(** X6 ([fetch_news] on an answered request). When the request returns a
    JSON object, a status other than ok raises an exception that carries
    the message of the API, and with status ok the result is the cleaned
    list of the articles received; the fetcher is left as the request left
    it. *)
Theorem fetch_news_reads_the_body (container_repr : pyval -> string)
    (date_back : Z -> string) (depth : nat) (env : nat -> attempt)
    (query : string) (max_articles days_back : Z) (s s' : fetcher) (d : dict) :
  _make_request depth env (search_params date_back s query max_articles days_back) s
  = (Ret (PDict d), s') ->
  (is_str (get d "status" PNone) "ok" = false ->
   fetch_news container_repr date_back depth env query max_articles days_back s
   = (Raise (Exn PlainException
               ("NewsAPI error: "
                ++ py_str container_repr (get d "message" (PStr "Unknown error")))), s'))
  /\ (is_str (get d "status" PNone) "ok" = true ->
      forall items, get d "articles" (PList []) = PList items ->
      fetch_news container_repr date_back depth env query max_articles days_back s
      = (Ret (omap (M:=list) (clean_article container_repr) items), s')).
Proof.
  intros Hreq. unfold fetch_news. run_monad. rewrite Hreq. simpl.
  split.
  - intros Hs. rewrite Hs. simpl. reflexivity.
  - intros Hs items Hitems. rewrite Hs. simpl. rewrite Hitems. simpl.
    unfold _clean_articles. simpl. reflexivity.
Qed.

Lemma fetch_news_reads_the_body_witness :
  fst (fetch_news BiasSamples.no_repr fixed_dates 5 (always 200 error_body) "ai" 5 7
         new_fetcher)
  = Raise (Exn PlainException "NewsAPI error: Too many results").
Proof.
  pose proof (fetch_news_reads_the_body BiasSamples.no_repr fixed_dates 5
                (always 200 error_body) "ai" 5 7 new_fetcher
                (snd (_make_request 5 (always 200 error_body)
                        (search_params fixed_dates new_fetcher "ai" 5 7) new_fetcher))
                (<["status" := PStr "error"]> (<["message" := PStr "Too many results"]> ∅)))
    as H.
  destruct H as [H _]; [reflexivity|].
  rewrite H; [|reflexivity]. reflexivity.
Defined.

Lemma backoffs_sleep : backoffs_in [Slept AfterRateLimited 60%float] = [60%float].
Proof. reflexivity. Qed.

Lemma requests_sleep : requests_in [Slept AfterRateLimited 60%float] = 0%nat.
Proof. reflexivity. Qed.

(** The retry of [make_request_step] keeps the state of the nested call. *)
Lemma retry_state (r : pyres pyval * fetcher) :
  snd (match r with
       | (Ret v, s') => (Ret v, s')
       | (Raise e, s') => (Raise (rethrow e), s')
       end) = snd r.
Proof. destruct r as [[v|e] s']; reflexivity. Qed.

(** X7 ([_make_request] under a lasting rate limit). If every answer is a
    429, the call does not return: it goes on requesting and sleeping 60
    seconds, at least one request for each activation the interpreter
    allows, until the interpreter ends it with a [RecursionError]. Nothing
    else caps the retries. Every sleep follows a request, and at most the
    last request is not followed by a sleep. *)
Theorem lasting_rate_limit_exhausts_the_stack (env : nat -> attempt) (params : dict) :
  forall (depth : nat) (s : fetcher),
  (forall i, (i < depth)%nat -> is_429 (env (attempts s + i)%nat) = true) ->
  let out := _make_request depth env params s in
  ~ returns (fst out)
  /\ (exists e, fst out = Raise e /\ exn_cls e = RecursionError)
  /\ exists t,
       trace (snd out) = (trace s ++ t)%list
       /\ (depth <= requests_in t)%nat
       /\ (List.length (backoffs_in t) <= requests_in t)%nat
       /\ (requests_in t <= S (List.length (backoffs_in t)))%nat
       /\ Forall (fun d => d = 60%float) (backoffs_in t).
Proof.
  induction depth as [|depth IH]; intros s Hlim.
  - simpl. split; [intros [v Hv]; discriminate|].
    split; [eexists; split; reflexivity|].
    exists []. rewrite app_nil_r. unfold requests_in. simpl.
    repeat split; try lia. constructor.
  - cbv zeta. rewrite make_request_step. cbn zeta.
    destruct (is_429_response _ (Hlim 0%nat ltac:(lia))) as (c & j & Ho & Hc).
    rewrite Nat.add_0_r in Ho. rewrite Ho.
    assert (H401 : (c =? 401) = false).
    { apply Z.eqb_eq in Hc. subst c. reflexivity. }
    rewrite H401, Hc.
    set (s1 := after_attempt s (env (attempts s)) params).
    set (s2 := FetcherState (api_key s1) (last_request_time s1) (attempts s1)
                 (trace s1 ++ [Slept AfterRateLimited 60%float])).
    destruct (IH s2) as (_ & (e & Hfst & Hcls) & t & Ht & Hreq & Hle & Hge & Hall).
    { intros i Hi. simpl. replace (S (attempts s + i)) with (attempts s + S i)%nat by lia.
      apply Hlim. lia. }
    destruct (_make_request depth env params s2) as [r s'] eqn:E. simpl in Hfst. subst r.
    simpl in Ht. simpl.
    assert (Hsame : rethrow e = e).
    { unfold rethrow. rewrite Hcls. reflexivity. }
    rewrite Hsame.
    split; [intros [v Hv]; discriminate|].
    split; [exists e; split; [reflexivity | exact Hcls]|].
    exists (attempt_events s (env (attempts s)) params
            ++ [Slept AfterRateLimited 60%float] ++ t)%list.
    rewrite Ht.
    rewrite !requests_in_app, !backoffs_in_app, attempt_events_requests,
      attempt_events_backoffs, requests_sleep, backoffs_sleep.
    simpl. repeat split; try lia.
    + rewrite <- !app_assoc. reflexivity.
    + constructor; [reflexivity | exact Hall].
Qed.

Lemma lasting_rate_limit_exhausts_the_stack_witness :
  ~ returns (fst (_make_request 3 (always 429 ok_body) some_params new_fetcher))
  /\ (3 <= requests_in
             (trace (snd (_make_request 3 (always 429 ok_body) some_params new_fetcher))))%nat.
Proof.
  destruct (lasting_rate_limit_exhausts_the_stack (always 429 ok_body) some_params 3
              new_fetcher) as (H & _ & t & Ht & Hreq & _).
  - intros i _. reflexivity.
  - split; [exact H|]. rewrite Ht. exact Hreq.
Defined.

(** X8 ([_make_request], accounting). Whatever the server answers, a call
    only adds to the trace; it issues exactly one request for each answer
    it consumes, never more than the interpreter allows activations and at
    least one when it allows any; and every pause it takes after a request
    lasts 60 seconds and follows a request of its own. *)
Theorem one_request_per_attempt (env : nat -> attempt) (params : dict) :
  forall (depth : nat) (s : fetcher),
  let out := _make_request depth env params s in
  exists t,
    trace (snd out) = (trace s ++ t)%list
    /\ attempts (snd out) = (attempts s + requests_in t)%nat
    /\ (requests_in t <= depth)%nat
    /\ (depth <> 0%nat -> (1 <= requests_in t)%nat)
    /\ (List.length (backoffs_in t) <= requests_in t)%nat
    /\ Forall (fun d => d = 60%float) (backoffs_in t)
    /\ same_params params t.
Proof.
  induction depth as [|depth IH]; intros s.
  - simpl. exists []. rewrite app_nil_r. simpl.
    repeat split; try lia; try constructor. unfold requests_in. simpl. lia.
  - cbv zeta. rewrite make_request_step. cbn zeta.
    set (a := env (attempts s)).
    set (s1 := after_attempt s a params).
    assert (Hone : forall r : pyres pyval,
      exists t,
        trace (snd (r, s1)) = (trace s ++ t)%list
        /\ attempts (snd (r, s1)) = (attempts s + requests_in t)%nat
        /\ (requests_in t <= S depth)%nat
        /\ (S depth <> 0%nat -> (1 <= requests_in t)%nat)
        /\ (List.length (backoffs_in t) <= requests_in t)%nat
        /\ Forall (fun d => d = 60%float) (backoffs_in t)
        /\ same_params params t).
    { intros r. exists (attempt_events s a params).
      rewrite attempt_events_requests, attempt_events_backoffs. simpl.
      repeat split; try lia; try constructor. apply attempt_events_params. }
    destruct (outcome a) as [c j|e]; [|apply Hone].
    destruct (c =? 401); [apply Hone|].
    destruct (c =? 429).
    + set (s2 := FetcherState (api_key s1) (last_request_time s1) (attempts s1)
                   (trace s1 ++ [Slept AfterRateLimited 60%float])).
      destruct (IH s2) as (t & Ht & Hatt & Hle & _ & Hlen & Hall & Hpar).
      rewrite retry_state.
      exists (attempt_events s a params ++ [Slept AfterRateLimited 60%float] ++ t)%list.
      rewrite Ht, Hatt.
      rewrite !requests_in_app, !backoffs_in_app, attempt_events_requests,
        attempt_events_backoffs, requests_sleep, backoffs_sleep.
      simpl. repeat split; try lia.
      * rewrite <- !app_assoc. reflexivity.
      * constructor; [reflexivity | exact Hall].
      * unfold same_params in *. apply Forall_app. split; [apply attempt_events_params|].
        constructor; [exact I | exact Hpar].
    + destruct (negb (c =? 200)); [apply Hone|]. destruct j; apply Hone.
Qed.

End FetcherMoreProofs.

(** ** The summarizer: requests sent, and the model information *)
Module SummarizerMoreProofs.
Import Py Requests Summarizer SummarizerSamples SummarizerInfo.

Section Requests.
Variable model : string.
Variable env : nat -> http_outcome.
Variable max_length : Z.

Lemma make_request_posts prompt n w :
  posts (snd (_make_request model env prompt n w)) = S (posts w).
Proof.
  unfold _make_request, emit. run_monad.
  destruct (env (posts w)) as [c j|e]; simpl; [|reflexivity].
  destruct (c =? 404); simpl; [reflexivity|].
  destruct (negb (c =? 200)); simpl; [reflexivity|].
  destruct j as [b|e]; simpl; [|reflexivity].
  destruct (py_get b "response" (PStr "")) as [a|e]; simpl; [|reflexivity].
  destruct (py_strip a); reflexivity.
Qed.

Lemma valid_is_text text : validate_summary_length text = Ret true -> exists s, text = PStr s.
Proof.
  unfold validate_summary_length. destruct text as [|z|s|l|d]; simpl.
  - discriminate.
  - destruct (negb (z =? 0)); discriminate.
  - eauto.
  - destruct l; discriminate.
  - destruct (negb (bool_decide (size d = 0%nat))); discriminate.
Qed.

(** X9 ([summarize_text]). A text that fails the length check gets the
    fixed refusal and nothing is sent to the model: the world is left as
    it was. A text that passes costs exactly one request, whatever the
    server answers. A value the check cannot measure raises before any
    request. *)
Theorem summarize_text_request_count (text : pyval) (w : world) :
  let out := summarize_text model env text max_length w in
  match validate_summary_length text with
  | Ret true => posts (snd out) = S (posts w) /\ exists s, fst out = Ret s
  | Ret false => out = (Ret "Text too short or too long for summarization.", w)
  | Raise e => out = (Raise e, w)
  end.
Proof.
  cbv zeta. unfold summarize_text. run_monad.
  destruct (validate_summary_length text) as [[]|e] eqn:Hv; simpl; try reflexivity.
  destruct (valid_is_text _ Hv) as [s ->].
  match goal with |- context [_make_request model env ?p ?n w] =>
    pose proof (make_request_posts p n w) as H;
    destruct (_make_request model env p n w) as [[s'|e] w'] end; simpl in *.
  - destruct (String.eqb s' ""); simpl; eauto.
  - eauto.
Qed.

Lemma summarize_text_posts text w :
  (posts w <= posts (snd (summarize_text model env text max_length w))
   <= S (posts w))%nat.
Proof.
  unfold summarize_text. run_monad.
  destruct (validate_summary_length text) as [[]|e]; simpl; try lia.
  destruct text; simpl; try lia.
  match goal with |- context [_make_request model env ?p ?n w] =>
    pose proof (make_request_posts p n w) as H;
    destruct (_make_request model env p n w) as [[s'|e] w'] end; simpl in *; [|lia].
  destruct (String.eqb s' ""); simpl; lia.
Qed.

Lemma generate_posts article w :
  (posts w <= posts (snd (generate model env article max_length w)) <= S (posts w))%nat.
Proof.
  unfold generate, deref. run_monad.
  destruct (py_prefix 50 _); simpl; [|lia].
  destruct (getitem _ "content"); simpl; [|lia].
  apply summarize_text_posts.
Qed.

Lemma summarize_article_posts acc article w :
  (posts w <= posts (snd (summarize_article model env acc article max_length w))
   <= S (posts w))%nat.
Proof.
  unfold summarize_article, setitem, emit. run_monad.
  pose proof (generate_posts article w) as H.
  destruct (generate model env article max_length w) as [[s|e] w']; simpl in *; exact H.
Qed.

Lemma summarize_loop_posts articles : forall acc w,
  (posts w <= posts (snd (summarize_loop model env articles acc max_length w))
   <= posts w + List.length articles)%nat.
Proof.
  induction articles as [|a rest IH]; intros acc w; simpl; [lia|].
  run_monad.
  pose proof (summarize_article_posts acc a w) as H.
  destruct (summarize_article model env acc a max_length w) as [[acc'|e] w']; simpl in *.
  - specialize (IH acc' w'). lia.
  - lia.
Qed.

(** X10 ([summarize_articles]). Summarising a list of articles sends at
    most one request per article to the model, whatever the articles hold
    and whatever the server answers; failures are not retried. *)
Theorem summarize_articles_request_bound (articles : list nat) (w : world) :
  let w' := snd (summarize_articles model env articles max_length w) in
  (posts w <= posts w' <= posts w + List.length articles)%nat.
Proof.
  cbv zeta. unfold summarize_articles.
  pose proof (summarize_loop_posts articles [] w) as H. exact H.
Qed.

Lemma find_model_name (models : list pyval) (info : dict) :
  find_model model models = Ret (Some info) ->
  info !! "name" = Some (PStr model)
  /\ is_Some (info !! "size") /\ is_Some (info !! "modified_at")
  /\ info !! "status" = None.
Proof.
  revert info. induction models as [|m rest IH]; intros info; simpl; [discriminate|].
  run_monad.
  destruct (py_get m "name" PNone) as [name|e] eqn:Hn; simpl; [|discriminate].
  destruct (is_str name model) eqn:Hname; [|apply IH].
  destruct (py_get m "size" PNone) as [size|]; simpl; [|discriminate].
  destruct (py_get m "modified_at" PNone) as [modified_at|]; simpl; [|discriminate].
  intros H. inversion H. subst info. clear H.
  destruct name as [| |x| |]; try discriminate. simpl in Hname.
  apply String.eqb_eq in Hname. subst x.
  split; [|split; [|split]].
  - apply lookup_insert_eq.
  - rewrite lookup_insert_ne, lookup_insert_eq by discriminate. eauto.
  - rewrite lookup_insert_ne, lookup_insert_ne, lookup_insert_eq by discriminate. eauto.
  - rewrite !lookup_insert_ne by discriminate. apply lookup_empty.
Qed.

(** X11 ([get_model_info]). The function never raises, and the name it
    reports is always the configured model: either the server lists that
    model, and the answer carries its size and date and no status, or the
    answer is the configured name with status unknown or error. *)
Theorem model_info_names_the_configured_model (tags : http_outcome) :
  let info := get_model_info model tags in
  info !! "name" = Some (PStr model)
  /\ ((is_Some (info !! "size") /\ is_Some (info !! "modified_at")
       /\ info !! "status" = None)
      \/ info = <["name" := PStr model]> (<["status" := PStr "unknown"]> ∅)
      \/ info = <["name" := PStr model]> (<["status" := PStr "error"]> ∅)).
Proof.
  cbv zeta. unfold get_model_info, Credibility.or_else.
  assert (Herr : forall st : string,
    (<["name" := PStr model]> (<["status" := PStr st]> (∅ : dict))) !! "name"
    = Some (PStr model)) by (intros; apply lookup_insert_eq).
  destruct tags as [c j|e]; [|split; [apply Herr | auto]].
  destruct (c =? 200); [|split; [apply Herr | auto]].
  run_monad.
  destruct j as [body|e]; simpl; [|split; [apply Herr | auto]].
  destruct (py_get body "models" (PList [])) as [models|e]; simpl;
    [|split; [apply Herr | auto]].
  destruct (py_iter models) as [items|e]; simpl; [|split; [apply Herr | auto]].
  destruct (find_model model items) as [[info|]|e] eqn:Hf; simpl;
    [|split; [apply Herr | auto]..].
  destruct (find_model_name _ _ Hf) as (Hname & Hrest). auto.
Qed.

End Requests.
End SummarizerMoreProofs.

(** ** The summarizer: what it leaves of the articles *)
Module SummarizerFieldsProofs.
Import Py Requests Summarizer SummarizerSamples SummarizerRules SummarizerProofs.

Section Fields.
Variable model : string.
Variable env : nat -> http_outcome.
Variable max_length : Z.

Lemma step_keeps_fields w article other key :
  key <> "summary" ->
  article_at (step model env max_length w article) other !! key
  = article_at w other !! key.
Proof.
  intros Hk. unfold article_at.
  destruct (summarize_article_spec model env max_length [] article w) as (_ & _ & Hh).
  rewrite Hh. destruct (decide (other = article)) as [->|Hne].
  - rewrite lookup_insert_eq. simpl. rewrite lookup_insert_ne by congruence. reflexivity.
  - rewrite lookup_insert_ne by congruence. reflexivity.
Qed.

Lemma run_keeps_fields articles : forall w other key,
  key <> "summary" ->
  article_at (run model env max_length articles w) other !! key
  = article_at w other !! key.
Proof.
  induction articles as [|a rest IH]; intros w other key Hk; [reflexivity|].
  simpl. rewrite IH by assumption. apply step_keeps_fields, Hk.
Qed.

(** The validation of the ingestor reads no field named summary. *)
Lemma validation_ignores_summary (d d' : dict) :
  (forall key, key <> "summary" -> d' !! key = d !! key) ->
  Ingest._validate_article d' = Ingest._validate_article d.
Proof.
  intros H. unfold Ingest._validate_article, Ingest.required_fields, existsb,
    Ingest.missing_or_empty, getitem.
  rewrite !H by discriminate. reflexivity.
Qed.

(** X30 ([summarize_articles], the other fields). Summarising a list of
    articles changes no field of any article object other than its
    summary, whether the article is in the list once, several times or
    not at all. So the ingestor's validation gives the same verdict on an
    article after the summaries as before. *)
Theorem summarize_articles_changes_only_the_summary (articles : list nat) (w : world)
    (article : nat) :
  let w' := snd (summarize_articles model env articles max_length w) in
  (forall key, key <> "summary" ->
     article_at w' article !! key = article_at w article !! key)
  /\ Ingest._validate_article (article_at w' article)
     = Ingest._validate_article (article_at w article).
Proof.
  cbv zeta. unfold summarize_articles. rewrite summarize_loop_spec. simpl snd.
  split.
  - intros key Hk. apply run_keeps_fields, Hk.
  - apply validation_ignores_summary. intros key Hk. apply run_keeps_fields, Hk.
Qed.

End Fields.
End SummarizerFieldsProofs.

(** ** The store: what ingestion and clearing leave on the disk *)
Module StoreMoreProofs.
Import Py Disk Ingest StoreSamples IngestRule IngestInfo StoreProofs.

Lemma validate_all_none articles :
  Forall (fun a => is_valid a = false) articles ->
  validate_all articles = Ret [] \/ exists e, validate_all articles = Raise e.
Proof.
  induction 1 as [|a rest Ha _ IH]; [left; reflexivity|].
  simpl. unfold is_valid in Ha. run_monad.
  destruct (_validate_article a) as [[]|e]; simpl; [discriminate| |eauto].
  destruct IH as [->|[e ->]]; simpl; eauto.
Qed.

Section Store.
Variable store_path : path.
Variable split_documents : document -> list document.

(** X12 ([ingest_documents]). When no article of the list passes the
    validation, whether because each is refused or because the validation
    raises, the call answers False and touches nothing: no store is loaded
    or created and nothing is written. *)
Theorem ingest_without_valid_article_changes_nothing (io : ingest_io)
    (articles : list dict) (s : ingestor) :
  Forall (fun a => is_valid a = false) articles ->
  ingest_documents store_path split_documents io articles s = (Ret false, s).
Proof.
  intros H. rewrite ingest_unfold. destruct articles as [|a rest]; [reflexivity|].
  destruct (validate_all_none _ H) as [->|[e ->]]; reflexivity.
Qed.

Lemma rmtree_keeps io s :
  let out := (if exists_ (disk s) store_path then rmtree io store_path else mret tt) s in
  match fst out with
  | Ret _ =>
      forall q, under store_path q = false -> disk (snd out) !! q = disk s !! q
  | Raise _ => True
  end.
Proof.
  assert (Hkeep : forall (d : fs) q, under store_path q = false ->
            remove_tree store_path d !! q = d !! q).
  { intros d q Hq. unfold remove_tree. destruct (d !! q) as [k|] eqn:E.
    - apply map_lookup_filter_Some. split; [exact E | exact Hq].
    - apply map_lookup_filter_None. left. exact E. }
  destruct (exists_ (disk s) store_path) eqn:E; simpl.
  - unfold rmtree, set_disk. run_monad.
    destruct (disk s !! store_path) as [[]|]; simpl; try exact I;
      (destruct (rmtree_error io) as [[e left_over]|]; simpl; [exact I | apply Hkeep]).
  - reflexivity.
Qed.

Lemma remove_keeps io p s :
  let out := remove_if_exists io p s in
  match fst out with
  | Ret _ => forall q, q <> p -> disk (snd out) !! q = disk s !! q
  | Raise _ => True
  end.
Proof.
  unfold remove_if_exists. run_monad.
  destruct (exists_ (disk s) p) eqn:E; simpl; [|reflexivity].
  unfold remove, set_disk, fail_if. run_monad.
  destruct (disk s !! p) as [[]|]; simpl; try exact I;
    (destruct (remove_error io p); simpl; [exact I|];
     intros q Hq; apply lookup_delete_ne; congruence).
Qed.

(** X13 ([clear_vector_store]). A clear that answers True removes nothing
    but the index directory, what lies below it, and the two metadata
    files: every other path of the disk is as before. The file of
    summaries that the ingestion writes is among what stays. *)
Theorem clear_keeps_other_paths (io : clear_io) (s : ingestor) :
  fst (clear_vector_store store_path io s) = Ret true ->
  forall q,
    under store_path q = false ->
    q <> metadata_path -> q <> langchain_metadata_path ->
    disk (snd (clear_vector_store store_path io s)) !! q = disk s !! q.
Proof.
  rewrite clear_unfold.
  pose proof (rmtree_keeps io s) as H1. cbn zeta in H1.
  destruct (if exists_ (disk s) store_path then _ else _) as [[[]|e] s1];
    simpl in H1 |- *; [|discriminate].
  pose proof (remove_keeps io metadata_path s1) as H2. cbn zeta in H2.
  destruct (remove_if_exists io metadata_path s1) as [[[]|e] s2];
    simpl in H2 |- *; [|discriminate].
  pose proof (remove_keeps io langchain_metadata_path s2) as H3. cbn zeta in H3.
  destruct (remove_if_exists io langchain_metadata_path s2) as [[[]|e] s3];
    simpl in H3 |- *; [|discriminate].
  intros _ q Hu Hm Hl. rewrite H3, H2, H1 by assumption. reflexivity.
Qed.

(** X14 ([get_store_info] after [clear_vector_store] and after
    [ingest_documents]). After a clear that answered True the store is
    reported as absent, and after an ingestion that answered True it is
    reported as present, with the number of documents of the index when
    the index can be loaded and with an unknown count otherwise. *)
Theorem store_info_follows_clear_and_ingest (load : pyres faiss) (s : ingestor) :
  (forall cio,
     fst (clear_vector_store store_path cio s) = Ret true ->
     get_store_info store_path load (snd (clear_vector_store store_path cio s)) = Absent)
  /\ (forall io articles,
     fst (ingest_documents store_path split_documents io articles s) = Ret true ->
     get_store_info store_path load
       (snd (ingest_documents store_path split_documents io articles s))
     = Present (match load with
                | Ret st => Some (Z.of_nat (List.length (docstore st)))
                | Raise _ => None
                end)).
Proof.
  split.
  - intros cio H. destruct (clear_success store_path cio s H) as (Hgone & _).
    unfold get_store_info. rewrite Hgone. reflexivity.
  - intros io articles H.
    destruct (ingest_success_commit store_path split_documents io articles s H)
      as (valid & docs & _ & Heq).
    rewrite Heq in H |- *.
    destruct (commit_success store_path split_documents io valid docs s H)
      as (st0 & st1 & _ & _ & _ & Hex & _).
    unfold get_store_info. rewrite Hex. destruct load; reflexivity.
Qed.

(** X15 ([ingest_documents] with [_save_ingestion_metadata]). When an
    ingestion answers True and no step of the writing of the two side
    files fails, the disk afterwards is the disk before plus the saved
    index, the metadata file and the summaries file: the articles that
    passed the validation always have the fields the two files list. *)
Theorem successful_ingest_writes_side_files (io : ingest_io) (articles : list dict)
    (s : ingestor) :
  metadata_open_error io = None ->
  metadata_dump_error io = None ->
  summaries_open_error io = None ->
  summaries_dump_error io = None ->
  fst (ingest_documents store_path split_documents io articles s) = Ret true ->
  disk (snd (ingest_documents store_path split_documents io articles s))
  = <[summaries_path := File]>
    (<[metadata_path := File]> (save_local store_path (disk s))).
Proof.
  intros Hmo Hmd Hso _ H.
  destruct (ingest_success_disk store_path split_documents io articles s H) as (_ & _ & Hall).
  apply Hall; assumption.
Qed.

End Store.

Lemma ingest_without_valid_article_changes_nothing_witness :
  ingest_documents default_store_path whole calm_ingest [no_url_article; short_article]
    (Ingestor None empty_disk)
  = (Ret false, Ingestor None empty_disk).
Proof.
  apply (ingest_without_valid_article_changes_nothing default_store_path whole).
  repeat constructor.
Defined.

Lemma clear_keeps_other_paths_witness :
  disk (snd (clear_vector_store default_store_path calm_clear (Ingestor None saved_disk)))
    !! summaries_path
  = Some File.
Proof.
  rewrite (clear_keeps_other_paths default_store_path calm_clear (Ingestor None saved_disk)).
  - vm_compute. reflexivity.
  - vm_compute. reflexivity.
  - vm_compute. reflexivity.
  - discriminate.
  - discriminate.
Defined.

Lemma store_info_follows_clear_and_ingest_witness :
  get_store_info default_store_path (Ret one_document)
    (snd (clear_vector_store default_store_path calm_clear (Ingestor None saved_disk)))
  = Absent
  /\ fst (ingest_documents default_store_path whole calm_ingest [complete_article]
            (Ingestor None saved_disk)) = Ret true
  /\ get_store_info default_store_path
       (Ret (default one_document
               (store (snd (ingest_documents default_store_path whole calm_ingest
                              [complete_article] (Ingestor None saved_disk))))))
       (snd (ingest_documents default_store_path whole calm_ingest [complete_article]
               (Ingestor None saved_disk)))
     = Present (Some 2).
Proof.
  assert (Hok : fst (ingest_documents default_store_path whole calm_ingest [complete_article]
                       (Ingestor None saved_disk)) = Ret true)
    by (vm_compute; reflexivity).
  destruct (store_info_follows_clear_and_ingest default_store_path whole
              (Ret one_document) (Ingestor None saved_disk)) as [H1 _].
  destruct (store_info_follows_clear_and_ingest default_store_path whole
              (Ret (default one_document
                      (store (snd (ingest_documents default_store_path whole calm_ingest
                                     [complete_article] (Ingestor None saved_disk))))))
              (Ingestor None saved_disk)) as [_ H2].
  split; [apply H1; vm_compute; reflexivity|].
  split; [exact Hok|].
  rewrite (H2 calm_ingest [complete_article] Hok). vm_compute. reflexivity.
Defined.

Lemma successful_ingest_writes_side_files_witness :
  fst (ingest_documents default_store_path whole calm_ingest [complete_article]
         (Ingestor None index_only_disk)) = Ret true
  /\ disk (snd (ingest_documents default_store_path whole calm_ingest [complete_article]
                  (Ingestor None index_only_disk))) !! metadata_path
     = Some File
  /\ disk (snd (ingest_documents default_store_path whole calm_ingest [complete_article]
                  (Ingestor None index_only_disk))) !! summaries_path
     = Some File.
Proof.
  assert (Hok : fst (ingest_documents default_store_path whole calm_ingest [complete_article]
                       (Ingestor None index_only_disk)) = Ret true)
    by (vm_compute; reflexivity).
  split; [exact Hok|].
  rewrite (successful_ingest_writes_side_files default_store_path whole calm_ingest
             [complete_article] (Ingestor None index_only_disk)
             eq_refl eq_refl eq_refl eq_refl Hok).
  split; [|apply lookup_insert_eq].
  rewrite lookup_insert_ne by discriminate. apply lookup_insert_eq.
Defined.

End StoreMoreProofs.

(** ** The query engine: reloading, and what its reports mean *)
Module QueryMoreProofs.
Import Py Disk Ingest Query StoreSamples QuerySamples QueryInfo QueryRuns.

Section Engine.
Variable store_path : path.

(** [_load_vector_store] never raises, and what it leaves. *)
Lemma load_cases (io : load_io) (d : fs) (e : engine) :
  let out := _load_vector_store store_path io d e in
  fst out = Ret tt
  /\ llm (snd out) = llm e
  /\ ((Query.store (snd out) = Query.store e /\ qa_chain (snd out) = qa_chain e)
      \/ (exists st, Query.store (snd out) = Some st /\ qa_chain (snd out) = qa_chain e)
      \/ (exists st, Query.store (snd out) = Some st
                     /\ qa_chain (snd out) = Some (Chain st 3))).
Proof.
  cbv zeta. unfold _load_vector_store, write_log, fail_if. run_monad.
  destruct (negb (exists_ d store_path)); simpl; [auto|].
  destruct (load_local_result io) as [st|x]; simpl; [|auto].
  destruct (chain_error io); simpl; eauto 10.
Qed.

(** X16 ([reload_vector_store]). The call answers True whatever happens:
    the failures of the load are caught one level below. When the index
    exists but cannot be read, the answer is still True, the engine keeps
    the store and the chain it had, and the failure only shows in the
    log. *)
Theorem reload_always_answers_true (io : load_io) (d : fs) (e : engine) :
  let out := reload_vector_store store_path io d e in
  fst out = Ret true
  /\ (forall x, exists_ d store_path = true -> load_local_result io = Raise x ->
      Query.store (snd out) = Query.store e
      /\ qa_chain (snd out) = qa_chain e
      /\ log (snd out)
         = (log e ++ [(Error, ("Failed to load vector store: " ++ exn_str x)%string)])%list).
Proof.
  cbv zeta. unfold reload_vector_store, _load_vector_store, write_log, fail_if. run_monad.
  destruct (exists_ d store_path) eqn:E; simpl.
  - destruct (load_local_result io) as [st|x]; simpl.
    + destruct (chain_error io); simpl; (split; [reflexivity|]); intros; discriminate.
    + split; [reflexivity|]. intros x' _ H. inversion H. subst x'. auto.
  - split; [reflexivity|]. intros; discriminate.
Qed.

Lemma initialize_cases (ollama_ok : bool) (io : load_io) (d : fs) (e : engine) :
  let e' := snd (_initialize store_path ollama_ok io d e) in
  (Query.store e' = Query.store e /\ qa_chain e' = qa_chain e)
  \/ (exists st, Query.store e' = Some st /\ qa_chain e' = qa_chain e)
  \/ (exists st, Query.store e' = Some st /\ qa_chain e' = Some (Chain st 3)).
Proof.
  cbv zeta. unfold _initialize. run_monad.
  destruct ollama_ok; simpl; [|auto].
  match goal with |- context [_load_vector_store store_path io d ?e0] =>
    destruct (load_cases io d e0) as (Hr & _ & H);
    destruct (_load_vector_store store_path io d e0) as [[[]|x] e1] end;
    simpl in *; try discriminate; exact H.
Qed.

Lemma reload_cases (io : load_io) (d : fs) (e : engine) :
  let e' := snd (reload_vector_store store_path io d e) in
  (Query.store e' = Query.store e /\ qa_chain e' = qa_chain e)
  \/ (exists st, Query.store e' = Some st /\ qa_chain e' = qa_chain e)
  \/ (exists st, Query.store e' = Some st /\ qa_chain e' = Some (Chain st 3)).
Proof.
  cbv zeta. unfold reload_vector_store. run_monad.
  destruct (load_cases io d e) as (Hr & _ & H).
  destruct (_load_vector_store store_path io d e) as [[[]|x] e1];
    simpl in *; try discriminate; exact H.
Qed.

Lemma query_keeps (invoke : string -> pyres qa_output) (question : string) (e : engine) :
  Query.store (snd (query invoke question e)) = Query.store e
  /\ qa_chain (snd (query invoke question e)) = qa_chain e.
Proof.
  unfold query, write_log. run_monad.
  destruct (qa_chain e) eqn:E; simpl; [|auto].
  destruct (invoke question); simpl; auto.
Qed.

Lemma run_ops_snoc ops o e :
  run_ops store_path (ops ++ [o]) e = run_op store_path (run_ops store_path ops e) o.
Proof. unfold run_ops. rewrite fold_left_app. reflexivity. Qed.

(** X17 ([RAGQueryEngine], over any history). Whatever sequence of
    initialisations, reloads and queries a new engine goes through,
    whenever it holds a retrieval chain it also holds a store: an engine
    that can answer a query is always reported as loaded by
    [get_knowledge_base_info]. *)
Theorem answering_engine_is_reported_loaded (ops : list op) :
  let e := run_ops store_path ops new_engine in
  qa_chain e = None \/ exists n m, get_knowledge_base_info e = Loaded n m.
Proof.
  cbv zeta.
  assert (H : qa_chain (run_ops store_path ops new_engine) = None
              \/ exists st, Query.store (run_ops store_path ops new_engine) = Some st).
  { induction ops as [|o ops IH] using rev_ind; [left; reflexivity|].
    rewrite run_ops_snoc. set (e := run_ops store_path ops new_engine) in *.
    destruct o as [ok io d|io d|invoke question]; simpl.
    - destruct (initialize_cases ok io d e) as [[Hs Hc]|[(st & Hs & Hc)|(st & Hs & Hc)]];
        cbv zeta in *; rewrite ?Hs, ?Hc; eauto.
    - destruct (reload_cases io d e) as [[Hs Hc]|[(st & Hs & Hc)|(st & Hs & Hc)]];
        cbv zeta in *; rewrite ?Hs, ?Hc; eauto.
    - destruct (query_keeps invoke question e) as [Hs Hc]. rewrite Hs, Hc. exact IH. }
  destruct H as [H|[st H]]; [left; exact H|]. right.
  unfold get_knowledge_base_info. rewrite H. eauto.
Qed.

End Engine.

Lemma content_preview_length doc : len (content_preview doc) <= 203.
Proof.
  unfold content_preview, len.
  destruct (Z.of_nat (String.length (page_content doc)) >? 200) eqn:E.
  - rewrite TextProofs.length_append, TextProofs.length_take. change (String.length "...") with 3%nat.
    pose proof (Nat.le_min_l 200 (String.length (page_content doc))). lia.
  - rewrite Z.gtb_ltb in E. apply Z.ltb_ge in E. lia.
Qed.

(** X18 ([query], the sources of an answer). An answer lists one source
    for each document the chain retrieved, in the same order, and the
    preview of each source has at most 203 characters: it is the whole
    content when that has at most 200 characters, and its first 200
    followed by three dots otherwise. *)
Theorem query_sources_are_previews (invoke : string -> pyres qa_output)
    (question : string) (e : engine) (answer : pyval) (sources : list dict) :
  fst (query invoke question e) = Ret (Answer answer sources) ->
  exists result,
    invoke question = Ret result
    /\ answer = default (PStr "No answer generated") (out_result result)
    /\ Forall2 (fun (doc : document) (source : dict) =>
                  exists preview,
                    source !! "content_preview" = Some (PStr preview)
                    /\ len preview <= 203
                    /\ preview = (if len (page_content doc) <=? 200
                                  then page_content doc
                                  else take 200 (page_content doc) ++ "..."))
         (default [] (out_source_documents result)) sources.
Proof.
  unfold query, write_log. run_monad.
  destruct (qa_chain e); simpl; [|discriminate].
  destruct (invoke question) as [result|x]; simpl; [|discriminate].
  intros H. inversion H. subst. clear H.
  exists result. split; [reflexivity|]. split; [reflexivity|].
  induction (default [] (out_source_documents result)) as [|doc docs IH]; simpl;
    constructor; [|exact IH].
  exists (content_preview doc). split; [|split].
  - unfold format_source. do 4 (rewrite lookup_insert_ne by discriminate).
    apply lookup_insert_eq.
  - apply content_preview_length.
  - unfold content_preview. rewrite Z.gtb_ltb.
    destruct (len (page_content doc) <=? 200) eqn:E1;
      destruct (200 <? len (page_content doc)) eqn:E2; try reflexivity.
    + apply Z.leb_le in E1. apply Z.ltb_lt in E2. lia.
    + apply Z.leb_gt in E1. apply Z.ltb_ge in E2. lia.
Qed.

Lemma reload_always_answers_true_witness :
  fst (reload_vector_store default_store_path load_fails saved_disk loaded_engine) = Ret true
  /\ Query.store (snd (reload_vector_store default_store_path load_fails saved_disk
                         loaded_engine))
     = Some one_document.
Proof.
  destruct (reload_always_answers_true default_store_path load_fails saved_disk loaded_engine)
    as [H1 H2].
  split; [exact H1|].
  destruct (H2 (Exn LibraryError "could not open index.faiss")) as (Hs & _).
  - vm_compute. reflexivity.
  - reflexivity.
  - rewrite Hs. reflexivity.
Defined.

Lemma query_sources_are_previews_witness :
  exists result,
    answering "What happened to rates?" = Ret result
    /\ List.length (default [] (out_source_documents result)) = 1%nat.
Proof.
  destruct (query_sources_are_previews answering "What happened to rates?" loaded_engine
              (PStr "Rates are unchanged.")
              (List.map format_source (docstore one_document)))
    as (result & Hr & _ & _).
  - vm_compute. reflexivity.
  - exists result. split; [exact Hr|]. inversion Hr. reflexivity.
Defined.

End QueryMoreProofs.

(** ** The credibility table: counts, isolation, persistence *)
Module CredibilityMoreProofs.
Import Py Credibility CredibilityRuns CredibilityReports CredibilityRules CredibilityProofs.

Lemma articles_in_snoc calls c :
  articles_in (calls ++ [c])
  = articles_in calls + Z.of_nat (List.length (call_articles c)).
Proof.
  unfold articles_in. induction calls as [|c0 calls IH]; simpl; [lia|].
  simpl in IH. rewrite IH. lia.
Qed.

(** X19 ([_update_source_history], the article count). The history of a
    source is cut to its last ten entries, but its article count is not:
    after any sequence of updates it is the count the source had before
    plus the number of articles of every update of that source, however
    many there were. *)
Theorem article_count_counts_every_article (s0 : scorer) (calls : list call)
    (source : string) :
  Forall (fun c => measurable (call_articles c)) (calls_for source calls) ->
  articles_seen (run_calls calls s0) source
  = articles_seen s0 source + articles_in (calls_for source calls).
Proof.
  induction calls as [|c calls IH] using rev_ind; intros Hm.
  - simpl. unfold articles_in. simpl. lia.
  - rewrite run_calls_snoc, calls_for_snoc in *.
    destruct (String.eqb (call_source c) source) eqn:E.
    + apply String.eqb_eq in E. apply Forall_app in Hm as [Hm Hc].
      inversion Hc as [|? ? Hc' _]. subst.
      rewrite articles_in_snoc, Z.add_assoc, <- (IH Hm).
      unfold articles_seen at 1. rewrite (step_same _ _ Hc'). simpl.
      unfold articles_seen.
      destruct (record_of (run_calls calls s0) (call_source c)); simpl; lia.
    + apply String.eqb_neq in E. rewrite app_nil_r in *.
      unfold articles_seen at 1. rewrite (step_other _ _ _ E). apply IH, Hm.
Qed.

Lemma article_count_counts_every_article_witness :
  articles_seen (run_calls twelve_updates fresh_scorer) "bbc" = 12.
Proof.
  rewrite (article_count_counts_every_article fresh_scorer twelve_updates "bbc").
  - reflexivity.
  - repeat constructor; eexists; reflexivity.
Defined.

(** X20 ([_update_source_history], isolation of the sources). The record
    of a source after any sequence of updates is the record it would have
    if only the updates of that source had been made: updates of other
    sources never touch it, whether they succeed or fail. *)
Theorem source_record_depends_on_own_calls (s0 : scorer) (calls : list call)
    (source : string) :
  record_of (run_calls calls s0) source
  = record_of (run_calls (calls_for source calls) s0) source.
Proof.
  induction calls as [|c calls IH] using rev_ind; [reflexivity|].
  rewrite calls_for_snoc, run_calls_snoc.
  destruct (String.eqb (call_source c) source) eqn:E.
  - apply String.eqb_eq in E. subst source.
    rewrite run_calls_snoc, !step_own, IH. reflexivity.
  - apply String.eqb_neq in E. rewrite app_nil_r, (step_other _ _ _ E). exact IH.
Qed.

(** The file after an update. It is untouched when the length of the
    articles cannot be measured or the directory or the file cannot be
    opened; [open] empties it, so that a failure of [json.dump] leaves it
    cut short; otherwise it holds the table. *)
Lemma update_file io source sc articles s :
  let s' := snd (_update_source_history io source sc articles s) in
  data_file s'
  = match average_length articles with
    | Raise _ => data_file s
    | Ret _ =>
        match makedirs_error io, open_error io, dump_error io with
        | None, None, None => Some (Dumped (data s'))
        | None, None, Some _ => Some Truncated
        | _, _, _ => data_file s
        end
    end.
Proof.
  cbv zeta. unfold _update_source_history, read_record, write_record. run_monad.
  unfold set_data, ensure_record, ensure_sources, _save_credibility_data, fail_if.
  run_monad.
  destruct s as [[[m|] lu] f]; simpl.
  - destruct (m !! source) as [r|] eqn:Hr; simpl.
    + destruct (average_length articles); simpl; [|reflexivity].
      rewrite Hr. simpl.
      destruct (makedirs_error io); simpl; [reflexivity|].
      destruct (open_error io); simpl; [reflexivity|].
      destruct (dump_error io); reflexivity.
    + destruct (average_length articles); simpl; [|reflexivity].
      rewrite lookup_insert_eq. simpl.
      destruct (makedirs_error io); simpl; [reflexivity|].
      destruct (open_error io); simpl; [reflexivity|].
      destruct (dump_error io); reflexivity.
  - rewrite lookup_empty. simpl.
    destruct (average_length articles); simpl; [|reflexivity].
    rewrite lookup_insert_eq. simpl.
    destruct (makedirs_error io); simpl; [reflexivity|].
    destruct (open_error io); simpl; [reflexivity|].
    destruct (dump_error io); reflexivity.
Qed.

(** X21 ([score_source_credibility] on an article without a measurable
    content, such as a JSON null). The call still returns a report, with
    the neutral 0.5 as performance and as consistency, but the update of
    the history is abandoned: no entry is added for the source and the
    data file is not written. *)
Theorem unmeasurable_articles_are_scored_but_not_recorded (io : update_io)
    (source : string) (articles : list dict) (a : dict) (s : scorer) :
  In a articles ->
  raises (py_len (get a "content" (PStr ""))) ->
  let out := score_source_credibility io source articles s in
  (exists r, fst out = Ret (Report r)
             /\ recent_performance r = 0.5%float
             /\ consistency_score r = 0.5%float
             /\ overall_credibility r
                = _calculate_overall_credibility (_get_base_reputation_score source)
                    0.5%float 0.5%float)
  /\ hist (snd out) source = hist s source
  /\ data_file (snd out) = data_file s.
Proof.
  intros Hin Hlen. cbv zeta.
  destruct (average_raises _ _ Hin Hlen) as [e He].
  split; [|split].
  - unfold score_source_credibility. run_monad.
    rewrite (performance_default source articles a Hin Hlen),
      (consistency_default source articles a Hin Hlen).
    match goal with |- context [_update_source_history io source ?sc articles s] =>
      pose proof (update_returns io source sc articles s) as H;
      destruct (_update_source_history io source sc articles s) as [[[]|] ?] end;
      simpl in *; try discriminate.
    eexists. split; [reflexivity|]. simpl. auto.
  - rewrite scoring_state. unfold hist at 1, record_of, get_source_credibility_history.
    rewrite update_sources. simpl. rewrite He. rewrite lookup_insert_eq.
    apply hist_default.
  - rewrite scoring_state.
    pose proof (update_file io source (score source articles) articles s) as H.
    cbv zeta in H. rewrite H, He. reflexivity.
Qed.

Lemma unmeasurable_articles_are_scored_but_not_recorded_witness :
  hist (snd (score_source_credibility (quiet_io "t") "bbc" [null_content] fresh_scorer)) "bbc"
  = []
  /\ data_file (snd (score_source_credibility (quiet_io "t") "bbc" [null_content]
                       fresh_scorer))
     = None.
Proof.
  destruct (unmeasurable_articles_are_scored_but_not_recorded (quiet_io "t") "bbc"
              [null_content] null_content fresh_scorer) as (_ & H1 & H2).
  - left. reflexivity.
  - eexists. reflexivity.
  - split; [rewrite H1 | rewrite H2]; reflexivity.
Defined.

(** X22 ([_save_credibility_data] and [_load_credibility_data]). Let
    [json.load] read back what [json.dump] wrote completely and raise on a
    file that was cut short. After an update with measurable articles and
    no file-system failure, the data file holds the table the scorer has
    in memory, and a scorer created afterwards starts from it. When the
    directory cannot be created or the file cannot be opened, the file
    keeps its previous content: the update exists in memory only. When the
    file was opened and [json.dump] fails, the file is left cut short: the
    previous content is lost as well, and a scorer created afterwards
    starts from an empty table. *)
Theorem saved_table_is_what_a_new_scorer_loads
    (json_load : file_content -> pyres credibility_data) (io : update_io)
    (source : string) (articles : list dict) (s : scorer) (now : string) :
  measurable articles ->
  (forall d, json_load (Dumped d) = Ret d) ->
  raises (json_load Truncated) ->
  let s' := snd (score_source_credibility io source articles s) in
  (makedirs_error io = None -> open_error io = None -> dump_error io = None ->
   data_file s' = Some (Dumped (data s'))
   /\ data (new_scorer json_load now (data_file s')) = data s')
  /\ (makedirs_error io <> None \/ open_error io <> None -> data_file s' = data_file s)
  /\ (makedirs_error io = None -> open_error io = None -> dump_error io <> None ->
      data_file s' = Some Truncated
      /\ data (new_scorer json_load now (data_file s'))
         = CredibilityData (Some ∅) (Some now)).
Proof.
  intros Hm Hback [x Hcut]. cbv zeta. rewrite scoring_state.
  pose proof (update_file io source (score source articles) articles s) as H.
  cbv zeta in H. destruct (measurable_average _ Hm) as [avg Havg]. rewrite Havg in H.
  split; [|split].
  - intros H1 H2 H3. rewrite H1, H2, H3 in H. rewrite H.
    split; [reflexivity|].
    unfold new_scorer, _load_credibility_data. simpl. rewrite Hback. reflexivity.
  - intros [H1|H1]; rewrite H.
    + destruct (makedirs_error io); [reflexivity | contradiction].
    + destruct (makedirs_error io); [reflexivity|].
      destruct (open_error io); [reflexivity | contradiction].
  - intros H1 H2 H3. rewrite H1, H2 in H.
    destruct (dump_error io); [|contradiction]. rewrite H.
    split; [reflexivity|].
    unfold new_scorer, _load_credibility_data. simpl. rewrite Hcut. reflexivity.
Qed.

Lemma saved_table_is_what_a_new_scorer_loads_witness :
  data_file (snd (score_source_credibility (read_only_io "t") "bbc" [BiasSamples.plain]
                    fresh_scorer))
  = None
  /\ data_file (snd (score_source_credibility (disk_full_io "t") "bbc" [BiasSamples.plain]
                       fresh_scorer))
     = Some Truncated
  /\ data (new_scorer reads_back "later"
             (data_file (snd (score_source_credibility (disk_full_io "t") "bbc"
                                [BiasSamples.plain] fresh_scorer))))
     = CredibilityData (Some ∅) (Some "later").
Proof.
  assert (Hm : measurable [BiasSamples.plain]) by (repeat constructor; eexists; reflexivity).
  assert (Hback : forall d, reads_back (Dumped d) = Ret d) by reflexivity.
  assert (Hcut : raises (reads_back Truncated)) by (eexists; reflexivity).
  destruct (saved_table_is_what_a_new_scorer_loads reads_back (read_only_io "t") "bbc"
              [BiasSamples.plain] fresh_scorer "later" Hm Hback Hcut) as (_ & Hkept & _).
  destruct (saved_table_is_what_a_new_scorer_loads reads_back (disk_full_io "t") "bbc"
              [BiasSamples.plain] fresh_scorer "later" Hm Hback Hcut) as (_ & _ & Hlost).
  split; [rewrite Hkept; [reflexivity | left; discriminate]|].
  destruct Hlost as [H1 H2]; [reflexivity | reflexivity | discriminate |].
  split; [exact H1 | exact H2].
Defined.

Lemma count_level_total d r : total (count_level d r) = total d + 1.
Proof.
  unfold count_level, total.
  destruct (String.eqb _ "Very High"); simpl; [lia|].
  destruct (String.eqb _ "High"); simpl; [lia|].
  destruct (String.eqb _ "Medium"); simpl; [lia|].
  destruct (String.eqb _ "Low"); simpl; lia.
Qed.

Lemma fold_count_level l : forall d,
  total (fold_left count_level l d) = total d + Z.of_nat (List.length l).
Proof.
  induction l as [|r l IH]; intros d; simpl fold_left; [simpl; lia|].
  rewrite IH, count_level_total. simpl List.length. lia.
Qed.

(** X23 ([_calculate_credibility_distribution]). The five counts of the
    distribution add up to the number of sources of the table: every
    source is counted in exactly one level, whatever its average. *)
Theorem distribution_counts_every_source (sources : gmap string source_record) :
  total (_calculate_credibility_distribution sources) = Z.of_nat (size sources).
Proof.
  unfold _calculate_credibility_distribution.
  rewrite fold_count_level, length_map, length_map_to_list. reflexivity.
Qed.

End CredibilityMoreProofs.

(** ** The comparator: claims, focus areas and narrative angle *)
Module ComparatorProofs.
Import Py Comparator TextRules ComparatorRules TextProofs.

Lemma split_on_not_empty sep s : split_on sep s <> [].
Proof.
  induction s as [|c s IH]; simpl; [discriminate|].
  destruct (Ascii.eqb c sep); [discriminate|]. destruct (split_on sep s); discriminate.
Qed.

Lemma split_on_pieces s :
  Forall (fun piece => all_chars not_dot piece = true) (split_on "." s).
Proof.
  induction s as [|c s IH]; simpl; [repeat constructor|].
  destruct (Ascii.eqb c ".") eqn:E; [constructor; [reflexivity | exact IH]|].
  destruct (split_on "." s) as [|piece pieces]; [repeat constructor; simpl|].
  - unfold not_dot. rewrite E. reflexivity.
  - inversion IH; subst. constructor; [|assumption]. simpl. unfold not_dot at 1.
    rewrite E. simpl. assumption.
Qed.

Lemma all_chars_take p n s : all_chars p s = true -> all_chars p (take n s) = true.
Proof.
  revert s. induction n as [|n IH]; intros [|c s]; simpl; try reflexivity.
  intros H. apply andb_true_iff in H as [H1 H2]. rewrite H1. simpl. apply IH, H2.
Qed.

(** What a sentence contributes to the claims. *)
Lemma claim_of_shape sentence claim :
  all_chars not_dot sentence = true ->
  claim_of sentence = Some claim ->
  20 < len claim <= 103
  /\ ((len claim <= 100 /\ all_chars not_dot claim = true)
      \/ exists head, claim = head ++ "..." /\ len head = 100
                      /\ all_chars not_dot head = true).
Proof.
  intros Hd. unfold claim_of. cbv zeta.
  destruct (len (strip sentence) >? 20) eqn:E20; cbn [andb]; [|discriminate].
  destruct (existsb _ claim_words); [|discriminate].
  rewrite Z.gtb_ltb in E20. apply Z.ltb_lt in E20.
  pose proof (all_chars_strip _ _ Hd) as Hs.
  remember (take 100 (strip sentence)) as head eqn:Hhead.
  assert (Hinj : forall a b : string, Some a = Some b -> a = b)
    by (intros a b Hab; injection Hab; auto).
  destruct (len (strip sentence) >? 100) eqn:E100; intros H;
    apply Hinj in H; subst claim.
  - rewrite Z.gtb_ltb in E100. apply Z.ltb_lt in E100.
    assert (Hlen : len head = 100).
    { subst head. unfold len in *. rewrite length_take. lia. }
    split.
    + unfold len in *. rewrite length_append.
      change (String.length "...") with 3%nat. lia.
    + right. exists head.
      split; [reflexivity|]. split; [exact Hlen|]. subst head. apply all_chars_take, Hs.
  - rewrite Z.gtb_ltb in E100. apply Z.ltb_ge in E100. split; [lia|]. left. auto.
Qed.

Lemma article_claims_shape article claims :
  article_claims article = Ret claims ->
  Forall (fun claim =>
            20 < len claim <= 103
            /\ ((len claim <= 100 /\ all_chars not_dot claim = true)
                \/ exists head, claim = head ++ "..." /\ len head = 100
                                /\ all_chars not_dot head = true)) claims.
Proof.
  unfold article_claims, py_split_dot.
  destruct (get article "content" (PStr "")) as [| |s| |]; simpl; try discriminate.
  intros H. inversion H. subst claims. clear H.
  pose proof (split_on_pieces s) as Hp.
  induction Hp as [|piece pieces Hpiece _ IH]; simpl; [constructor|].
  unfold omap in *. simpl.
  destruct (claim_of piece) as [claim|] eqn:E; [|exact IH].
  constructor; [eapply claim_of_shape; eassumption | exact IH].
Qed.

Lemma mapM_Forall {A B} (f : A -> pyres B) (P : B -> Prop) (l : list A) : forall bs,
  (forall a b, f a = Ret b -> P b) ->
  mapM f l = Ret bs -> Forall P bs.
Proof.
  induction l as [|a l IH]; intros bs Hf; simpl.
  - intros H. inversion H. constructor.
  - destruct (f a) as [b|e] eqn:Ha; simpl; [|discriminate].
    destruct (mapM f l) as [bs'|e] eqn:Hl; simpl; [|discriminate].
    intros H. inversion H. subst bs. constructor; [eapply Hf, Ha | apply IH; auto].
Qed.

Lemma Forall_firstn {A} (P : A -> Prop) n (l : list A) : Forall P l -> Forall P (firstn n l).
Proof.
  intros H. revert n. induction H as [|x l Hx _ IH]; intros [|n]; simpl; constructor; auto.
Qed.

(** X26 ([_extract_key_claims]). The function never raises and returns
    at most five claims. Each claim has more than 20 and at most 103
    characters: it is either a sentence of at most 100 characters without
    a full stop, or the first 100 characters of a longer sentence followed
    by three dots. If the content of any article is not a text, the result
    is empty, whatever the other articles say. *)
Theorem key_claims_are_few_and_short (articles : list dict) :
  (List.length (_extract_key_claims articles) <= 5)%nat
  /\ Forall (fun claim =>
               20 < len claim <= 103
               /\ ((len claim <= 100 /\ all_chars not_dot claim = true)
                   \/ exists head, claim = head ++ "..." /\ len head = 100
                                   /\ all_chars not_dot head = true))
       (_extract_key_claims articles)
  /\ (forall a, In a articles ->
        (forall s, get a "content" (PStr "") <> PStr s) ->
        _extract_key_claims articles = []).
Proof.
  unfold _extract_key_claims, Credibility.or_else.
  split; [|split].
  - destruct (mapM article_claims articles) as [claims|e]; simpl; [|lia].
    rewrite length_firstn. lia.
  - destruct (mapM article_claims articles) as [claims|e] eqn:E; simpl; [|constructor].
    apply Forall_firstn, Forall_concat.
    eapply (mapM_Forall article_claims); [|exact E].
    intros a b. apply article_claims_shape.
  - intros a Hin Hnot.
    destruct (CredibilityProofs.mapM_raises article_claims articles a Hin) as [e He].
    + unfold article_claims, py_split_dot.
      destruct (get a "content" (PStr "")) as [| |s| |]; simpl;
        try (eexists; reflexivity).
      exfalso. apply (Hnot s). reflexivity.
    + rewrite He. reflexivity.
Qed.

Lemma mention_count_snoc keywords texts text :
  mention_count keywords (texts ++ [text])
  = mention_count keywords texts + (if mentions keywords text then 1 else 0).
Proof.
  unfold mention_count. rewrite List.filter_app, length_app. simpl.
  destruct (mentions keywords text); simpl; lia.
Qed.

Lemma count_text_focus texts text :
  count_text focus_keywords (tally focus_keywords texts) text
  = tally focus_keywords (texts ++ [text]).
Proof.
  unfold focus_keywords.
  unfold tally, count_text; cbn [List.map fold_left fst snd].
  rewrite !mention_count_snoc.
  repeat match goal with
         | |- context [mention_count ?k ?t] => generalize (mention_count k t); intro
         end.
  repeat match goal with
         | |- context [mentions ?k ?t] => generalize (mentions k t); intros []
         end;
    simpl; rewrite ?Z.add_0_r; reflexivity.
Qed.

Lemma count_text_angle texts text :
  count_text angle_keywords (tally angle_keywords texts) text
  = tally angle_keywords (texts ++ [text]).
Proof.
  unfold angle_keywords.
  unfold tally, count_text; cbn [List.map fold_left fst snd].
  rewrite !mention_count_snoc.
  repeat match goal with
         | |- context [mention_count ?k ?t] => generalize (mention_count k t); intro
         end.
  repeat match goal with
         | |- context [mentions ?k ?t] => generalize (mentions k t); intros []
         end;
    simpl; rewrite ?Z.add_0_r; reflexivity.
Qed.

(** The loop computes the tally of the texts of the articles. *)
Lemma count_loop_tally table :
  (forall texts text, count_text table (tally table texts) text
                      = tally table (texts ++ [text])) ->
  forall articles texts0,
  count_loop table articles (tally table texts0)
  = (texts ← mapM full_text articles; Ret (tally table (texts0 ++ texts))).
Proof.
  intros Hstep. induction articles as [|a rest IH]; intros texts0; simpl.
  - rewrite app_nil_r. reflexivity.
  - destruct (full_text a) as [text|e]; simpl; [|reflexivity].
    rewrite Hstep, IH. destruct (mapM full_text rest) as [texts|e]; simpl; [|reflexivity].
    rewrite <- app_assoc. reflexivity.
Qed.

Lemma mention_count_positive keywords texts :
  (mention_count keywords texts >? 0) = existsb (mentions keywords) texts.
Proof.
  unfold mention_count. induction texts as [|t texts IH]; [reflexivity|].
  simpl. destruct (mentions keywords t); simpl; [|exact IH].
  rewrite Z.gtb_ltb. apply Z.ltb_lt. lia.
Qed.

(** X27 ([_identify_focus_areas]). When the title and the content of
    every article are texts (or missing), the result is the list of the
    areas, in the order politics, economy, technology, social,
    international, of which some article mentions a keyword in its lowered
    title or content. Otherwise the result is empty. *)
Theorem focus_areas_are_the_mentioned_areas (articles : list dict) :
  _identify_focus_areas articles
  = match mapM full_text articles with
    | Ret texts =>
        List.map fst
          (List.filter (fun entry : string * list string =>
                          existsb (mentions (snd entry)) texts) focus_keywords)
    | Raise _ => []
    end.
Proof.
  unfold _identify_focus_areas, Credibility.or_else.
  change (zero_counts focus_keywords) with (tally focus_keywords []).
  rewrite (count_loop_tally focus_keywords count_text_focus). simpl app.
  destruct (mapM full_text articles) as [texts|e]; simpl; [|reflexivity].
  unfold tally, focus_keywords. cbn [List.map List.filter fst snd].
  rewrite !mention_count_positive.
  repeat match goal with
         | |- context [existsb (mentions ?k) texts] =>
             generalize (existsb (mentions k) texts); intros []
         end; reflexivity.
Qed.

Lemma first_max_ge items : forall best, snd best <= snd (first_max best items).
Proof.
  induction items as [|item rest IH]; intros best; simpl; [lia|].
  destruct (snd item >? snd best) eqn:E; rewrite Z.gtb_ltb in E.
  - apply Z.ltb_lt in E. specialize (IH item). lia.
  - apply IH.
Qed.

(** [first_max] returns an item of the list whose count is the largest,
    and the earliest such item. *)
Lemma first_max_spec items : forall best,
  exists before after,
    (best :: items = before ++ first_max best items :: after)%list
    /\ Forall (fun item => snd item < snd (first_max best items)) before
    /\ Forall (fun item => snd item <= snd (first_max best items)) after.
Proof.
  induction items as [|item rest IH]; intros best; simpl.
  - exists [], []. repeat split; constructor.
  - destruct (snd item >? snd best) eqn:E; rewrite Z.gtb_ltb in E.
    + apply Z.ltb_lt in E.
      destruct (IH item) as (before & after & Heq & Hb & Ha).
      exists (best :: before), after. split; [|split; [|exact Ha]].
      * simpl. rewrite <- Heq. reflexivity.
      * constructor; [|exact Hb]. pose proof (first_max_ge rest item). lia.
    + apply Z.ltb_ge in E.
      destruct (IH best) as (before & after & Heq & Hb & Ha).
      destruct before as [|b0 before'].
      * simpl in Heq. injection Heq as H1 H2.
        exists [], (item :: after). split; [|split; [constructor|]].
        -- simpl. rewrite <- H1, <- H2. reflexivity.
        -- constructor; [|exact Ha]. rewrite <- H1. exact E.
      * simpl in Heq. injection Heq as H1 H2. subst b0.
        exists (best :: item :: before'), after. split; [|split; [|exact Ha]].
        -- simpl. do 2 f_equal. exact H2.
        -- inversion Hb as [|? ? Hb0 Hb']. subst.
           constructor; [exact Hb0|]. constructor; [lia | exact Hb'].
Qed.

(** X28 ([_identify_narrative_angle]). When the title and the content of
    every article are texts (or missing), the angle returned is one of the
    five of the table, never neutral: no other angle is mentioned by more
    articles, and the angles that come before it in the order conflict,
    cooperation, progress, crisis, opportunity are mentioned by fewer. In
    particular coverage that mentions no keyword at all, or no article, is
    reported as conflict. Otherwise the result is neutral. *)
Theorem narrative_angle_is_the_first_most_mentioned (articles : list dict) :
  match mapM full_text articles with
  | Ret texts =>
      exists before keywords after,
        angle_keywords
        = (before ++ (_identify_narrative_angle articles, keywords) :: after)%list
        /\ Forall (fun entry => mention_count (snd entry) texts
                                < mention_count keywords texts) before
        /\ Forall (fun entry => mention_count (snd entry) texts
                                <= mention_count keywords texts) after
        /\ (Forall (fun entry => existsb (mentions (snd entry)) texts = false)
              angle_keywords ->
            _identify_narrative_angle articles = "conflict")
  | Raise _ => _identify_narrative_angle articles = "neutral"
  end.
Proof.
  unfold _identify_narrative_angle, Credibility.or_else.
  change (zero_counts angle_keywords) with (tally angle_keywords []).
  rewrite (count_loop_tally angle_keywords count_text_angle).
  change ([] ++ ?l)%list with l.
  destruct (mapM full_text articles) as [texts|e]; [|reflexivity].
  unfold mbind, pyres_bind, mret, pyres_ret. cbv beta iota.
  unfold tally, angle_keywords. cbn [List.map fst snd]. unfold max_by_count. cbv beta iota.
  match goal with |- context [first_max ?b ?l] =>
    destruct (first_max_spec l b) as (bf & af & Heq & Hb & Ha);
    set (best := first_max b l) in *; clearbody best end.
  assert (Hzero : Forall (fun entry : string * list string =>
                            existsb (mentions (snd entry)) texts = false)
                    [("conflict", ["conflict"; "dispute"; "battle"; "fight"; "opposition"]);
                     ("cooperation", ["cooperation"; "partnership"; "collaboration";
                                      "agreement"]);
                     ("progress", ["progress"; "advance"; "improve"; "develop"; "growth"]);
                     ("crisis", ["crisis"; "emergency"; "danger"; "threat"; "problem"]);
                     ("opportunity", ["opportunity"; "chance"; "potential"; "prospect"])] ->
                  fst best = "conflict").
  { intros Hz.
    assert (Hc : forall k, existsb (mentions k) texts = false -> mention_count k texts = 0).
    { intros k Hk. pose proof (mention_count_positive k texts) as Hp. rewrite Hk in Hp.
      rewrite Z.gtb_ltb in Hp. apply Z.ltb_ge in Hp. unfold mention_count in *. lia. }
    repeat match goal with
           | H : Forall _ (_ :: _) |- _ => inversion H; subst; clear H
           end.
    cbn [snd] in *.
    destruct bf as [|b0 bf'].
    - simpl in Heq. injection Heq as Hbest Haf. rewrite <- Hbest. reflexivity.
    - exfalso. simpl in Heq. injection Heq as Hbest Haf. subst b0.
      inversion Hb as [|? ? Hlt _]. subst. cbn [snd] in Hlt.
      assert (Hin : In best
        [("cooperation", mention_count ["cooperation"; "partnership"; "collaboration";
                                        "agreement"] texts);
         ("progress", mention_count ["progress"; "advance"; "improve"; "develop"; "growth"]
                        texts);
         ("crisis", mention_count ["crisis"; "emergency"; "danger"; "threat"; "problem"]
                      texts);
         ("opportunity", mention_count ["opportunity"; "chance"; "potential"; "prospect"]
                           texts)]).
      { rewrite Haf. apply in_or_app. right. left. reflexivity. }
      repeat match goal with
             | H : existsb _ texts = false |- _ => apply Hc in H
             end.
      simpl in Hin.
      repeat (destruct Hin as [Hin|Hin]; [rewrite <- Hin in Hlt; cbn [snd] in Hlt; lia|]).
      contradiction. }
  (* The position of the best item in the counts is its position in the table. *)
  destruct bf as [|b1 [|b2 [|b3 [|b4 [|b5 bf']]]]]; simpl in Heq;
    injection Heq as; subst; cbn [fst snd] in *;
    [eexists [], _, _ | eexists [_], _, _ | eexists [_; _], _, _
     | eexists [_; _; _], _, _ | eexists [_; _; _; _], _, _
     | destruct bf'; discriminate];
    (split; [reflexivity|]);
    repeat match goal with
           | H : Forall _ (_ :: _) |- _ => inversion H; subst; clear H
           end;
    cbn [snd] in *;
    (split; [|split; [|exact Hzero]]); repeat constructor; cbn [snd]; assumption.
Qed.

End ComparatorProofs.

(** ** The bias analyzer: one article per source, and grouping by source *)
Module BiasSourcesProofs.
Import Py Fetcher BiasSources BiasRules.

Lemma group_of_append_same k a g :
  group_of k (append_to k a g) = Some (default [] (group_of k g) ++ [a])%list.
Proof.
  induction g as [|[k' l] g IH]; simpl.
  - rewrite decide_True by reflexivity. reflexivity.
  - destruct (decide (k' = k)) as [->|Hne]; simpl.
    + rewrite decide_True by reflexivity. reflexivity.
    + rewrite decide_False by assumption. exact IH.
Qed.

Lemma group_of_append_other k k' a g :
  k' <> k -> group_of k' (append_to k a g) = group_of k' g.
Proof.
  intros Hne. induction g as [|[k0 l] g IH]; simpl.
  - rewrite decide_False by congruence. reflexivity.
  - destruct (decide (k0 = k)) as [->|Hk]; simpl.
    + rewrite !decide_False by congruence. reflexivity.
    + destruct (decide (k0 = k')); [reflexivity | exact IH].
Qed.

Lemma keys_append k a g :
  List.map fst (append_to k a g)
  = if bool_decide (k ∈ List.map fst g) then List.map fst g
    else (List.map fst g ++ [k])%list.
Proof.
  induction g as [|[k0 l] g IH]; simpl; [reflexivity|].
  destruct (decide (k0 = k)) as [->|Hk]; simpl.
  - rewrite bool_decide_eq_true_2 by (left). reflexivity.
  - rewrite IH. destruct (bool_decide (k ∈ List.map fst g)) eqn:E.
    + apply bool_decide_eq_true in E. rewrite bool_decide_eq_true_2 by (right; exact E).
      reflexivity.
    + apply bool_decide_eq_false in E. rewrite bool_decide_eq_false_2; [reflexivity|].
      intros Hin. apply elem_of_cons in Hin as [->|Hin]; [congruence | contradiction].
Qed.

Lemma keys_append_NoDup k a g :
  NoDup (List.map fst g) -> NoDup (List.map fst (append_to k a g)).
Proof.
  intros H. rewrite keys_append. destruct (bool_decide (k ∈ List.map fst g)) eqn:E; [exact H|].
  apply bool_decide_eq_false in E. apply NoDup_app. split; [exact H|]. split.
  - intros x Hx Hk. apply list_elem_of_singleton in Hk. subst x. contradiction.
  - apply NoDup_singleton.
Qed.

Lemma group_of_In k l g :
  NoDup (List.map fst g) -> (In (k, l) g <-> group_of k g = Some l).
Proof.
  induction g as [|[k0 l0] g IH]; simpl; intros Hnd.
  - split; [contradiction | discriminate].
  - apply NoDup_cons in Hnd as [Hk0 Hnd]. specialize (IH Hnd).
    destruct (decide (k0 = k)) as [->|Hne].
    + split.
      * intros [H|H]; [congruence|]. exfalso. apply Hk0.
        apply list_elem_of_In. apply (in_map fst) in H. exact H.
      * intros H. left. congruence.
    + rewrite <- IH. split; [intros [H|H]; [congruence | exact H] | auto].
Qed.

Lemma groups_for_step seen g a k :
  source_key a = Ret k ->
  groups_for seen g -> groups_for (seen ++ [a]) (append_to k a g).
Proof.
  intros Ha [Hnd Hg]. split; [apply keys_append_NoDup, Hnd|].
  intros k'. rewrite List.filter_app. simpl. unfold has_source at 2. rewrite Ha.
  destruct (decide (k = k')) as [->|Hne].
  - rewrite bool_decide_eq_true_2 by reflexivity.
    rewrite group_of_append_same, Hg.
    destruct (List.filter (has_source k') seen); reflexivity.
  - rewrite bool_decide_eq_false_2 by assumption.
    rewrite group_of_append_other by congruence.
    rewrite app_nil_r. apply Hg.
Qed.

Lemma group_loop_spec articles : forall seen g,
  groups_for seen g ->
  match group_loop articles g with
  | Ret groups => groups_for (seen ++ articles) groups
                  /\ Forall (fun a => returns (source_key a)) articles
  | Raise e => exists a, In a articles /\ source_key a = Raise e
  end.
Proof.
  induction articles as [|a rest IH]; intros seen g Hg; simpl.
  - rewrite app_nil_r. split; [exact Hg | constructor].
  - destruct (source_key a) as [k|e] eqn:Ha; simpl.
    + specialize (IH (seen ++ [a])%list (append_to k a g) (groups_for_step _ _ _ _ Ha Hg)).
      destruct (group_loop rest (append_to k a g)) as [groups|e].
      * rewrite <- app_assoc in IH. destruct IH as [IH1 IH2].
        split; [exact IH1|]. constructor; [eexists; exact Ha | exact IH2].
      * destruct IH as (a' & Hin & He). exists a'. auto.
    + exists a. auto.
Qed.

(** X24 ([_group_by_source]). When every source can be hashed, the
    result has one group per distinct source, no group is empty, and the
    group of a source holds exactly the articles of that source, in the
    order they came; every article is in the group of its source. A source
    that is a list or a dictionary makes the call raise. *)
Theorem group_by_source_partitions (articles : list dict) :
  match _group_by_source articles with
  | Ret groups =>
      NoDup (List.map fst groups)
      /\ (forall k l, In (k, l) groups ->
            l <> [] /\ l = List.filter (has_source k) articles)
      /\ (forall a, In a articles ->
            exists k l, source_key a = Ret k /\ In (k, l) groups /\ In a l)
  | Raise e => exists a, In a articles /\ source_key a = Raise e
  end.
Proof.
  unfold _group_by_source.
  assert (H0 : groups_for [] []) by (split; [constructor | reflexivity]).
  pose proof (group_loop_spec articles [] [] H0) as H.
  destruct (group_loop articles []) as [groups|e]; [|exact H].
  simpl in H. destruct H as [[Hnd Hg] Hall]. split; [exact Hnd|]. split.
  - intros k l Hin. apply (group_of_In _ _ _ Hnd) in Hin. rewrite Hg in Hin.
    destruct (List.filter (has_source k) articles) eqn:E; [discriminate|].
    inversion Hin. subst l. split; [discriminate | reflexivity].
  - intros a Hin. rewrite Forall_forall in Hall. destruct (Hall a) as [k Hk].
    { apply list_elem_of_In, Hin. }
    assert (Hf : In a (List.filter (has_source k) articles)).
    { apply List.filter_In. split; [exact Hin|]. unfold has_source. rewrite Hk.
      apply bool_decide_eq_true_2. reflexivity. }
    exists k, (List.filter (has_source k) articles). split; [exact Hk|].
    split; [|exact Hf]. apply (group_of_In _ _ _ Hnd). rewrite Hg.
    destruct (List.filter (has_source k) articles); [contradiction | reflexivity].
Qed.

Lemma mapM_snoc {A B} (f : A -> pyres B) (l : list A) (a : A) bs b :
  mapM f l = Ret bs -> f a = Ret b -> mapM f (l ++ [a]) = Ret (bs ++ [b])%list.
Proof.
  revert bs. induction l as [|x l IH]; intros bs; simpl.
  - intros H Ha. inversion H. rewrite Ha. reflexivity.
  - destruct (f x) as [y|e]; simpl; [|discriminate].
    destruct (mapM f l) as [ys|e]; simpl; [|discriminate].
    intros H Ha. inversion H. subst bs. rewrite (IH ys eq_refl Ha). reflexivity.
Qed.

(** The loop of [_fetch_multi_source_articles] keeps the articles selected
    so far, adds a sublist of the remaining ones, and never selects two
    articles of one source or more than [max_sources] articles. *)
Lemma filter_loop_spec max_sources articles : forall unique filtered ks result,
  mapM source_key filtered = Ret ks ->
  NoDup ks ->
  (forall k, k ∈ unique <-> k ∈ ks) ->
  Z.of_nat (List.length filtered) <= Z.max 0 max_sources ->
  filter_loop max_sources articles unique filtered = Ret result ->
  (exists more, result = (filtered ++ more)%list /\ more `sublist_of` articles)
  /\ (exists keys, mapM source_key result = Ret keys /\ NoDup keys)
  /\ Z.of_nat (List.length result) <= Z.max 0 max_sources.
Proof.
  induction articles as [|a rest IH]; intros unique filtered ks result Hks Hnd Hu Hlen; simpl.
  - intros H. inversion H. subst result. split; [|split; [eauto | exact Hlen]].
    exists []. rewrite app_nil_r. split; [reflexivity | constructor].
  - destruct (source_key a) as [k|e] eqn:Ha; simpl; [|discriminate].
    destruct (negb (bool_decide (k ∈ unique))
              && (Z.of_nat (List.length filtered) <? max_sources)) eqn:E.
    + apply andb_true_iff in E as [E1 E2].
      apply negb_true_iff, bool_decide_eq_false in E1. apply Z.ltb_lt in E2.
      intros H.
      destruct (IH ({[ k ]} ∪ unique) (filtered ++ [a])%list (ks ++ [k])%list result)
        as ((more & Hmore & Hsub) & Hkeys & Hbound); auto.
      * apply mapM_snoc; assumption.
      * apply NoDup_app. split; [exact Hnd|]. split; [|apply NoDup_singleton].
        intros x Hx Hk. apply list_elem_of_singleton in Hk. subst x.
        apply E1, Hu, Hx.
      * intros x. rewrite elem_of_union, elem_of_singleton, elem_of_app,
          list_elem_of_singleton, Hu. tauto.
      * rewrite length_app. simpl. lia.
      * split; [|split; assumption].
        exists (a :: more). rewrite Hmore, <- app_assoc. split; [reflexivity|].
        apply sublist_skip, Hsub.
    + intros H.
      destruct (IH unique filtered ks result) as ((more & Hmore & Hsub) & Hkeys & Hbound);
        auto.
      split; [|split; assumption].
      exists more. split; [exact Hmore | apply sublist_cons, Hsub].
Qed.

(** X25 ([_fetch_multi_source_articles]). The call never raises. When
    the fetch fails, or when some fetched article has a source that cannot
    be hashed, the result is the empty list. Otherwise the result is a
    selection of the fetched articles, in their order, with at most
    [max_sources] articles and no two articles of the same source. *)
Theorem multi_source_selection (container_repr : pyval -> string)
    (date_back : Z -> string) (search_days_back : Z) (depth : nat)
    (env : nat -> attempt) (topic : string) (max_sources : Z) (s : fetcher) :
  let fetched := fetch_news container_repr date_back depth env topic
                   (max_sources * 3) search_days_back s in
  let out := _fetch_multi_source_articles container_repr date_back search_days_back
               depth env topic max_sources s in
  snd out = snd fetched
  /\ exists result,
       fst out = Ret result
       /\ Z.of_nat (List.length result) <= Z.max 0 max_sources
       /\ (exists keys, mapM source_key result = Ret keys /\ NoDup keys)
       /\ match fst fetched with
          | Ret articles =>
              result `sublist_of` articles
              /\ (forall a, In a articles -> raises (source_key a) -> result = [])
          | Raise _ => result = []
          end.
Proof.
  cbv zeta. unfold _fetch_multi_source_articles. run_monad.
  destruct (fetch_news container_repr date_back depth env topic (max_sources * 3)
              search_days_back s) as [[articles|e] s']; simpl.
  - split; [destruct (filter_loop max_sources articles ∅ []); reflexivity|].
    destruct (filter_loop max_sources articles ∅ []) as [result|e] eqn:E; simpl.
    + destruct (filter_loop_spec max_sources articles ∅ [] [] result)
        as ((more & Hmore & Hsub) & Hkeys & Hbound); auto.
      * constructor.
      * intros k. rewrite elem_of_nil. set_solver.
      * simpl. lia.
      * exists result. split; [reflexivity|]. split; [exact Hbound|].
        split; [exact Hkeys|]. simpl in Hmore. subst more. split; [exact Hsub|].
        intros a Hin [x Hx]. exfalso. clear - E Hin Hx.
        revert E. generalize (∅ : gset key), (@nil dict).
        induction articles as [|a0 rest IH]; [contradiction|].
        intros u f. simpl.
        destruct (source_key a0) as [k|e] eqn:Ha0; simpl; [|discriminate].
        destruct Hin as [->|Hin]; [congruence|].
        destruct (negb (bool_decide (k ∈ u)) && _); apply IH; exact Hin.
    + exists []. split; [reflexivity|]. split; [simpl; lia|].
      split; [exists []; split; [reflexivity | constructor]|].
      split; [apply sublist_nil_l | reflexivity].
  - split; [reflexivity|]. exists []. split; [reflexivity|]. split; [simpl; lia|].
    split; [exists []; split; [reflexivity | constructor] | reflexivity].
Qed.

End BiasSourcesProofs.

(** ** The bias analyzer: a failed factual analysis *)
Module BiasScoresProofs.
Import Py Bias BiasScores.

Section Analyzer.
Variable container_repr : pyval -> string.

Lemma count_issues_raises articles (a : dict) : forall n,
  In a articles ->
  (forall s, get a "content" (PStr "") <> PStr s) ->
  exists e, count_issues articles n = Raise e /\ exn_cls e = AttributeError.
Proof.
  induction articles as [|a0 rest IH]; intros n Hin Hnot; [contradiction|].
  simpl. unfold has_red_flag at 1.
  destruct (get a0 "content" (PStr "")) as [|z|s|l|d] eqn:E0; simpl;
    try (eexists; split; reflexivity).
  destruct Hin as [->|Hin]; [exfalso; apply (Hnot s); exact E0|].
  apply IH; assumption.
Qed.

(** X29 ([_analyze_source_bias] when the factual analysis fails). If the
    content of some article is not a text, the factual analysis of the
    source ends in an error, which the report keeps; the overall bias is
    still computed, and it is the score the source would get with a
    factual consistency of 0: the failure counts as the worst possible
    result and adds the full factual weight to the bias. *)
Theorem failed_fact_check_counts_as_worst (articles : list dict) (a : dict) :
  In a articles ->
  (forall s, get a "content" (PStr "") <> PStr s) ->
  exists r message,
    _analyze_source_bias container_repr articles = Analysis r
    /\ factual_consistency r = FactError message
    /\ (forall ratio,
          overall_bias_score r
          = _calculate_overall_bias (sentiment_bias r) (language_bias r)
              (FactScores ratio (NFloat 0%float)))
    /\ bias_level r = _classify_bias_level (overall_bias_score r).
Proof.
  intros Hin Hnot. destruct articles as [|first rest]; [contradiction|].
  destruct (count_issues_raises (first :: rest) a 0 Hin Hnot) as (e & He & _).
  unfold _analyze_source_bias.
  assert (Hf : _analyze_factual_consistency (first :: rest) = FactError (exn_str e)).
  { unfold _analyze_factual_consistency. rewrite He. reflexivity. }
  eexists. exists (exn_str e). split; [reflexivity|]. cbn [factual_consistency
    overall_bias_score sentiment_bias language_bias bias_level].
  split; [exact Hf|]. split; [|reflexivity].
  intros ratio. rewrite Hf. unfold _calculate_overall_bias.
  cbn [consistency_or_zero one_minus to_float].
  replace (float_of_Z (1 - 0)) with (1 - 0)%float by (vm_compute; reflexivity).
  reflexivity.
Qed.

End Analyzer.

Lemma failed_fact_check_counts_as_worst_witness :
  exists r,
    _analyze_source_bias BiasSamples.no_repr [CredibilityRuns.null_content] = Analysis r
    /\ factual_consistency r = FactError "'NoneType' object has no attribute 'lower'"
    /\ bias_level r = "Moderate".
Proof.
  destruct (failed_fact_check_counts_as_worst BiasSamples.no_repr
              [CredibilityRuns.null_content] CredibilityRuns.null_content)
    as (r & message & Hr & Hf & _ & Hl).
  - left. reflexivity.
  - intros s. vm_compute. discriminate.
  - exists r. split; [exact Hr|].
    assert (Heq : Analysis r
                  = _analyze_source_bias BiasSamples.no_repr [CredibilityRuns.null_content])
      by (symmetry; exact Hr).
    assert (Hr' : r = match _analyze_source_bias BiasSamples.no_repr
                              [CredibilityRuns.null_content] with
                      | Analysis r0 => r0
                      | AnalysisError _ => r
                      end) by (rewrite <- Heq; reflexivity).
    rewrite Hr'. split; vm_compute; reflexivity.
Defined.

End BiasScoresProofs.
